(** * Zotero batch literature analysis: a verified model

    A shallow embedding of the three scripts of the repository

      - [step3_batch_analyze/analyze.py]   (module [Analyze])
      - [step3_batch_analyze/summarize.py] (module [Summarize])
      - [step4_outline/deep_analysis.py]   (module [DeepAnalysis])

    preceded by the part of the Python runtime they rely on: exceptions,
    strings, JSON values, dictionaries and [Counter].

    Conventions.
      - A Python [str] is the Rocq [string] of its UTF-8 encoding; its
        characters are counted, sliced and classified as code points.
      - A JSON document is the value [json.load] yields for it.  A file on
        disk is either such a document or text that [json.load] rejects.
      - A Python [dict] is an association list in insertion order with
        pairwise distinct keys.
      - Code that can raise returns an [Outcome]; a [try]/[except] is a
        match on it. *)

From Stdlib Require Import ZArith QArith Ascii String List Floats.SpecFloat.
From stdpp Require Import gmap strings list fin_maps sorting pretty.

Set Warnings "-register-all".

Local Open Scope string_scope.
Local Open Scope Z_scope.

(** ** Exceptions *)

Inductive Exn : Set :=
  | KeyError | IndexError | TypeError | AttributeError | ValueError
  | OverflowError | JSONDecodeError | RequestException.

Global Instance Exn_eq_dec : EqDecision Exn.
Proof. solve_decision. Defined.

Inductive Outcome (A : Type) : Type :=
  | Ok (a : A)
  | Raise (e : Exn).
Arguments Ok {A} a.
Arguments Raise {A} e.

Global Instance Outcome_ret : MRet Outcome := fun _ a => Ok a.
Global Instance Outcome_bind : MBind Outcome := fun _ _ f m =>
  match m with Ok a => f a | Raise e => Raise e end.

Definition returns {A} (m : Outcome A) : bool :=
  match m with Ok _ => true | Raise _ => false end.

(** [mapM f l]: a list comprehension [[f(x) for x in l]] whose body can raise. *)
Fixpoint mapM {A B} (f : A -> Outcome B) (l : list A) : Outcome (list B) :=
  match l with
  | [] => Ok []
  | x :: l' => y ← f x; ys ← mapM f l'; Ok (y :: ys)
  end.

(** ** Strings

    A Python [str] is a sequence of code points.  It is represented by its
    UTF-8 encoding: a character is a byte that is not a continuation byte
    ([10xxxxxx]) together with the continuation bytes that follow it.
    Comparing, concatenating and searching strings is the same on the
    encoding as on the code points; counting, slicing and classifying
    characters goes through [chars]. *)

Module Str.

Definition continuation (c : ascii) : bool :=
  let n := N_of_ascii c in
  ((128 <=? n) && (n <? 192))%N.

Definition starts_inside (s : string) : bool :=
  match s with
  | String c _ => continuation c
  | EmptyString => false
  end.

Definition cons_byte (c : ascii) (l : list string) : list string :=
  match l with
  | ch :: rest =>
      if starts_inside ch then String c ch :: rest else String c EmptyString :: l
  | [] => [String c EmptyString]
  end.

(** The characters of [s], each with its bytes. *)
Fixpoint chars (s : string) : list string :=
  match s with
  | EmptyString => []
  | String c s' => cons_byte c (chars s')
  end.

Definition concat (l : list string) : string := foldr String.append EmptyString l.

(** [len(s)] *)
Definition len (s : string) : Z := Z.of_nat (length (chars s)).

(** [s[:n]] *)
Definition take (n : nat) (s : string) : string := concat (List.firstn n (chars s)).

Definition of_bytes (l : list N) : string :=
  string_of_list_ascii (ascii_of_N <$> l).

(** The code point of a character, [None] for bytes that are not the
    UTF-8 encoding of one code point. *)
Definition codepoint (ch : string) : option N :=
  match N_of_ascii <$> list_ascii_of_string ch with
  | [a] => if (a <? 128)%N then Some a else None
  | [a; b] =>
      if ((194 <=? a) && (a <? 224))%N then Some ((a - 192) * 64 + (b - 128))%N
      else None
  | [a; b; c] =>
      let n := ((a - 224) * 4096 + (b - 128) * 64 + (c - 128))%N in
      if ((224 <=? a) && (a <? 240) && (2048 <=? n))%N then Some n else None
  | [a; b; c; d] =>
      let n := ((a - 240) * 262144 + (b - 128) * 4096 + (c - 128) * 64 + (d - 128))%N in
      if ((240 <=? a) && (a <? 248) && (65536 <=? n))%N then Some n else None
  | _ => None
  end.

(** The characters for which [c.isspace()] holds: TAB, LF, VT, FF, CR, FS,
    GS, RS, US, the blank, NEL, the no-break space, the Ogham space mark,
    U+2000 to U+200A, the line and paragraph separators, the narrow
    no-break space, the medium mathematical space and the ideographic
    space. *)
Definition white_space : list N :=
  [9; 10; 11; 12; 13; 28; 29; 30; 31; 32; 133; 160; 5760;
   8192; 8193; 8194; 8195; 8196; 8197; 8198; 8199; 8200; 8201; 8202;
   8232; 8233; 8239; 8287; 12288]%N.

Definition isspace (ch : string) : bool :=
  match codepoint ch with
  | Some n => existsb (N.eqb n) white_space
  | None => false
  end.

(** [c.upper()] and [c.lower()] of a character, as far as ASCII goes: an
    ASCII letter changes case, and a character outside ASCII whose upper
    (lower) case form contains ASCII characters is replaced by that form.
    Every other character outside ASCII is kept as it is; its form in
    Python has no ASCII character either, and the scripts only look for
    ASCII text in the result ([c in "ABCDEF"], [kw in sl]). *)
Definition upper_forms : list (N * string) :=
  [ (223, "SS"); (305, "I"); (329, of_bytes [202; 188; 78]); (383, "S");
    (496, of_bytes [74; 204; 140]); (7830, of_bytes [72; 204; 177]);
    (7831, of_bytes [84; 204; 136]); (7832, of_bytes [87; 204; 138]);
    (7833, of_bytes [89; 204; 138]); (7834, of_bytes [65; 202; 190]);
    (64256, "FF"); (64257, "FI"); (64258, "FL"); (64259, "FFI");
    (64260, "FFL"); (64261, "ST"); (64262, "ST") ]%N.

Definition lower_forms : list (N * string) :=
  [ (304, of_bytes [105; 204; 135]); (8490, "k") ]%N.

Fixpoint form_of (n : N) (forms : list (N * string)) : option string :=
  match forms with
  | [] => None
  | (m, f) :: rest => if (n =? m)%N then Some f else form_of n rest
  end.

Definition upper_char (ch : string) : string :=
  match codepoint ch with
  | Some n =>
      if ((97 <=? n) && (n <=? 122))%N then String (ascii_of_N (n - 32)) EmptyString
      else match form_of n upper_forms with Some f => f | None => ch end
  | None => ch
  end.

Definition lower_char (ch : string) : string :=
  match codepoint ch with
  | Some n =>
      if ((65 <=? n) && (n <=? 90))%N then String (ascii_of_N (n + 32)) EmptyString
      else match form_of n lower_forms with Some f => f | None => ch end
  | None => ch
  end.

Definition upper (s : string) : string := concat (upper_char <$> chars s).
Definition lower (s : string) : string := concat (lower_char <$> chars s).

Fixpoint drop_while {A} (p : A -> bool) (l : list A) : list A :=
  match l with
  | x :: l' => if p x then drop_while p l' else l
  | [] => []
  end.

Definition lstrip (s : string) : string := concat (drop_while isspace (chars s)).

(** [l] without its longest suffix of items that satisfy [p]: an item is
    kept when it does not satisfy [p] or when something is kept after it. *)
Fixpoint drop_end {A} (p : A -> bool) (l : list A) : list A :=
  match l with
  | [] => []
  | x :: l' =>
      match drop_end p l' with
      | [] => if p x then [] else [x]
      | r => x :: r
      end
  end.

Definition rstrip (s : string) : string := concat (drop_end isspace (chars s)).

Definition strip (s : string) : string := rstrip (lstrip s).

Definition startswith (p s : string) : bool := String.prefix p s.

(** [sub in s]. *)
Fixpoint contains (sub s : string) : bool :=
  String.prefix sub s ||
  match s with
  | EmptyString => false
  | String _ s' => contains sub s'
  end.

(** [any(kw in s for kw in kws)]. *)
Definition any_in (kws : list string) (s : string) : bool :=
  existsb (fun kw => contains kw s) kws.

(** [s[0]], a one-character string. *)
Definition index0 (s : string) : Outcome string :=
  match chars s with
  | [] => Raise IndexError
  | ch :: _ => Ok ch
  end.

End Str.

(** ** JSON values and dictionaries *)

Inductive json : Type :=
  | JNull
  | JBool (b : bool)
  | JInt (z : Z)
  | JFloat (f : spec_float)
  | JStr (s : string)
  | JArr (l : list json)
  | JObj (d : list (string * json)).

Abbreviation dict := (list (string * json)).

Module Dict.

(** [d.get(k)] *)
Fixpoint get (k : string) (d : dict) : option json :=
  match d with
  | [] => None
  | (k', v) :: d' => if String.eqb k k' then Some v else get k d'
  end.

(** [k in d] *)
Definition has (k : string) (d : dict) : bool :=
  match get k d with Some _ => true | None => false end.

(** [d[k] = v]: an existing key keeps its position, a new one goes last. *)
Fixpoint set (k : string) (v : json) (d : dict) : dict :=
  match d with
  | [] => [(k, v)]
  | (k', v') :: d' =>
      if String.eqb k k' then (k, v) :: d' else (k', v') :: set k v d'
  end.

(** [d.get(k, default)] *)
Definition get_default (k : string) (default : json) (d : dict) : json :=
  match get k d with Some v => v | None => default end.

(** [d.get(k)] with Python's [None] for a missing key. *)
Definition get_none (k : string) (d : dict) : json := get_default k JNull d.

Definition keys (d : dict) : list string := List.map fst d.

End Dict.

(** Truth value of a JSON value, as [not v] tests it. *)
Definition truthy (v : json) : bool :=
  match v with
  | JNull => false
  | JBool b => b
  | JInt z => negb (z =? 0)
  | JFloat f =>
      match f with S754_zero _ => false | S754_finite _ _ _ | S754_infinity _ | S754_nan => true end
  | JStr s => negb (String.eqb s "")
  | JArr l => match l with [] => false | _ => true end
  | JObj d => match d with [] => false | _ => true end
  end.

(** Iterating over a JSON value ([for c in v]): the items of a list, the
    characters of a string, the keys of a dict. *)
Definition py_iter (v : json) : Outcome (list json) :=
  match v with
  | JArr l => Ok l
  | JStr s => Ok (JStr <$> Str.chars s)
  | JObj d => Ok (JStr <$> Dict.keys d)
  | JNull | JBool _ | JInt _ | JFloat _ => Raise TypeError
  end.

(** ** The category taxonomy: [normalize_category]

    The same function in [summarize.py] and [deep_analysis.py]. *)

Definition isinstance_str (v : json) : bool :=
  match v with JStr _ => true | _ => false end.

Definition normalize_category (cat : json) : Outcome string :=
  if negb (truthy cat) || negb (isinstance_str cat) then Ok "Unknown"
  else
    match cat with
    | JStr s =>
        c0 ← Str.index0 (Str.strip s);
        let c := Str.upper c0 in
        if Str.contains c "ABCDEF" then Ok c else Ok "Unknown"
    | _ => Ok "Unknown"
    end.

Definition categories : list string := ["A"; "B"; "C"; "D"; "E"; "F"].
Definition category_values : list string := categories ++ ["Unknown"].

(** ** [int(v)] on a JSON value

    [int] of a string first replaces every white-space character outside
    ASCII by a blank and every decimal digit of another script by its
    ASCII digit (anything else outside ASCII cannot be part of a number),
    and then reads: white space (TAB, LF, VT, FF, CR and the blank only),
    an optional sign, digits with single underscores between them, white
    space.  More than 4300 digits are refused. *)

(** The code points of the digit zero of the scripts with decimal digits
    (Unicode 14.0, as in CPython 3.11); the other nine digits follow. *)
Definition decimal_zeros : list N :=
  [48; 1632; 1776; 1984; 2406; 2534; 2662; 2790; 2918; 3046; 3174; 3302; 3430;
   3558; 3664; 3792; 3872; 4160; 4240; 6112; 6160; 6470; 6608; 6784; 6800;
   6992; 7088; 7232; 7248; 42528; 43216; 43264; 43472; 43504; 43600; 44016;
   65296; 66720; 68912; 69734; 69872; 69942; 70096; 70384; 70736; 70864; 71248;
   71360; 71472; 71904; 72016; 72784; 73040; 73120; 92768; 92864; 93008;
   120782; 120792; 120802; 120812; 120822; 123200; 123632; 125264; 130032]%N.

Definition decimal (n : N) : option N :=
  match List.find (fun z => (z <=? n) && (n <? z + 10))%N decimal_zeros with
  | Some z => Some (n - z)%N
  | None => None
  end.

Definition ascii_form (ch : string) : ascii :=
  match Str.codepoint ch with
  | Some n =>
      if (n <? 127)%N then ascii_of_N n
      else if Str.isspace ch then " "%char
      else match decimal n with
           | Some d => ascii_of_N (48 + d)
           | None => "?"%char
           end
  | None => "?"%char
  end.

Definition c_isspace (c : ascii) : bool :=
  let n := N_of_ascii c in
  ((9 <=? n) && (n <=? 13) || (n =? 32))%N.

Definition digit_val (c : ascii) : option Z :=
  let n := N_of_ascii c in
  if ((48 <=? n) && (n <=? 57))%N then Some (Z.of_N n - 48) else None.

Definition MAX_STR_DIGITS : nat := 4300.

(** The digits, with their number; [after_digit] tells whether the
    character before was a digit. *)
Fixpoint parse_digits (acc : Z) (count : nat) (after_digit : bool) (l : list ascii)
  : option (Z * nat) :=
  match l with
  | [] => if after_digit then Some (acc, count) else None
  | c :: l' =>
      match digit_val c with
      | Some d => parse_digits (10 * acc + d) (S count) true l'
      | None =>
          if Ascii.eqb c "_" then
            if after_digit then parse_digits acc count false l' else None
          else if after_digit && forallb c_isspace l then Some (acc, count)
          else None
      end
  end.

Definition int_of_str (s : string) : Outcome Z :=
  let body := Str.drop_while c_isspace (ascii_form <$> Str.chars s) in
  let '(negative, digits) :=
    match body with
    | "-"%char :: ds => (true, ds)
    | "+"%char :: ds => (false, ds)
    | _ => (false, body)
    end in
  match parse_digits 0 O false digits with
  | Some (z, count) =>
      if (MAX_STR_DIGITS <? count)%nat then Raise ValueError
      else Ok (if negative then - z else z)
  | None => Raise ValueError
  end.

(** Truncation towards zero; infinities and NaN are rejected. *)
Definition int_of_float (f : spec_float) : Outcome Z :=
  match f with
  | S754_zero _ => Ok 0
  | S754_infinity _ => Raise OverflowError
  | S754_nan => Raise ValueError
  | S754_finite neg m e =>
      let a := Z.shiftl (Z.pos m) e in Ok (if neg then - a else a)
  end.

Definition py_int (v : json) : Outcome Z :=
  match v with
  | JInt z => Ok z
  | JBool b => Ok (if b then 1 else 0)
  | JFloat f => int_of_float f
  | JStr s => int_of_str s
  | JNull | JArr _ | JObj _ => Raise TypeError
  end.

Definition is_None (v : json) : bool :=
  match v with JNull => true | _ => false end.

(** ** The persisted store

    [~/Zotero/storage]: one directory per corpus item, holding the PDFs
    that [glob("*.pdf")] finds (in glob order) and, once processed,
    [analysis.json]. *)

Inductive FileContent : Type :=
  | Doc (j : json)        (* [json.load] returns [j] *)
  | Garbage.              (* [json.load] raises *)

Inductive Pdf : Type :=
  | Readable (pages : list string)   (* [page.get_text()] of each page *)
  | Unreadable (msg : string).       (* the [try] block raises [e], [str(e) = msg] *)

Record Folder : Type := {
  pdfs : list (string * Pdf);
  analysis : option FileContent
}.

Definition listdir (storage : gmap string Folder) : list string :=
  (map_to_list storage).*1.

Definition sorted (l : list string) : list string := merge_sort String.le l.

Definition analysis_of (storage : gmap string Folder) (folder : string)
  : option FileContent :=
  storage !! folder ≫= analysis.

Definition json_load (c : FileContent) : Outcome json :=
  match c with Doc j => Ok j | Garbage => Raise JSONDecodeError end.

(** [data[k] = v] on the value [json.load] returned. *)
Definition setitem (data : json) (k : string) (v : json) : Outcome dict :=
  match data with
  | JObj d => Ok (Dict.set k v d)
  | _ => Raise TypeError
  end.

(** The secondary categories are re-normalised only when the key is there. *)
Definition normalize_secondary (d : dict) : Outcome dict :=
  if Dict.has "secondary_categories" d then
    items ← py_iter (Dict.get_default "secondary_categories" (JArr []) d);
    cs ← mapM normalize_category items;
    Ok (Dict.set "secondary_categories" (JArr (JStr <$> cs)) d)
  else Ok d.

(** ** Dictionary keys and [Counter]

    A key must be hashable; two keys are the same entry when Python's [==]
    holds between them, which identifies [True], [1] and [1.0]. *)

Inductive numval : Type :=
  | NFin (m e : Z)      (* m * 2^e *)
  | NInf (neg : bool)
  | NNan.

Definition numval_of (v : json) : option numval :=
  match v with
  | JBool b => Some (NFin (if b then 1 else 0) 0)
  | JInt z => Some (NFin z 0)
  | JFloat (S754_zero _) => Some (NFin 0 0)
  | JFloat (S754_infinity neg) => Some (NInf neg)
  | JFloat S754_nan => Some NNan
  | JFloat (S754_finite neg m e) => Some (NFin (if neg then Z.neg m else Z.pos m) e)
  | JNull | JStr _ | JArr _ | JObj _ => None
  end.

Definition numval_eqb (a b : numval) : bool :=
  match a, b with
  | NFin m1 e1, NFin m2 e2 =>
      let e := Z.min e1 e2 in
      m1 * 2 ^ (e1 - e) =? m2 * 2 ^ (e2 - e)
  | NInf s1, NInf s2 => Bool.eqb s1 s2
  | _, _ => false
  end.

Definition hashable (v : json) : bool :=
  match v with JArr _ | JObj _ => false | _ => true end.

Definition key_eqb (a b : json) : bool :=
  match a, b with
  | JNull, JNull => true
  | JStr s1, JStr s2 => String.eqb s1 s2
  | _, _ =>
      match numval_of a, numval_of b with
      | Some x, Some y => numval_eqb x y
      | _, _ => false
      end
  end.

Module Counter.

(** Entries in insertion order. *)
Definition t (V : Type) : Type := list (json * V).

(** [c.get(k)] *)
Fixpoint get {V} (k : json) (c : t V) : option V :=
  match c with
  | [] => None
  | (k', v) :: c' => if key_eqb k' k then Some v else get k c'
  end.

(** [c[k] = f(c.get(k))] for a hashable [k]. *)
Fixpoint upd {V} (k : json) (f : option V -> V) (c : t V) : t V :=
  match c with
  | [] => [(k, f None)]
  | (k', v) :: c' =>
      if key_eqb k' k then (k', f (Some v)) :: c' else (k', v) :: upd k f c'
  end.

Definition update {V} (k : json) (f : option V -> V) (c : t V) : Outcome (t V) :=
  if hashable k then Ok (upd k f c) else Raise TypeError.

(** [c[k] = c.get(k, 0) + 1], which is also [c[k] += 1] on a [Counter]. *)
Definition incr (k : json) (c : t nat) : Outcome (t nat) :=
  update k (fun o => S (default O o)) c.

Definition values {V} (c : t V) : list V := c.*2.

(** [sum(c.values())] *)
Definition total (c : t nat) : nat := foldr Nat.add O (values c).

End Counter.

(** * summarize.py *)

Module Summarize.

(** The relevance-score step of [load_all]: [int(rs)] unless [rs] is
    [None], with 0 on [ValueError] and [TypeError]. *)
Definition coerce_score (d : dict) : Outcome dict :=
  let rs := Dict.get_none "relevance_score" d in
  if negb (is_None rs) then
    match py_int rs with
    | Ok z => Ok (Dict.set "relevance_score" (JInt z) d)
    | Raise ValueError | Raise TypeError => Ok (Dict.set "relevance_score" (JInt 0) d)
    | Raise e => Raise e
    end
  else Ok d.

(** The body of the [try] in [load_all], for one existing file. *)
Definition load_one (folder : string) (c : FileContent) : Outcome dict :=
  data ← json_load c;
  d ← setitem data "_folder" (JStr folder);
  pc ← normalize_category (Dict.get_none "primary_category" d);
  let d := Dict.set "primary_category" (JStr pc) d in
  d ← normalize_secondary d;
  coerce_score d.

(** The loop of [load_all] over a list of folder names: [results] and
    [errors] in the order they are appended. *)
Fixpoint load_folders (storage : gmap string Folder) (folders : list string)
  : list dict * list (string * Exn) :=
  match folders with
  | [] => ([], [])
  | folder :: rest =>
      let '(results, errors) := load_folders storage rest in
      match analysis_of storage folder with
      | Some c =>
          match load_one folder c with
          | Ok data => (data :: results, errors)
          | Raise e => (results, (folder, e) :: errors)
          end
      | None => (results, errors)
      end
  end.

Definition load_all (storage : gmap string Folder)
  : list dict * list (string * Exn) :=
  load_folders storage (sorted (listdir storage)).

(** [main], section 1: the primary-category tally. *)
Fixpoint primary_counts (results : list dict) (primary : Counter.t nat)
  : Outcome (Counter.t nat) :=
  match results with
  | [] => Ok primary
  | r :: rest =>
      let cat := Dict.get_default "primary_category" (JStr "Unknown") r in
      primary ← Counter.incr cat primary;
      primary_counts rest primary
  end.

(** [main], section 8: [cross[cat][score] += 1] on a
    [defaultdict(Counter)]. *)
Fixpoint crosstab (results : list dict) (cross : Counter.t (Counter.t nat))
  : Outcome (Counter.t (Counter.t nat)) :=
  match results with
  | [] => Ok cross
  | r :: rest =>
      let cat := Dict.get_default "primary_category" (JStr "?") r in
      let score := Dict.get_default "relevance_score" (JStr "?") r in
      row ← Counter.incr score (default [] (Counter.get cat cross));
      cross ← Counter.update cat (fun _ => row) cross;
      crosstab rest cross
  end.

(** The row of the printed table: [cross.get(cat, {})], its five score
    columns [row.get(s, 0)] and [sum(row.values())]. *)
Definition row_of (cross : Counter.t (Counter.t nat)) (cat : string)
  : Counter.t nat :=
  default [] (Counter.get (JStr cat) cross).

Definition row_cell (cross : Counter.t (Counter.t nat)) (cat : string) (s : Z)
  : nat :=
  default O (Counter.get (JInt s) (row_of cross cat)).

Definition row_total (cross : Counter.t (Counter.t nat)) (cat : string) : nat :=
  Counter.total (row_of cross cat).

(** [primary.get(cat, 0)] *)
Definition category_count (primary : Counter.t nat) (cat : string) : nat :=
  default O (Counter.get (JStr cat) primary).

End Summarize.

(** * deep_analysis.py *)

Module DeepAnalysis.

Definition safe_int_or (v : json) (default : Z) : Z :=
  match py_int v with Ok z => z | Raise _ => default end.

Definition safe_int (v : json) : Z := safe_int_or v 0.

Definition load_one (folder : string) (c : FileContent) : Outcome dict :=
  data ← json_load c;
  d ← setitem data "_folder" (JStr folder);
  pc ← normalize_category (Dict.get_none "primary_category" d);
  let d := Dict.set "primary_category" (JStr pc) d in
  let d := Dict.set "relevance_score"
             (JInt (safe_int (Dict.get_none "relevance_score" d))) d in
  let d := Dict.set "year" (JInt (safe_int (Dict.get_none "year" d))) d in
  normalize_secondary d.

(** [except Exception: pass]: a failing file leaves no trace. *)
Fixpoint load_folders (storage : gmap string Folder) (folders : list string)
  : list dict :=
  match folders with
  | [] => []
  | folder :: rest =>
      match analysis_of storage folder with
      | Some c =>
          match load_one folder c with
          | Ok data => data :: load_folders storage rest
          | Raise _ => load_folders storage rest
          end
      | None => load_folders storage rest
      end
  end.

Definition load_all (storage : gmap string Folder) : list dict :=
  load_folders storage (sorted (listdir storage)).

(** [normalize_technique]: the chain of keyword tests, first match wins. *)
Definition normalize_technique (s : string) : string :=
  let s := Str.strip s in
  let sl := Str.lower s in
  if Str.any_in ["multi-fidelity"; "multifidelity"; "multi fidelity";
                 "dual fidelity"; "bi-fidelity"] sl
  then "Multi-Fidelity Data Fusion"
  else if Str.any_in ["transfer learn"; "fine-tun"; "fine tun"] sl
  then "Transfer Learning"
  else if Str.any_in ["physics-inform"; "physics inform"; "pinn";
                      "physics-guided"; "physics constrain"] sl
  then "Physics-Informed Methods / PINN"
  else if Str.any_in ["surrogate"; "emulat"; "metamodel"] sl
  then "Surrogate Modeling"
  else if Str.any_in ["data augment"] sl
  then "Data Augmentation"
  else if Str.any_in ["virtual sample"; "synthetic sample"; "synthetic data"] sl
  then "Virtual Sample Generation"
  else if Str.any_in ["active learn"; "adaptive sampling"; "adaptive sample"] sl
  then "Active Learning / Adaptive Sampling"
  else if Str.any_in ["few-shot"; "few shot"; "small sample"; "small data";
                      "low-data"; "low data"] sl
  then "Few-Shot / Small-Data Learning"
  else if Str.any_in ["sparse"; "compress"; "compressive"] sl
  then "Sparse Methods / Compressed Sensing"
  else if Str.any_in ["gan"; "generative adversarial"; "variational autoencod";
                      "diffusion model"; "vae"] sl
  then "Generative Models (GAN/VAE/Diffusion)"
  else if Str.any_in ["multi-task"; "multitask"] sl
  then "Multi-Task Learning"
  else if Str.any_in ["uncertainty"; "bayesian"; "probabilistic"] sl
  then "Uncertainty Quantification / Bayesian Methods"
  else s.

(** The canonical names the rules return, in rule order. *)
Definition canonical_labels : list string :=
  [ "Multi-Fidelity Data Fusion"; "Transfer Learning";
    "Physics-Informed Methods / PINN"; "Surrogate Modeling";
    "Data Augmentation"; "Virtual Sample Generation";
    "Active Learning / Adaptive Sampling"; "Few-Shot / Small-Data Learning";
    "Sparse Methods / Compressed Sensing";
    "Generative Models (GAN/VAE/Diffusion)"; "Multi-Task Learning";
    "Uncertainty Quantification / Bayesian Methods" ].

End DeepAnalysis.

(** * analyze.py *)

Module Analyze.

Definition MODEL : string := "google/gemini-2.5-flash".
Definition OUTPUT_FILENAME : string := "analysis.json".
Definition MAX_TEXT_CHARS : Z := 30000.
Definition MAX_RETRIES : Z := 3.
Definition RETRY_DELAY : Z := 5.
Definition RATE_LIMIT_DELAY : Q := 1 # 2.

Definition nl : string := String (ascii_of_nat 10) EmptyString.

(** What one [requests.post] leads to, as far as [call_llm] tells the
    cases apart. *)
Inductive Response : Type :=
  | Status429                 (* [resp.status_code == 429] *)
  | HttpFailure               (* [post] or [raise_for_status] raises *)
  | BodyNotJson               (* [resp.json()] raises *)
  | Body (data : json).       (* [resp.json()] returns [data] *)

(** Observable actions, oldest first.  A request is identified by its
    user message; the system prompt is the same in every request. *)
Inductive Event : Type :=
  | EvExtract (folder pdf : string)
  | EvPost (user_content : string)
  | EvSleep (seconds : Q)
  | EvWrite (folder : string) (result : dict).

(** The collaborators: the credential, the completion service (its
    answer to the n-th request of the run), [json.loads] and the clock
    read by [time.strftime]. *)
Record Env : Type := {
  OPENROUTER_API_KEY : string;
  service : nat -> string -> Response;
  json_loads : string -> option json;
  strftime : list Event -> string
}.

Record World : Type := {
  storage : gmap string Folder;
  log : list Event
}.

Definition emit (e : Event) (w : World) : World :=
  {| storage := storage w; log := log w ++ [e] |}.

Definition is_post (e : Event) : bool :=
  match e with EvPost _ => true | _ => false end.
Definition is_extract (e : Event) : bool :=
  match e with EvExtract _ _ => true | _ => false end.
Definition is_write (e : Event) : bool :=
  match e with EvWrite _ _ => true | _ => false end.

Definition posts (l : list Event) : nat := length (List.filter is_post l).

Fixpoint total_wait (l : list Event) : Q :=
  match l with
  | [] => 0
  | EvSleep d :: l' => d + total_wait l'
  | _ :: l' => total_wait l'
  end.

Definition sleep (seconds : Q) (w : World) : World := emit (EvSleep seconds) w.

(** ** [extract_text_from_pdf] *)

Definition truncation_marker : string :=
  nl +:+ nl +:+ "[Text truncated — above is the first portion]".

Fixpoint read_pages (text : string) (pages : list string) : string :=
  match pages with
  | [] => text
  | page :: rest =>
      let text := text +:+ page in
      if Str.len text >? MAX_TEXT_CHARS
      then Str.take (Z.to_nat MAX_TEXT_CHARS) text +:+ truncation_marker
      else read_pages text rest
  end.

Definition extract_text_from_pdf (doc : Pdf) : string :=
  match doc with
  | Readable pages => Str.strip (read_pages "" pages)
  | Unreadable msg => "[PDF text extraction failed: " +:+ msg +:+ "]"
  end.

(** ** [call_llm] *)

Definition user_prompt (filename text : string) : string :=
  "Please analyze the following academic paper and extract structured information."
  +:+ nl +:+ nl +:+ "Filename: " +:+ filename +:+ nl +:+ nl
  +:+ "===== PAPER TEXT =====" +:+ nl +:+ text +:+ nl
  +:+ "===== END OF TEXT =====" +:+ nl +:+ nl
  +:+ "Output strictly in JSON format as specified. No other text.".

(** [v[k]] for a string [k], [v[0]] and [v.get(k, default)]. *)
Definition getitem (v : json) (k : string) : Outcome json :=
  match v with
  | JObj d => match Dict.get k d with Some x => Ok x | None => Raise KeyError end
  | _ => Raise TypeError
  end.

Definition getitem0 (v : json) : Outcome json :=
  match v with
  | JArr (x :: _) => Ok x
  | JArr [] => Raise IndexError
  | JStr s => c ← Str.index0 s; Ok (JStr c)
  | JObj _ => Raise KeyError
  | _ => Raise TypeError
  end.

Definition py_get (v : json) (k : string) (default : json) : Outcome json :=
  match v with
  | JObj d => Ok (Dict.get_default k default d)
  | _ => Raise AttributeError
  end.

Definition py_strip (v : json) : Outcome string :=
  match v with
  | JStr s => Ok (Str.strip s)
  | _ => Raise AttributeError
  end.

Definition fence : string := "```".

(** [s.split(nl, 1)[1]] when [nl in s]. *)
Fixpoint after_newline (s : string) : string :=
  match s with
  | EmptyString => EmptyString
  | String c s' => if Ascii.eqb c (ascii_of_nat 10) then s' else after_newline s'
  end.

(** [s[n:]] and, for a positive [n], [s[:-n]]. *)
Definition skip (n : nat) (s : string) : string :=
  Str.concat (List.skipn n (Str.chars s)).

Definition chop (n : nat) (s : string) : string :=
  Str.take (length (Str.chars s) - n) s.

Definition endswith (p s : string) : bool :=
  (String.length p <=? String.length s)%nat &&
  String.eqb (String.substring (String.length s - String.length p) (String.length p) s) p.

(** The code-fence stripping applied to an already stripped [content]. *)
Definition strip_fence (content : string) : string :=
  let content :=
    if Str.startswith fence content
    then if Str.contains nl content then after_newline content else skip 3 content
    else content in
  let content :=
    if endswith fence content then chop 3 content else content in
  Str.strip content.

(** From [resp.raise_for_status()] to [return result]. *)
Definition read_response (env : Env) (now : string) (resp : Response)
  : Outcome dict :=
  data ← match resp with
         | Body data => Ok data
         | BodyNotJson => Raise JSONDecodeError
         | HttpFailure | Status429 => Raise RequestException
         end;
  choices ← getitem data "choices";
  choice ← getitem0 choices;
  message ← getitem choice "message";
  content ← getitem message "content";
  content ← py_strip content;
  let content := strip_fence content in
  result ← match json_loads env content with
           | Some j => Ok j
           | None => Raise JSONDecodeError
           end;
  usage ← py_get data "usage" (JObj []);
  input_tokens ← py_get usage "prompt_tokens" (JInt 0);
  output_tokens ← py_get usage "completion_tokens" (JInt 0);
  setitem result "_meta"
    (JObj [("input_tokens", input_tokens); ("output_tokens", output_tokens);
           ("model", JStr MODEL); ("analyzed_at", JStr now)]).

(** The exceptions the three [except] clauses catch. *)
Definition retryable (e : Exn) : bool :=
  match e with
  | JSONDecodeError | RequestException | KeyError | IndexError => true
  | _ => false
  end.

Definition exhausted_record (filename : string) : dict :=
  [("error", JStr ("Failed after " +:+ pretty MAX_RETRIES +:+ " attempts"));
   ("filename", JStr filename)].

(** The [for attempt in range(MAX_RETRIES)] loop, over the attempt
    indices still to run. *)
Fixpoint retry_loop (env : Env) (content filename : string)
    (attempts : list Z) (w : World) : World * Outcome dict :=
  match attempts with
  | [] => (w, Ok (exhausted_record filename))
  | attempt :: rest =>
      let resp := service env (posts (log w)) content in
      let w := emit (EvPost content) w in
      match resp with
      | Status429 =>
          let wait := RETRY_DELAY * (attempt + 2) in
          retry_loop env content filename rest (sleep (inject_Z wait) w)
      | _ =>
          match read_response env (strftime env (log w)) resp with
          | Ok result => (w, Ok result)
          | Raise e =>
              if retryable e then
                let w := if attempt <? MAX_RETRIES - 1
                         then sleep (inject_Z RETRY_DELAY) w else w in
                retry_loop env content filename rest w
              else (w, Raise e)
          end
      end
  end.

Definition range (n : Z) : list Z := seqZ 0 n.

Definition call_llm (env : Env) (text filename : string) (w : World)
  : World * Outcome dict :=
  retry_loop env (user_prompt filename text) filename (range MAX_RETRIES) w.

(** ** [process_one] *)

(** [glob.glob(os.path.join(folder_path, "*.pdf"))] and
    [os.path.exists(output_path)]. *)
Definition glob_pdfs (st : gmap string Folder) (folder : string)
  : list (string * Pdf) :=
  match st !! folder with Some f => pdfs f | None => [] end.

Definition output_exists (st : gmap string Folder) (folder : string) : bool :=
  match analysis_of st folder with Some _ => true | None => false end.

(** [json.dump(result, f)] into the folder's [analysis.json]. *)
Definition write_result (folder : string) (result : dict) (w : World) : World :=
  {| storage := <[folder := {| pdfs := glob_pdfs (storage w) folder;
                               analysis := Some (Doc (JObj result)) |}]> (storage w);
     log := log w ++ [EvWrite folder result] |}.

Definition too_short_record (filename : string) (chars : Z) : dict :=
  [("error", JStr "Extracted text too short — likely a scanned PDF");
   ("filename", JStr filename);
   ("extracted_chars", JInt chars)].

Definition process_one (env : Env) (folder_name : string) (w : World)
  : World * Outcome dict :=
  if output_exists (storage w) folder_name then
    (w, Ok [("status", JStr "skipped"); ("folder", JStr folder_name)])
  else
    match glob_pdfs (storage w) folder_name with
    | [] => (w, Ok [("status", JStr "no_pdf"); ("folder", JStr folder_name)])
    | (filename, doc) :: _ =>
        let text := extract_text_from_pdf doc in
        let w := emit (EvExtract folder_name filename) w in
        if Str.len text <? 100 then
          let result := too_short_record filename (Str.len text) in
          let w := write_result folder_name result w in
          (w, Ok [("status", JStr "too_short"); ("folder", JStr folder_name);
                  ("chars", JInt (Str.len text))])
        else
          let '(w, r) := call_llm env text filename w in
          match r with
          | Raise e => (w, Raise e)
          | Ok result =>
              let w := write_result folder_name result w in
              let status := if Dict.has "error" result then "error" else "success" in
              (w, Ok [("status", JStr status); ("folder", JStr folder_name);
                      ("filename", JStr filename)])
          end
    end.

(** ** [main] *)

Record Args : Type := {
  dry_run : bool;
  limit : Z;
  concurrency : Z;
  folder : string
}.

(** How a run ends: [sys.exit(1)], one of the two early returns, or the
    end of the loop with the counters and the per-item results in loop
    order. *)
Inductive Run : Type :=
  | Exit1
  | DryRun
  | AllAnalyzed
  | Done (stats : Counter.t nat) (results : list dict).

(** [l[:n]], where a negative [n] counts from the end. *)
Definition slice_to (n : Z) {A} (l : list A) : list A :=
  if 0 <=? n then take (Z.to_nat n) l
  else take (length l - Z.to_nat (- n)) l.

Definition count_if {A} (p : A -> bool) (l : list A) : Z :=
  Z.of_nat (length (List.filter p l)).

Definition has_pdf_in (st : gmap string Folder) (folder : string) : bool :=
  match glob_pdfs st folder with [] => false | _ => true end.

Definition initial_stats : Counter.t nat :=
  [(JStr "success", O); (JStr "skipped", O); (JStr "no_pdf", O);
   (JStr "too_short", O); (JStr "error", O)].

Definition status_of (result : dict) : json :=
  Dict.get_default "status" JNull result.

(** The [for i, folder in enumerate(pending_folders, 1)] loop. *)
Fixpoint run_loop (env : Env) (pending : list string)
    (stats : Counter.t nat) (w : World)
  : World * Outcome (Counter.t nat * list dict) :=
  match pending with
  | [] => (w, Ok (stats, []))
  | folder :: rest =>
      let '(w, r) := process_one env folder w in
      match r with
      | Raise e => (w, Raise e)
      | Ok result =>
          let stats := Counter.upd (status_of result)
                         (fun o => S (default O o)) stats in
          let w := sleep RATE_LIMIT_DELAY w in
          let '(w, r') := run_loop env rest stats w in
          (w, '(stats, results) ← r'; Ok (stats, result :: results))
      end
  end.

Definition main (env : Env) (args : Args) (w : World) : World * Outcome Run :=
  if String.eqb (OPENROUTER_API_KEY env) "" then (w, Ok Exit1)
  else
    let st := storage w in
    let folders :=
      if negb (String.eqb (folder args) "") then [folder args]
      else sorted (listdir st) in
    let has_pdf := count_if (has_pdf_in st) folders in
    let already_done := count_if (output_exists st) folders in
    let to_process := has_pdf - already_done in
    if dry_run args then (w, Ok DryRun)
    else if to_process =? 0 then (w, Ok AllAnalyzed)
    else
      let limit := if limit args >? 0 then limit args else to_process in
      let pending_folders :=
        slice_to limit
          (List.filter (fun f => has_pdf_in st f && negb (output_exists st f))
                       folders) in
      let '(w, r) := run_loop env pending_folders initial_stats w in
      (w, '(stats, results) ← r; Ok (Done stats results)).

End Analyze.

(** * More of the Python runtime: ordering and sorting *)

(** [v >= n] and [v < n] for an int [n]: a number is compared by value
    (NaN compares false), any other value raises [TypeError]. *)
Definition numval_compare_int (x : numval) (n : Z) : option comparison :=
  match x with
  | NFin m e => Some (if 0 <=? e then m * 2 ^ e ?= n else m ?= n * 2 ^ (- e))
  | NInf neg => Some (if neg then Lt else Gt)
  | NNan => None
  end.

Definition py_ge (v : json) (n : Z) : Outcome bool :=
  match numval_of v with
  | Some x =>
      Ok (match numval_compare_int x n with
          | Some Lt | None => false
          | Some _ => true
          end)
  | None => Raise TypeError
  end.

Definition py_lt (v : json) (n : Z) : Outcome bool :=
  match numval_of v with
  | Some x =>
      Ok (match numval_compare_int x n with
          | Some Lt => true
          | _ => false
          end)
  | None => Raise TypeError
  end.

(** The value of a field that holds an int.  Both loaders store ints in
    the fields that are read through this function. *)
Definition as_int (v : json) : Z :=
  match v with JInt z => z | _ => 0 end.

(** [(a1, a2) < (b1, b2)] on pairs of ints. *)
Definition pair_ltb (a b : Z * Z) : bool :=
  (a.1 <? b.1) || ((a.1 =? b.1) && (a.2 <? b.2)).

(** [sorted(l, key=key, reverse=True)]: descending by key, and stable
    (items with equal keys keep their order).  An item is inserted in
    front of the items that followed it in [l] unless its key is smaller. *)
Section Sorting.

Context {A K : Type} (key : A -> K) (ltb : K -> K -> bool).

Fixpoint insert_desc (x : A) (l : list A) : list A :=
  match l with
  | [] => [x]
  | y :: l' => if ltb (key x) (key y) then y :: insert_desc x l' else x :: y :: l'
  end.

Definition sorted_desc (l : list A) : list A := foldr insert_desc [] l.

End Sorting.

(** A [defaultdict(list)] filled by a loop [d[key(r)].append(r)]. *)
Fixpoint group_into (key : dict -> Outcome json) (l : list dict)
    (groups : Counter.t (list dict)) : Outcome (Counter.t (list dict)) :=
  match l with
  | [] => Ok groups
  | r :: rest =>
      k ← key r;
      groups ← Counter.update k (fun o => (default [] o ++ [r])%list) groups;
      group_into key rest groups
  end.

(** [c[k] += 1] for each [k] of a list, on a [Counter]. *)
Fixpoint tally (keys : list json) (c : Counter.t nat) : Outcome (Counter.t nat) :=
  match keys with
  | [] => Ok c
  | k :: rest => c ← Counter.incr k c; tally rest c
  end.

(** [filter] with a test that can raise. *)
Fixpoint filterM {A} (p : A -> Outcome bool) (l : list A) : Outcome (list A) :=
  match l with
  | [] => Ok []
  | x :: l' =>
      b ← p x; ys ← filterM p l'; Ok (if (b : bool) then x :: ys else ys)
  end.

(** * summarize.py, the other sections of [main] *)

Module SummarizeMain.

(** Section 2: [rel[score] = rel.get(score, 0) + 1]. *)
Definition relevance_counts (results : list dict) : Outcome (Counter.t nat) :=
  tally ((fun r => Dict.get_default "relevance_score" (JStr "?") r) <$> results) [].

(** Section 3: one count per record and listed secondary category. *)
Fixpoint secondary_counts (results : list dict) (secondary : Counter.t nat)
  : Outcome (Counter.t nat) :=
  match results with
  | [] => Ok secondary
  | r :: rest =>
      cats ← py_iter (Dict.get_default "secondary_categories" (JArr []) r);
      secondary ← tally cats secondary;
      secondary_counts rest secondary
  end.

(** Sections 4 and 5: [for m in r.get(field, []): if m: c[m.strip()] += 1]. *)
Fixpoint tally_labels (labels : list json) (c : Counter.t nat)
  : Outcome (Counter.t nat) :=
  match labels with
  | [] => Ok c
  | m :: rest =>
      if truthy m then
        s ← Analyze.py_strip m;
        c ← Counter.incr (JStr s) c;
        tally_labels rest c
      else tally_labels rest c
  end.

Fixpoint label_counts (field : string) (results : list dict) (c : Counter.t nat)
  : Outcome (Counter.t nat) :=
  match results with
  | [] => Ok c
  | r :: rest =>
      labels ← py_iter (Dict.get_default field (JArr []) r);
      c ← tally_labels labels c;
      label_counts field rest c
  end.

(** Section 6: [y = r.get("year"); if y: years[y] += 1]. *)
Fixpoint year_counts (results : list dict) (years : Counter.t nat)
  : Outcome (Counter.t nat) :=
  match results with
  | [] => Ok years
  | r :: rest =>
      let y := Dict.get_none "year" r in
      if truthy y then
        years ← Counter.incr y years;
        year_counts rest years
      else year_counts rest years
  end.

(** Section 7: [lang[r.get("language", "Unknown")] += 1]. *)
Definition language_counts (results : list dict) : Outcome (Counter.t nat) :=
  tally ((fun r => Dict.get_default "language" (JStr "Unknown") r) <$> results) [].

(** Section 9: the test of the core selection,
    [r.get("primary_category") == "E" and r.get("relevance_score", 0) >= 4]. *)
Definition is_core (r : dict) : Outcome bool :=
  if key_eqb (Dict.get_none "primary_category" r) (JStr "E")
  then py_ge (Dict.get_default "relevance_score" (JInt 0) r) 4
  else Ok false.

Definition score_key (r : dict) : Z :=
  as_int (Dict.get_default "relevance_score" (JInt 0) r).

(** The selection, then [core.sort(key=..., reverse=True)]. *)
Definition core_papers (results : list dict) : Outcome (list dict) :=
  core ← filterM is_core results;
  Ok (sorted_desc score_key Z.ltb core).

End SummarizeMain.

(** * deep_analysis.py, [normalize_method] and the groupings of [main] *)

Module DeepAnalysisMain.

Definition method_mapping : list (string * string) :=
  [ ("Artificial Neural Network", "Neural Network / ANN");
    ("ANN", "Neural Network / ANN");
    ("Deep Neural Network", "Deep Neural Network (DNN)");
    ("DNN", "Deep Neural Network (DNN)");
    ("Convolutional Neural Network", "Convolutional Neural Network (CNN)");
    ("CNN", "Convolutional Neural Network (CNN)");
    ("LSTM", "LSTM");
    ("Long Short-Term Memory", "LSTM");
    ("Physics-Informed Neural Network", "PINN");
    ("PINN", "PINN");
    ("Generative Adversarial Network", "GAN");
    ("GAN", "GAN");
    ("Support Vector Machine", "SVM / SVR");
    ("SVM", "SVM / SVR");
    ("SVR", "SVM / SVR");
    ("Gaussian Process", "Gaussian Process (GP/GPR)");
    ("Gaussian Process Regression", "Gaussian Process (GP/GPR)");
    ("GPR", "Gaussian Process (GP/GPR)");
    ("Random Forest", "Random Forest (RF)");
    ("RF", "Random Forest (RF)") ].

(** [mapping.get(m)] *)
Fixpoint mapping_get (m : string) (mapping : list (string * string)) : option string :=
  match mapping with
  | [] => None
  | (k, v) :: rest => if String.eqb m k then Some v else mapping_get m rest
  end.

Definition normalize_method (m : string) : string :=
  let m := Str.strip m in
  match mapping_get m method_mapping with Some v => v | None => m end.

(** Step 1: [by_cat[r["primary_category"]].append(r)]. *)
Definition category_key (r : dict) : Outcome json :=
  Analyze.getitem (JObj r) "primary_category".

Definition group_by_category (data : list dict) : Outcome (Counter.t (list dict)) :=
  group_into category_key data [].

(** [by_cat.get(cat, [])] *)
Definition papers_of (by_cat : Counter.t (list dict)) (cat : string) : list dict :=
  default [] (Counter.get (JStr cat) by_cat).

(** Step 2: the representative papers of a background category. *)
Definition rank_key (r : dict) : Z * Z :=
  (as_int (Dict.get_none "relevance_score" r), as_int (Dict.get_none "year" r)).

Definition limits : list (string * nat) :=
  [("A", 15%nat); ("B", 8%nat); ("C", 15%nat)].

Definition representatives (by_cat : Counter.t (list dict)) (cat : string) (limit : nat)
  : list dict :=
  take limit (sorted_desc rank_key pair_ltb (papers_of by_cat cat)).

Definition background_reps (by_cat : Counter.t (list dict))
  : list (string * list dict) :=
  (fun '(cat, limit) => (cat, representatives by_cat cat limit)) <$> limits.

(** Step 3: the D and E papers, grouped by their first technique. *)
Definition de_papers (by_cat : Counter.t (list dict)) : list dict :=
  (papers_of by_cat "D" ++ papers_of by_cat "E")%list.

Definition untagged : string := "Other / Untagged".

Definition technique_key (r : dict) : Outcome json :=
  let techniques := Dict.get_default "core_technique" (JArr []) r in
  if negb (truthy techniques) then Ok (JStr untagged)
  else
    t ← Analyze.getitem0 techniques;
    match t with
    | JStr s => Ok (JStr (DeepAnalysis.normalize_technique s))
    | _ => Raise AttributeError
    end.

Definition group_by_technique (papers : list dict) : Outcome (Counter.t (list dict)) :=
  group_into technique_key papers [].

(** Step 6, chapter 5: the groups by decreasing size, the numbered
    sections and the one-paper listing. *)
Definition group_size (g : json * list dict) : nat := length g.2.

Definition sorted_techniques (groups : Counter.t (list dict)) : list (json * list dict) :=
  sorted_desc group_size Nat.ltb groups.

Definition numbered_sections (groups : Counter.t (list dict)) : list (json * list dict) :=
  List.filter (fun g => negb (group_size g <? 2)%nat) (sorted_techniques groups).

Definition small_techniques (groups : Counter.t (list dict)) : list (json * list dict) :=
  List.filter (fun g => (group_size g <? 2)%nat && (0 <? group_size g)%nat)
              (sorted_techniques groups).

(** Steps 4 and 5: the year tables, [table[norm(m)][y] += 1] for the
    papers from 2010 on. *)
Fixpoint count_labels (norm : string -> string) (labels : list json) (y : json)
    (table : Counter.t (Counter.t nat)) : Outcome (Counter.t (Counter.t nat)) :=
  match labels with
  | [] => Ok table
  | m :: rest =>
      s ← match m with JStr s => Ok s | _ => Raise AttributeError end;
      let nm := JStr (norm s) in
      row ← Counter.incr y (default [] (Counter.get nm table));
      table ← Counter.update nm (fun _ => row) table;
      count_labels norm rest y table
  end.

Fixpoint year_table (field : string) (norm : string -> string) (papers : list dict)
    (table : Counter.t (Counter.t nat)) : Outcome (Counter.t (Counter.t nat)) :=
  match papers with
  | [] => Ok table
  | r :: rest =>
      let y := Dict.get_default "year" (JInt 0) r in
      early ← py_lt y 2010;
      if (early : bool) then year_table field norm rest table
      else
        labels ← py_iter (Dict.get_default field (JArr []) r);
        table ← count_labels norm labels y table;
        year_table field norm rest table
  end.

Definition method_year (papers : list dict) : Outcome (Counter.t (Counter.t nat)) :=
  year_table "ml_methods" normalize_method papers [].

Definition technique_year (papers : list dict) : Outcome (Counter.t (Counter.t nat)) :=
  year_table "core_technique" DeepAnalysis.normalize_technique papers [].

End DeepAnalysisMain.

(** * Vocabulary of the properties and sample data *)

Import Analyze.

(** The shape of the characters [Str.chars] yields: a byte followed by
    continuation bytes, where every character but the first starts with a
    byte that is not a continuation byte. *)
Fixpoint all_continuation (t : string) : bool :=
  match t with
  | EmptyString => true
  | String c t' => Str.continuation c && all_continuation t'
  end.

Definition is_char (ch : string) : bool :=
  match ch with
  | String _ t => all_continuation t
  | EmptyString => false
  end.

Definition chunked (l : list string) : Prop :=
  Forall (fun ch => is_char ch = true) l /\
  Forall (fun ch => Str.starts_inside ch = false) (tail l).

(** [s.isspace()] or [s == ""]. *)
Definition blank (s : string) : bool := forallb Str.isspace (Str.chars s).


(** The two records [analyze.py] persists for an item it could not analyse. *)
Inductive ErrorRecord : dict -> Prop :=
  | ErrorRecord_too_short filename chars :
      ErrorRecord (Analyze.too_short_record filename chars)
  | ErrorRecord_exhausted filename :
      ErrorRecord (Analyze.exhausted_record filename).

(** A store with one item, whose text was too short to analyse. *)
Definition scanned_store : gmap string Folder :=
  {[ "ABCD1234" := {| pdfs := [("scan.pdf", Readable [""])];
                      analysis := Some (Doc (JObj (Analyze.too_short_record "scan.pdf" 0))) |} ]}.

Definition good_item : Folder :=
  {| pdfs := [("paper.pdf", Readable ["text"])];
     analysis := Some (Doc (JObj [("title", JStr "t"); ("primary_category", JStr "E");
                                  ("relevance_score", JInt 5)])) |}.

Definition corrupt_store : gmap string Folder :=
  {[ "GOOD0001" := good_item;
     "BAD00002" := {| pdfs := []; analysis := Some Garbage |} ]}.

Definition clean_store : gmap string Folder := {[ "GOOD0001" := good_item ]}.

(** A record of category A whose score is not a number. *)
Definition odd_score_store : gmap string Folder :=
  {[ "ITEM0001" :=
       {| pdfs := [];
          analysis := Some (Doc (JObj [("primary_category", JStr "A. Traditional methods");
                                       ("relevance_score", JStr "four")])) |} ]}.

(** The two tables agree on every category key other than the two
    defaults ["Unknown"] and ["?"] that stand for a missing category. *)
Definition consistent (primary : Counter.t nat) (cross : Counter.t (Counter.t nat)) : Prop :=
  forall s, s <> "Unknown" -> s <> "?" ->
            Summarize.row_total cross s = Summarize.category_count primary s.

(** A record as [summarize.load_all] leaves it: the category is a string
    and the score can be used as a key. *)
Definition tally_ready (r : dict) : Prop :=
  (exists pc, Dict.get "primary_category" r = Some (JStr pc)) /\
  hashable (Dict.get_default "relevance_score" (JStr "?") r) = true.

(** A response that costs an attempt: rate limited, or one from which no
    result is read because of an exception that [call_llm] catches. *)
Definition fails_retryably (env : Env) (resp : Response) : Prop :=
  resp = Status429 \/
  forall now, exists e, read_response env now resp = Raise e /\ retryable e = true.

(** The events of a call that is rate limited twice: three requests,
    with the two waits between them. *)
Definition backoff_events (content : string) : list Event :=
  [EvPost content; EvSleep (inject_Z (RETRY_DELAY * (0 + 2)));
   EvPost content; EvSleep (inject_Z (RETRY_DELAY * (1 + 2)));
   EvPost content].

Definition quote : string := String (ascii_of_nat 34) EmptyString.

(** The JSON text of an object with the single key [error]. *)
Definition error_payload_text : string :=
  "{" +:+ quote +:+ "error" +:+ quote +:+ ": " +:+ quote +:+ "unreadable" +:+ quote +:+ "}".

(** [json.loads] on the two documents the samples use; every other text
    the samples submit is not JSON. *)
Definition sample_loads (s : string) : option json :=
  if String.eqb s "{}" then Some (JObj [])
  else if String.eqb s error_payload_text
       then Some (JObj [("error", JStr "unreadable")])
       else None.

Definition reply (content : string) : json :=
  JObj [("choices", JArr [JObj [("message", JObj [("content", JStr content)])]]);
        ("usage", JObj [("prompt_tokens", JInt 1200); ("completion_tokens", JInt 300)])].

Definition fenced_reply : json :=
  reply ("```json" +:+ nl +:+ "{}" +:+ nl +:+ "```").

(** A service that is rate limited twice and then answers. *)
Definition sample_env : Env :=
  {| OPENROUTER_API_KEY := "sk-test";
     service := fun n _ => match n with
                           | O | S O => Status429
                           | _ => Body fenced_reply
                           end;
     json_loads := sample_loads;
     strftime := fun _ => "2025-01-01 00:00:00" |}.

Definition empty_world : World := {| storage := ∅; log := [] |}.

Definition fifty_chars : string :=
  "01234567890123456789012345678901234567890123456789".

Definition scan_world : World :=
  {| storage := {[ "SCAN0001" := {| pdfs := [("scan.pdf", Readable [fifty_chars])];
                                     analysis := None |} ]};
     log := [] |}.

(** A scanned item whose text has 40 characters of three bytes each. *)
Definition forty_characters : string :=
  Str.concat (repeat (Str.of_bytes [228; 184; 173]%N) 40).

Definition short_world : World :=
  {| storage := {[ "SCAN0002" := {| pdfs := [("scan.pdf", Readable [forty_characters])];
                                     analysis := None |} ]};
     log := [] |}.

Definition long_text : string :=
  "Abstract. We study surrogate models for small data sets and report " +:+
  "results on ten benchmark problems with transfer learning.".

(** A service whose reply parses to an object with an [error] key. *)
Definition error_env : Env :=
  {| OPENROUTER_API_KEY := "sk-test";
     service := fun _ _ => Body (reply error_payload_text);
     json_loads := sample_loads;
     strftime := fun _ => "2025-01-01 00:00:00" |}.

Definition paper_world : World :=
  {| storage := {[ "ITEM0001" := {| pdfs := [("paper.pdf", Readable [long_text])];
                                     analysis := None |} ]};
     log := [] |}.

Definition error_payload_result : dict :=
  [("error", JStr "unreadable");
   ("_meta", JObj [("input_tokens", JInt 1200); ("output_tokens", JInt 300);
                   ("model", JStr MODEL); ("analyzed_at", JStr "2025-01-01 00:00:00")])].

Definition slice_len (n : Z) (len : nat) : nat :=
  if 0 <=? n then Nat.min (Z.to_nat n) len else (len - Z.to_nat (- n))%nat.

(** The per-item results a run reports. *)
Definition reported (r : Run) : list dict :=
  match r with Done _ results => results | _ => [] end.

(** A service that always answers with a fenced empty object. *)
Definition ok_env : Env :=
  {| OPENROUTER_API_KEY := "sk-test";
     service := fun _ _ => Body fenced_reply;
     json_loads := sample_loads;
     strftime := fun _ => "2025-01-01 00:00:00" |}.

Definition no_limit : Args :=
  {| dry_run := false; limit := 0; concurrency := 5; folder := "" |}.

(** ** Vocabulary of the properties of the rest of the code *)

(** The whole text of a document and its capped form. *)
Definition full_text (pages : list string) : string :=
  foldr String.append "" pages.

Definition capped (t : string) : string :=
  if Str.len t >? MAX_TEXT_CHARS
  then Str.take (Z.to_nat MAX_TEXT_CHARS) t +:+ truncation_marker
  else t.

(** The folders a run looks at, the pending ones among them, and the
    folders that hold a result but no PDF. *)
Definition folders_of (args : Args) (st : gmap string Folder) : list string :=
  if negb (String.eqb (folder args) "") then [folder args] else sorted (listdir st).

Definition is_pending (st : gmap string Folder) (f : string) : bool :=
  has_pdf_in st f && negb (output_exists st f).

Definition is_orphan (st : gmap string Folder) (f : string) : bool :=
  output_exists st f && negb (has_pdf_in st f).

Definition pending_of (args : Args) (st : gmap string Folder) : list string :=
  List.filter (is_pending st) (folders_of args st).

Definition orphans_of (args : Args) (st : gmap string Folder) : list string :=
  List.filter (is_orphan st) (folders_of args st).

(** A counter of the run statistics. *)
Definition stat (k : string) (stats : Counter.t nat) : nat :=
  default O (Counter.get (JStr k) stats).

Definition is_sleep (e : Event) : bool :=
  match e with EvSleep _ => true | _ => false end.

Definition count_events (p : Event -> bool) (l : list Event) : nat :=
  length (List.filter p l).

(** Two pending items, one finished item and a result whose PDF is gone. *)
Definition mixed_world : World :=
  {| storage :=
       {[ "ITEM0001" := {| pdfs := [("a.pdf", Readable [long_text])]; analysis := None |};
          "ITEM0002" := {| pdfs := [("b.pdf", Readable [fifty_chars])]; analysis := None |};
          "ITEM0003" := {| pdfs := [("c.pdf", Readable [long_text])];
                           analysis := Some (Doc (JObj [("title", JStr "done")])) |};
          "ITEM0004" := {| pdfs := []; analysis := Some Garbage |} ]};
     log := [] |}.

(** The counters after a list of reported results. *)
Definition bump (stats : Counter.t nat) (res : dict) : Counter.t nat :=
  Counter.upd (status_of res) (fun o => S (default O o)) stats.

Definition productive (res : dict) : Prop :=
  status_of res = JStr "too_short" \/ status_of res = JStr "success"
  \/ status_of res = JStr "error".


(** A service that fails in a different way at each attempt. *)
Definition failing_env : Env :=
  {| OPENROUTER_API_KEY := "sk-test";
     service := fun n _ => match n with
                           | O => Status429
                           | S O => HttpFailure
                           | _ => Body (reply "not json")
                           end;
     json_loads := sample_loads;
     strftime := fun _ => "2025-01-01 00:00:00" |}.

Definition limited_env : Env :=
  {| OPENROUTER_API_KEY := "sk-test";
     service := fun _ _ => Status429;
     json_loads := sample_loads;
     strftime := fun _ => "2025-01-01 00:00:00" |}.

Definition down_env : Env :=
  {| OPENROUTER_API_KEY := "sk-test";
     service := fun _ _ => HttpFailure;
     json_loads := sample_loads;
     strftime := fun _ => "2025-01-01 00:00:00" |}.

(** A service whose reply has a null content. *)
Definition null_env : Env :=
  {| OPENROUTER_API_KEY := "sk-test";
     service := fun _ _ =>
       Body (JObj [("choices", JArr [JObj [("message", JObj [("content", JNull)])]])]);
     json_loads := sample_loads;
     strftime := fun _ => "2025-01-01 00:00:00" |}.

(** [x] may come before [y] in a descending order: its key is not smaller. *)
Definition not_below {A K : Type} (key : A -> K) (ltb : K -> K -> bool) (x y : A) : Prop :=
  ltb (key x) (key y) = false.

(** The folders whose file [summarize.load_all], respectively
    [deep_analysis.load_all], loads. *)
Definition summarize_loads (st : gmap string Folder) (f : string) : bool :=
  match analysis_of st f with
  | Some c => returns (Summarize.load_one f c)
  | None => false
  end.

Definition deep_loads (st : gmap string Folder) (f : string) : bool :=
  match analysis_of st f with
  | Some c => returns (DeepAnalysis.load_one f c)
  | None => false
  end.

Definition folder_of (d : dict) : option json := Dict.get "_folder" d.

(** A list instead of an object, and a blank category. *)
Definition odd_store : gmap string Folder :=
  {[ "LIST0001" := {| pdfs := []; analysis := Some (Doc (JArr [])) |};
     "BLNK0002" := {| pdfs := [];
                      analysis := Some (Doc (JObj [("primary_category", JStr " ")])) |} ]}.

Definition sum_counts (primary : Counter.t nat) (cats : list string) : nat :=
  foldr (fun c acc => (Summarize.category_count primary c + acc)%nat) O cats.

Definition has_category (r : dict) : Prop :=
  exists pc, Dict.get "primary_category" r = Some (JStr pc) /\ In pc category_values.

(** The number of secondary categories a loaded record lists. *)
Definition secondary_entries (r : dict) : nat :=
  match Dict.get "secondary_categories" r with
  | Some (JArr l) => length l
  | _ => O
  end.

Definition lists_categories (r : dict) : Prop :=
  forall v, Dict.get "secondary_categories" r = Some v ->
            exists cs, v = JArr (JStr <$> cs) /\ Forall (fun c => In c category_values) cs.

(** The selection test on a record whose score is an int or missing. *)
Definition core_test (r : dict) : bool :=
  key_eqb (Dict.get_none "primary_category" r) (JStr "E")
  && (4 <=? SummarizeMain.score_key r).

(** A record of category E whose score is null. *)
Definition null_core (r : dict) : Prop :=
  Dict.get "primary_category" r = Some (JStr "E") /\
  Dict.get "relevance_score" r = Some JNull.

Definition score_loaded (r : dict) : Prop :=
  forall v, Dict.get "relevance_score" r = Some v -> v = JNull \/ exists z, v = JInt z.

Definition same_score (k : Z) (r : dict) : bool :=
  bool_decide (SummarizeMain.score_key r = k).

(** An E record without a score next to an E record with a null score. *)
Definition null_core_store : gmap string Folder :=
  {[ "ITEM0001" :=
       {| pdfs := [];
          analysis := Some (Doc (JObj [("primary_category", JStr "E")])) |};
     "ITEM0002" :=
       {| pdfs := [];
          analysis := Some (Doc (JObj [("primary_category", JStr "E");
                                       ("relevance_score", JNull)])) |} ]}.

(** A record as [deep_analysis.load_all] leaves it. *)
Definition deep_ready (d : dict) : Prop :=
  exists pc z y f,
    Dict.get "primary_category" d = Some (JStr pc) /\ In pc category_values /\
    Dict.get "relevance_score" d = Some (JInt z) /\
    Dict.get "year" d = Some (JInt y) /\
    Dict.get "_folder" d = Some (JStr f).

Definition category_of (r : dict) : string :=
  match Dict.get "primary_category" r with
  | Some (JStr s) => s
  | _ => EmptyString
  end.

Definition in_category (cat : string) (r : dict) : bool :=
  String.eqb (category_of r) cat.

Definition same_rank (k : Z * Z) (r : dict) : bool :=
  bool_decide (DeepAnalysisMain.rank_key r = k).

(** Three papers of category A, of ranks (3, 2001), (5, 1999), (5, 2020),
    and one of category E. *)
Definition paper (cat : string) (score year : Z) : Folder :=
  {| pdfs := [];
     analysis := Some (Doc (JObj [("primary_category", JStr cat);
                                  ("relevance_score", JInt score);
                                  ("year", JInt year)])) |}.

Definition ranked_store : gmap string Folder :=
  {[ "ITEM0001" := paper "A" 3 2001;
     "ITEM0002" := paper "A" 5 1999;
     "ITEM0003" := paper "A" 5 2020;
     "ITEM0004" := paper "E" 4 2015 ]}.

Definition technique_of (r : dict) : string :=
  match DeepAnalysisMain.technique_key r with
  | Ok (JStr s) => s
  | _ => EmptyString
  end.

Definition uses_technique (s : string) (r : dict) : bool :=
  String.eqb (technique_of r) s.

(** A group as the loop builds it: a string key and at least one paper. *)
Definition proper_group (g : json * list dict) : Prop :=
  (exists s, g.1 = JStr s) /\ g.2 <> [].

Definition tagged (technique : json) (folder : string) : dict :=
  [("_folder", JStr folder); ("core_technique", technique)].

(** Two papers on transfer learning under different names, one on
    Kriging and one without a technique. *)
Definition tagged_papers : list dict :=
  [ tagged (JArr [JStr "Transfer learning"; JStr "CNN"]) "P1";
    tagged (JArr [JStr "Kriging"]) "P2";
    tagged (JArr [JStr " fine-tuning of a network"]) "P3";
    tagged (JArr []) "P4" ].

(** [sum(sum(row.values()) for row in table.values())] *)
Definition grand_total (table : Counter.t (Counter.t nat)) : nat :=
  sum_list (Counter.total <$> Counter.values table).

Definition year_of (r : dict) : Z := as_int (Dict.get_default "year" (JInt 0) r).

Definition recent (r : dict) : bool := 2010 <=? year_of r.

(** A paper whose year is an int and whose [field] is a list of strings
    (or missing). *)
Definition labelled (field : string) (r : dict) : Prop :=
  (exists y, Dict.get "year" r = Some (JInt y)) /\
  exists labels : list string,
    Dict.get_default field (JArr []) r = JArr (JStr <$> labels).

Definition label_count (field : string) (r : dict) : nat :=
  match Dict.get_default field (JArr []) r with
  | JArr l => length l
  | _ => O
  end.

Definition dated (year : Z) (methods : list string) : dict :=
  [("year", JInt year); ("ml_methods", JArr (JStr <$> methods))].

Definition dated_papers : list dict :=
  [ dated 2005 ["ANN"; "SVM"]; dated 2015 ["CNN"; " ANN "]; dated 2021 ["ANN"] ].

(** [c.get(k, 0)] *)
Definition count_of (k : json) (c : Counter.t nat) : nat := default O (Counter.get k c).

(** A label that is counted under the name [s]: it is not empty and
    [s] is what is left of it without the surrounding white space. *)
Definition names (s : string) (m : json) : bool :=
  match m with
  | JStr m => negb (String.eqb m "") && String.eqb (Str.strip m) s
  | _ => false
  end.

Definition labels_of (field : string) (r : dict) : list json :=
  match Dict.get_default field (JArr []) r with
  | JArr l => l
  | _ => []
  end.

Definition string_labels (field : string) (r : dict) : Prop :=
  exists labels : list string, Dict.get_default field (JArr []) r = JArr (JStr <$> labels).

Definition methods_sample : list dict :=
  [ [("ml_methods", JArr [JStr "CNN"; JStr ""; JStr " CNN "])];
    [("title", JStr "untagged")];
    [("ml_methods", JArr [JStr "  "; JStr "CNN"])] ].

(** * Properties *)

(** ** Dictionaries *)

Section DictFacts.

Lemma get_set_eq k v d : Dict.get k (Dict.set k v d) = Some v.
Proof.
  induction d as [|[k' v'] d IH]; simpl.
  - by rewrite String.eqb_refl.
  - destruct (String.eqb k k') eqn:E; simpl.
    + by rewrite String.eqb_refl.
    + by rewrite E.
Qed.

Lemma get_set_ne k k' v d : k <> k' -> Dict.get k' (Dict.set k v d) = Dict.get k' d.
Proof.
  intros Hne. induction d as [|[k0 v0] d IH]; simpl.
  - apply String.eqb_neq in Hne. rewrite String.eqb_sym in Hne. by rewrite Hne.
  - destruct (String.eqb k k0) eqn:E; simpl.
    + apply String.eqb_eq in E as <-.
      assert (String.eqb k' k = false) as ->; [|done].
      apply String.eqb_neq. congruence.
    + by rewrite IH.
Qed.

Lemma has_set_ne k k' v d : k <> k' -> Dict.has k' (Dict.set k v d) = Dict.has k' d.
Proof. intros. unfold Dict.has. by rewrite get_set_ne. Qed.

Lemma has_set_eq k v d : Dict.has k (Dict.set k v d) = true.
Proof. unfold Dict.has. by rewrite get_set_eq. Qed.

Lemma set_fresh k v d : Dict.get k d = None -> Dict.set k v d = (d ++ [(k, v)])%list.
Proof.
  induction d as [|[k' v'] d IH]; simpl; [done|].
  destruct (String.eqb k k'); [done|]. intros H. by rewrite IH.
Qed.

End DictFacts.

(** ** Characters *)

Section Chars.

Lemma append_cons c s t : String c s +:+ t = String c (s +:+ t).
Proof. reflexivity. Qed.

Lemma append_nil_l t : "" +:+ t = t.
Proof. reflexivity. Qed.

Lemma append_nil_r s : s +:+ "" = s.
Proof. induction s as [|c s IH]; [done|]. by rewrite append_cons, IH. Qed.

Lemma append_assoc s t u : (s +:+ t) +:+ u = s +:+ (t +:+ u).
Proof. induction s as [|c s IH]; [done|]. by rewrite !append_cons, IH. Qed.

Lemma concat_cons ch l : Str.concat (ch :: l) = ch +:+ Str.concat l.
Proof. reflexivity. Qed.

Lemma concat_app l1 l2 : Str.concat (l1 ++ l2) = Str.concat l1 +:+ Str.concat l2.
Proof.
  induction l1 as [|ch l1 IH]; [done|].
  cbn [app]. by rewrite !concat_cons, IH, append_assoc.
Qed.

Lemma concat_cons_byte c l : Str.concat (Str.cons_byte c l) = String c (Str.concat l).
Proof.
  destruct l as [|ch l]; [done|]. cbn [Str.cons_byte].
  by destruct (Str.starts_inside ch).
Qed.

Lemma concat_chars s : Str.concat (Str.chars s) = s.
Proof.
  induction s as [|c s IH]; [done|]. cbn [Str.chars].
  by rewrite concat_cons_byte, IH.
Qed.

Lemma chars_nil s : Str.chars s = [] -> s = "".
Proof. intros H. by rewrite <- (concat_chars s), H. Qed.

Lemma length_cons_byte c l :
  length (Str.cons_byte c l)
  = match l with
    | ch :: _ => if Str.starts_inside ch then length l else S (length l)
    | [] => 1%nat
    end.
Proof. destruct l as [|ch l]; [done|]. cbn [Str.cons_byte]. by destruct (Str.starts_inside ch). Qed.

(** The first character starts with the first byte. *)
Lemma chars_head c s : exists t rest, Str.chars (String c s) = String c t :: rest.
Proof.
  cbn [Str.chars]. destruct (Str.chars s) as [|ch l]; [by eexists _, _|].
  cbn [Str.cons_byte]. destruct (Str.starts_inside ch); by eexists _, _.
Qed.

Lemma chars_head_inside s :
  Str.starts_inside (hd "" (Str.chars s)) = Str.starts_inside s.
Proof.
  destruct s as [|c s]; [done|]. by destruct (chars_head c s) as (t & rest & ->).
Qed.

Lemma cons_byte_chunked c l : chunked l -> chunked (Str.cons_byte c l).
Proof.
  intros [Hc Hl]. destruct l as [|ch l]; [by repeat constructor|].
  cbn [Str.cons_byte]. apply Forall_cons in Hc as [Hch Hc]. cbn [tail] in Hl.
  destruct (Str.starts_inside ch) eqn:E; split; cbn [tail].
  - constructor; [|done]. destruct ch as [|d t]; [done|].
    cbn [is_char all_continuation] in *. cbn [Str.starts_inside] in E. by rewrite E.
  - done.
  - by repeat constructor.
  - by constructor.
Qed.

Lemma chars_chunked s : chunked (Str.chars s).
Proof.
  induction s as [|c s IH]; [by repeat constructor|]. by apply cons_byte_chunked.
Qed.

Lemma chars_of_char c t rest :
  all_continuation t = true ->
  Str.starts_inside (hd "" (Str.chars rest)) = false ->
  Str.chars (String c (t +:+ rest)) = String c t :: Str.chars rest.
Proof.
  revert c. induction t as [|d t IH]; intros c Ht Hrest.
  - rewrite append_nil_l. cbn [Str.chars]. destruct (Str.chars rest) as [|ch l]; [done|].
    cbn [Str.cons_byte]. cbn [hd] in Hrest. by rewrite Hrest.
  - cbn [all_continuation] in Ht. apply andb_true_iff in Ht as [Hd Ht].
    rewrite append_cons.
    change (Str.chars (String c (String d (t +:+ rest))))
      with (Str.cons_byte c (Str.chars (String d (t +:+ rest)))).
    rewrite IH by done. cbn [Str.cons_byte Str.starts_inside]. by rewrite Hd.
Qed.

Lemma chars_concat l : chunked l -> Str.chars (Str.concat l) = l.
Proof.
  intros [Hc Hl]. induction l as [|ch l IH]; [done|].
  apply Forall_cons in Hc as [Hch Hc]. cbn [tail] in Hl.
  rewrite concat_cons. destruct ch as [|c t]; [done|]. cbn [is_char] in Hch.
  assert (Hl' : Str.chars (Str.concat l) = l).
  { apply IH; [done|]. destruct l; [constructor|]. by apply Forall_cons in Hl as [_ ?]. }
  rewrite append_cons, chars_of_char by (done || rewrite Hl'; by destruct Hl).
  by rewrite Hl'.
Qed.

Lemma chars_app s t :
  Str.starts_inside t = false -> Str.chars (s +:+ t) = (Str.chars s ++ Str.chars t)%list.
Proof.
  intros Ht.
  assert (Hst : s +:+ t = Str.concat (Str.chars s ++ Str.chars t)).
  { by rewrite concat_app, !concat_chars. }
  rewrite Hst. apply chars_concat.
  destruct (chars_chunked s) as [Hs1 Hs2], (chars_chunked t) as [Ht1 Ht2]. split.
  - by apply Forall_app.
  - destruct (Str.chars s) as [|ch l]; [done|]. cbn [app tail] in *.
    apply Forall_app. split; [done|].
    destruct (Str.chars t) as [|ch' l'] eqn:E; [done|]. constructor; [|done].
    rewrite <- Ht, <- (chars_head_inside t), E. done.
Qed.

(** The characters before the last one of [s] are not changed by what is
    appended to [s]. *)
Lemma take_chars_append n s t :
  (n < length (Str.chars s))%nat ->
  List.firstn n (Str.chars (s +:+ t)) = List.firstn n (Str.chars s).
Proof.
  revert n. induction s as [|c s IH]; intros n Hn; [cbn in Hn; lia|].
  destruct n as [|n]; [done|]. rewrite append_cons.
  change (Str.chars (String c (s +:+ t))) with (Str.cons_byte c (Str.chars (s +:+ t))).
  change (Str.chars (String c s)) with (Str.cons_byte c (Str.chars s)) in *.
  destruct s as [|d s]; [cbn in Hn; lia|].
  destruct (chars_head d s) as (t1 & l1 & E1).
  destruct (chars_head d (s +:+ t)) as (t2 & l2 & E2).
  rewrite append_cons in IH |- *. rewrite E1 in IH, Hn |- *. rewrite E2 in IH |- *.
  cbn [Str.cons_byte Str.starts_inside] in *.
  destruct (Str.continuation d).
  - specialize (IH (S n) Hn). cbn [List.firstn] in *. congruence.
  - cbn [length] in Hn. cbn [List.firstn]. f_equal. apply IH. cbn [length]. lia.
Qed.

Lemma length_chars_append s t :
  (length (Str.chars s) <= length (Str.chars (s +:+ t)))%nat.
Proof.
  induction s as [|c s IH]; [cbn; lia|]. rewrite append_cons.
  change (Str.chars (String c (s +:+ t))) with (Str.cons_byte c (Str.chars (s +:+ t))).
  change (Str.chars (String c s)) with (Str.cons_byte c (Str.chars s)).
  rewrite !length_cons_byte. destruct s as [|d s].
  { rewrite append_nil_l. cbn [Str.chars length]. destruct (Str.chars t) as [|ch l]; [done|].
    destruct (Str.starts_inside ch); cbn [length]; lia. }
  destruct (chars_head d s) as (t1 & l1 & E1).
  destruct (chars_head d (s +:+ t)) as (t2 & l2 & E2).
  rewrite append_cons in IH |- *. rewrite E1 in IH |- *. rewrite E2 in IH |- *.
  cbn [Str.starts_inside]. destruct (Str.continuation d); lia.
Qed.

Lemma chunked_suffix l1 l2 : chunked (l1 ++ l2) -> chunked l2.
Proof.
  induction l1 as [|ch l1 IH]; [done|]. intros [Hc Hl]. apply IH.
  cbn [app tail] in *. apply Forall_cons in Hc as [_ Hc]. split; [done|].
  destruct (l1 ++ l2)%list; [done|]. cbn [tail]. by apply Forall_cons in Hl as [_ ?].
Qed.

Lemma chunked_prefix l1 l2 : chunked (l1 ++ l2) -> chunked l1.
Proof.
  intros [Hc Hl]. apply Forall_app in Hc as [Hc _]. split; [done|].
  destruct l1 as [|ch l1]; [done|]. cbn [app tail] in *. by apply Forall_app in Hl as [? _].
Qed.

Lemma drop_while_suffix {A} (p : A -> bool) l :
  exists l1, l = (l1 ++ Str.drop_while p l)%list /\ forallb p l1 = true.
Proof.
  induction l as [|x l (l1 & IH & Hp)]; [by exists []|]. cbn [Str.drop_while].
  destruct (p x) eqn:E; [|by exists []].
  exists (x :: l1). cbn [app forallb]. rewrite E, Hp. split; [by f_equal|done].
Qed.

Lemma drop_end_prefix {A} (p : A -> bool) l :
  exists l2, l = (Str.drop_end p l ++ l2)%list /\ forallb p l2 = true.
Proof.
  induction l as [|x l (l2 & IH & Hp)]; [by exists []|]. cbn [Str.drop_end].
  destruct (Str.drop_end p l) as [|y r].
  - cbn [app] in IH. subst l2. destruct (p x) eqn:E.
    + exists (x :: l). cbn [forallb]. by rewrite E, Hp.
    + by exists l.
  - exists l2. cbn [app] in *. split; [by f_equal|done].
Qed.

Lemma drop_while_head {A} (p : A -> bool) l x r :
  Str.drop_while p l = x :: r -> p x = false.
Proof.
  induction l as [|y l IH]; [done|]. cbn [Str.drop_while].
  destruct (p y) eqn:E; [done|]. by intros [= <- <-].
Qed.

Lemma drop_while_keep {A} (p : A -> bool) x l :
  p x = false -> Str.drop_while p (x :: l) = x :: l.
Proof. intros H. cbn [Str.drop_while]. by rewrite H. Qed.

Lemma drop_end_head {A} (p : A -> bool) x l :
  p x = false -> exists r, Str.drop_end p (x :: l) = x :: r.
Proof.
  intros H. cbn [Str.drop_end]. destruct (Str.drop_end p l); [|by eexists].
  rewrite H. by eexists.
Qed.

Lemma drop_end_idem {A} (p : A -> bool) l :
  Str.drop_end p (Str.drop_end p l) = Str.drop_end p l.
Proof.
  induction l as [|x l IH]; [done|]. cbn [Str.drop_end].
  destruct (Str.drop_end p l) as [|y r] eqn:E.
  - destruct (p x) eqn:Hx; [done|]. cbn [Str.drop_end]. by rewrite Hx.
  - cbn [Str.drop_end] in *. by rewrite IH.
Qed.

Lemma chars_lstrip s : Str.chars (Str.lstrip s) = Str.drop_while Str.isspace (Str.chars s).
Proof.
  unfold Str.lstrip. apply chars_concat.
  destruct (drop_while_suffix Str.isspace (Str.chars s)) as (l1 & E & _).
  apply (chunked_suffix l1). rewrite <- E. apply chars_chunked.
Qed.

Lemma chars_rstrip s : Str.chars (Str.rstrip s) = Str.drop_end Str.isspace (Str.chars s).
Proof.
  unfold Str.rstrip. apply chars_concat.
  destruct (drop_end_prefix Str.isspace (Str.chars s)) as (l2 & E & _).
  apply (chunked_prefix _ l2). rewrite <- E. apply chars_chunked.
Qed.

Lemma chars_strip s :
  Str.chars (Str.strip s)
  = Str.drop_end Str.isspace (Str.drop_while Str.isspace (Str.chars s)).
Proof. unfold Str.strip. by rewrite chars_rstrip, chars_lstrip. Qed.

Lemma chars_take n s : Str.chars (Str.take n s) = List.firstn n (Str.chars s).
Proof.
  unfold Str.take. apply chars_concat.
  apply (chunked_prefix _ (List.skipn n (Str.chars s))).
  rewrite List.firstn_skipn. apply chars_chunked.
Qed.

Lemma chars_is_char s ch : ch ∈ Str.chars s -> is_char ch = true.
Proof.
  destruct (chars_chunked s) as [H _]. rewrite Forall_forall in H. apply H.
Qed.

Lemma chars_single ch : is_char ch = true -> Str.chars ch = [ch].
Proof.
  intros H. rewrite <- (append_nil_r ch) at 1.
  change (ch +:+ "") with (Str.concat [ch]). apply chars_concat.
  split; [by constructor|constructor].
Qed.

End Chars.

(** ** Category normalization *)

Lemma one_char_in_ABCDEF (a : ascii) :
  Str.contains (Str.upper_char (String a EmptyString)) "ABCDEF" = true ->
  In (Str.upper_char (String a EmptyString)) categories.
Proof.
  destruct a as [[] [] [] [] [] [] [] []]; vm_compute; intros H;
    first [ discriminate H | tauto ].
Qed.

Lemma prefix_second c d t s :
  String.prefix (String c (String d t)) s = true ->
  exists x s', s = String x (String d s').
Proof.
  destruct s as [|x [|y s']]; cbn [String.prefix].
  - done.
  - by destruct (ascii_dec c x).
  - destruct (ascii_dec c x); [|done].
    destruct (ascii_dec d y) as [->|]; [|done]. by eexists _, _.
Qed.

Lemma contains_second c d t s :
  Str.contains (String c (String d t)) s = true -> In d (list_ascii_of_string s).
Proof.
  induction s as [|x s IH]; cbn [Str.contains]; intros [H|H]%orb_true_iff; try done.
  - apply prefix_second in H as (x' & s' & [= -> ->]).
    cbn [list_ascii_of_string]. right. by left.
  - cbn [list_ascii_of_string]. right. by apply IH.
Qed.

(** The code point of a character of more than one byte is not ASCII. *)
Lemma codepoint_multibyte c d t n :
  Str.codepoint (String c (String d t)) = Some n -> (128 <= n)%N.
Proof.
  unfold Str.codepoint. cbn [list_ascii_of_string fmap list_fmap].
  generalize (N_of_ascii c) (N_of_ascii d). intros a b.
  destruct t as [|e [|f [|g t]]]; cbn [list_ascii_of_string fmap list_fmap].
  - destruct (_ && _) eqn:E; [|done]. intros [= <-].
    apply andb_true_iff in E as [E _]. apply N.leb_le in E. lia.
  - destruct (_ && _) eqn:E; [|done]. intros [= <-].
    apply andb_true_iff in E as [_ E]. apply N.leb_le in E. lia.
  - destruct (_ && _) eqn:E; [|done]. intros [= <-].
    apply andb_true_iff in E as [_ E]. apply N.leb_le in E. lia.
  - done.
Qed.

Lemma upper_forms_not_letters :
  Forall (fun f => Str.contains f.2 "ABCDEF" = false) Str.upper_forms.
Proof. unfold Str.upper_forms. repeat constructor. Qed.

Lemma form_of_In n forms f : Str.form_of n forms = Some f -> exists m, (m, f) ∈ forms.
Proof.
  induction forms as [|[m f'] forms IH]; cbn [Str.form_of]; [done|].
  destruct (n =? m)%N.
  - intros [= ->]. exists m. by left.
  - intros (m' & H)%IH. exists m'. by right.
Qed.

Lemma upper_char_letter ch :
  is_char ch = true ->
  Str.contains (Str.upper_char ch) "ABCDEF" = true ->
  In (Str.upper_char ch) categories.
Proof.
  destruct ch as [|c [|d t]]; [done|intros _; apply one_char_in_ABCDEF|].
  cbn [is_char all_continuation]. intros [Hd _]%andb_true_iff.
  assert (Hself : Str.contains (String c (String d t)) "ABCDEF" = true -> False).
  { intros H%contains_second. cbn in H.
    destruct H as [<-|[<-|[<-|[<-|[<-|[<-|[]]]]]]]; discriminate Hd. }
  unfold Str.upper_char.
  destruct (Str.codepoint _) as [n|] eqn:E; [|by intros ?%Hself].
  apply codepoint_multibyte in E.
  destruct (_ && _) eqn:E1.
  { apply andb_true_iff in E1 as [_ E1]. apply N.leb_le in E1. lia. }
  destruct (Str.form_of n Str.upper_forms) as [f|] eqn:E2; [|by intros ?%Hself].
  apply form_of_In in E2 as (m & Hin). pose proof upper_forms_not_letters as Hf.
  rewrite Forall_forall in Hf. apply Hf in Hin. cbn [snd] in Hin. congruence.
Qed.

Lemma upper_of_char ch : is_char ch = true -> Str.upper ch = Str.upper_char ch.
Proof.
  intros H. unfold Str.upper. rewrite (chars_single ch H).
  cbn [fmap list_fmap]. unfold Str.concat. cbn [foldr]. apply append_nil_r.
Qed.

Lemma normalize_category_closed (v : json) (c : string) :
  normalize_category v = Ok c -> In c category_values.
Proof.
  unfold normalize_category, category_values.
  destruct (negb (truthy v) || negb (isinstance_str v)).
  { intros [= <-]. apply in_or_app. right. by left. }
  destruct v as [| | | |s| |]; try (intros [= <-]; apply in_or_app; right; by left).
  unfold Str.index0. destruct (Str.chars (Str.strip s)) as [|ch r] eqn:Hs; [discriminate|].
  cbn [mbind Outcome_bind].
  assert (Hch : is_char ch = true).
  { apply (chars_is_char (Str.strip s)). rewrite Hs. by left. }
  rewrite (upper_of_char ch Hch).
  destruct (Str.contains (Str.upper_char ch) "ABCDEF") eqn:E.
  - intros [= <-]. apply in_or_app. left. by apply upper_char_letter.
  - intros [= <-]. apply in_or_app. right. by left.
Qed.

Lemma normalize_category_returns (v : json) :
  returns (normalize_category v) = true <->
  (forall s, v = JStr s -> s = "" \/ Str.strip s <> "").
Proof.
  unfold normalize_category.
  destruct v as [| | | |s| |]; try solve [split; [intros _ ? [=]|intros _; by destruct (_ || _)]].
  destruct s as [|a s].
  { split; [|done]. intros _ s0 Hs. injection Hs as <-. by left. }
  cbn [truthy isinstance_str String.eqb negb orb]. unfold Str.index0.
  destruct (Str.chars (Str.strip (String a s))) as [|ch r] eqn:E; cbn [mbind Outcome_bind].
  - apply chars_nil in E. split; [done|]. intros H. destruct (H _ eq_refl) as [?|?]; congruence.
  - split; [|by destruct (Str.contains _ _)].
    intros _ s0 Hs. injection Hs as <-. right. intros H. by rewrite H in E.
Qed.

Theorem normalize_category_blank_raises :
  normalize_category (JStr " ") = Raise IndexError /\
  normalize_category (JStr "") = Ok "Unknown" /\
  normalize_category JNull = Ok "Unknown" /\
  normalize_category (JStr "E. Core literature") = Ok "E".
Proof. repeat split. Qed.

(** ** Technique canonicalization *)

Section Strip.

Lemma chars_inj s t : Str.chars s = Str.chars t -> s = t.
Proof. intros H. by rewrite <- (concat_chars s), <- (concat_chars t), H. Qed.

Lemma rstrip_idem s : Str.rstrip (Str.rstrip s) = Str.rstrip s.
Proof. apply chars_inj. by rewrite !chars_rstrip, drop_end_idem. Qed.

Lemma drop_while_drop_end {A} (p : A -> bool) l :
  Str.drop_while p (Str.drop_end p (Str.drop_while p l))
  = Str.drop_end p (Str.drop_while p l).
Proof.
  destruct (Str.drop_while p l) as [|x r] eqn:E; [done|].
  apply drop_while_head in E. destruct (drop_end_head p x r E) as [r' ->].
  by apply drop_while_keep.
Qed.

Lemma strip_idem s : Str.strip (Str.strip s) = Str.strip s.
Proof.
  apply chars_inj. rewrite chars_strip, chars_strip.
  by rewrite drop_while_drop_end, drop_end_idem.
Qed.

End Strip.

(** The value returned is the canonical name of a rule or the stripped
    input. *)
Lemma normalize_technique_range s :
  In (DeepAnalysis.normalize_technique s) DeepAnalysis.canonical_labels \/
  DeepAnalysis.normalize_technique s = Str.strip s.
Proof.
  unfold DeepAnalysis.normalize_technique.
  repeat match goal with
         | |- context [if ?b then _ else _] =>
             destruct b; [left; unfold DeepAnalysis.canonical_labels; simpl; tauto|]
         end.
  by right.
Qed.

Lemma normalize_technique_strip s :
  DeepAnalysis.normalize_technique (Str.strip s) = DeepAnalysis.normalize_technique s.
Proof. unfold DeepAnalysis.normalize_technique. by rewrite strip_idem. Qed.

Lemma canonical_labels_fixed :
  Forall (fun L => DeepAnalysis.normalize_technique L = L)
         DeepAnalysis.canonical_labels.
Proof. unfold DeepAnalysis.canonical_labels. repeat constructor. Qed.

(** C7. Every canonical name returned by a rule of [normalize_technique]
    is a fixed point of [normalize_technique]: no canonical name matches an
    earlier, different rule.  The names are all the values the rules
    return: any other result is the stripped input itself. *)
Theorem normalize_technique_canonical_fixed :
  Forall (fun L => DeepAnalysis.normalize_technique L = L)
         DeepAnalysis.canonical_labels /\
  (forall s, In (DeepAnalysis.normalize_technique s) DeepAnalysis.canonical_labels \/
             DeepAnalysis.normalize_technique s = Str.strip s).
Proof.
  split; [apply canonical_labels_fixed | apply normalize_technique_range].
Qed.

(** Hence canonicalization is idempotent on every input. *)
Corollary normalize_technique_idempotent s :
  DeepAnalysis.normalize_technique (DeepAnalysis.normalize_technique s) =
  DeepAnalysis.normalize_technique s.
Proof.
  destruct (normalize_technique_range s) as [Hin | Heq].
  - pose proof canonical_labels_fixed as HF.
    rewrite Forall_forall in HF. apply HF. by apply list_elem_of_In.
  - rewrite Heq at 1. apply normalize_technique_strip.
Qed.

(** ** Relevance-score coercion *)

Lemma normalize_secondary_get k d d' :
  k <> "secondary_categories" ->
  normalize_secondary d = Ok d' -> Dict.get k d' = Dict.get k d.
Proof.
  intros Hk. unfold normalize_secondary.
  destruct (Dict.has _ d); [|by intros [= <-]].
  destruct (py_iter _) as [items|]; [|done]. cbn [mbind Outcome_bind].
  destruct (mapM _ _) as [cs|]; [|done]. cbn [mbind Outcome_bind].
  intros [= <-]. by rewrite get_set_ne.
Qed.





(** ** Loading the persisted records *)

Local Ltac mem :=
  split_and?; first [done | by left | by right | by eauto].

Section Listing.

Context (st : gmap string Folder).

Lemma elem_of_sorted_listdir f : f ∈ sorted (listdir st) <-> is_Some (st !! f).
Proof.
  unfold sorted, listdir. rewrite merge_sort_Permutation.
  rewrite list_elem_of_fmap. split.
  - intros [[f' fo] [-> H]]. apply elem_of_map_to_list in H. by eexists.
  - intros [fo H]. exists (f, fo). split; [done|]. by apply elem_of_map_to_list.
Qed.

Lemma NoDup_sorted_listdir : NoDup (sorted (listdir st)).
Proof.
  unfold sorted, listdir. rewrite merge_sort_Permutation.
  apply NoDup_fst_map_to_list.
Qed.

Lemma analysis_of_listed f c : analysis_of st f = Some c -> f ∈ sorted (listdir st).
Proof.
  unfold analysis_of. intros H. apply elem_of_sorted_listdir.
  destruct (st !! f); [by eexists|done].
Qed.

(** [results] holds exactly the records of the files that load. *)
Lemma summarize_results_spec folders d :
  d ∈ (Summarize.load_folders st folders).1 <->
  exists f c, f ∈ folders /\ analysis_of st f = Some c /\ Summarize.load_one f c = Ok d.
Proof.
  induction folders as [|f0 fs IH]; cbn [Summarize.load_folders].
  { split; [by intros ?%elem_of_nil|]. by intros (?&?&?%elem_of_nil&_). }
  destruct (Summarize.load_folders st fs) as [rs es]. cbn [fst] in IH.
  destruct (analysis_of st f0) as [c0|] eqn:Ha;
    [destruct (Summarize.load_one f0 c0) as [d0|e0] eqn:Hl|]; cbn [fst].
  - rewrite elem_of_cons, IH. split.
    + intros [->|(f&c&?&?&?)]; [exists f0, c0|exists f, c]; mem.
    + intros (f&c&[->|?]%elem_of_cons&?&?); [left; congruence|right; eauto].
  - rewrite IH. split.
    + intros (f&c&?&?&?). exists f, c. mem.
    + intros (f&c&[->|?]%elem_of_cons&?&?); [congruence|eauto].
  - rewrite IH. split.
    + intros (f&c&?&?&?). exists f, c. mem.
    + intros (f&c&[->|?]%elem_of_cons&?&?); [congruence|eauto].
Qed.

(** [errors] holds exactly the folders whose file fails to load, each
    with the exception raised. *)
Lemma summarize_errors_spec folders f e :
  (f, e) ∈ (Summarize.load_folders st folders).2 <->
  f ∈ folders /\ exists c, analysis_of st f = Some c /\ Summarize.load_one f c = Raise e.
Proof.
  induction folders as [|f0 fs IH]; cbn [Summarize.load_folders].
  { split; [by intros ?%elem_of_nil|]. by intros (?%elem_of_nil&_). }
  destruct (Summarize.load_folders st fs) as [rs es]. cbn [snd] in IH.
  destruct (analysis_of st f0) as [c0|] eqn:Ha;
    [destruct (Summarize.load_one f0 c0) as [d0|e0] eqn:Hl|]; cbn [snd].
  - rewrite IH. split.
    + intros (?&c&?&?). split; [mem|eauto].
    + intros ([->|?]%elem_of_cons&c&?&?); [congruence|eauto].
  - rewrite elem_of_cons, IH. split.
    + intros [[= -> ->]|(?&c&?&?)]; (split; [mem|eauto]).
    + intros ([->|?]%elem_of_cons&c&?&?); [left; congruence|right; eauto].
  - rewrite IH. split.
    + intros (?&c&?&?). split; [mem|eauto].
    + intros ([->|?]%elem_of_cons&c&?&?); [congruence|eauto].
Qed.

Lemma deep_results_spec folders d :
  d ∈ DeepAnalysis.load_folders st folders <->
  exists f c, f ∈ folders /\ analysis_of st f = Some c /\ DeepAnalysis.load_one f c = Ok d.
Proof.
  induction folders as [|f0 fs IH]; cbn [DeepAnalysis.load_folders].
  { split; [by intros ?%elem_of_nil|]. by intros (?&?&?%elem_of_nil&_). }
  destruct (analysis_of st f0) as [c0|] eqn:Ha;
    [destruct (DeepAnalysis.load_one f0 c0) as [d0|e0] eqn:Hl|].
  - rewrite elem_of_cons, IH. split.
    + intros [->|(f&c&?&?&?)]; [exists f0, c0|exists f, c]; mem.
    + intros (f&c&[->|?]%elem_of_cons&?&?); [left; congruence|right; eauto].
  - rewrite IH. split.
    + intros (f&c&?&?&?). exists f, c. mem.
    + intros (f&c&[->|?]%elem_of_cons&?&?); [congruence|eauto].
  - rewrite IH. split.
    + intros (f&c&?&?&?). exists f, c. mem.
    + intros (f&c&[->|?]%elem_of_cons&?&?); [congruence|eauto].
Qed.

Lemma summarize_loaded f c d :
  analysis_of st f = Some c -> Summarize.load_one f c = Ok d ->
  d ∈ (Summarize.load_all st).1.
Proof.
  intros Ha Hl. apply summarize_results_spec. exists f, c.
  eauto using analysis_of_listed.
Qed.

Lemma summarize_failed f c e :
  analysis_of st f = Some c -> Summarize.load_one f c = Raise e ->
  (f, e) ∈ (Summarize.load_all st).2.
Proof.
  intros Ha Hl. apply summarize_errors_spec.
  split; [by eapply analysis_of_listed|eauto].
Qed.

Lemma deep_loaded f c d :
  analysis_of st f = Some c -> DeepAnalysis.load_one f c = Ok d ->
  d ∈ DeepAnalysis.load_all st.
Proof.
  intros Ha Hl. apply deep_results_spec. exists f, c.
  eauto using analysis_of_listed.
Qed.

End Listing.

(** ** Error records at aggregation time *)

Lemma summarize_load_error_record folder d :
  ErrorRecord d ->
  Summarize.load_one folder (Doc (JObj d)) =
  Ok (d ++ [("_folder", JStr folder); ("primary_category", JStr "Unknown")])%list.
Proof. by intros []. Qed.

Lemma deep_load_error_record folder d :
  ErrorRecord d ->
  DeepAnalysis.load_one folder (Doc (JObj d)) =
  Ok (d ++ [("_folder", JStr folder); ("primary_category", JStr "Unknown");
            ("relevance_score", JInt 0); ("year", JInt 0)])%list.
Proof. by intros []. Qed.

(** Contrary to the specification, the error record is in the result set
    the statistics are computed from, under category "Unknown", and no
    failure is recorded for it. *)
Lemma error_record_is_loaded :
  Summarize.load_all scanned_store =
    ([ [("error", JStr "Extracted text too short — likely a scanned PDF");
        ("filename", JStr "scan.pdf"); ("extracted_chars", JInt 0);
        ("_folder", JStr "ABCD1234"); ("primary_category", JStr "Unknown")] ],
     []) /\
  Summarize.primary_counts (Summarize.load_all scanned_store).1 []
  = Ok [(JStr "Unknown", 1%nat)].
Proof. split; vm_compute; reflexivity. Qed.

(** C1 (amended). The loaded result set is not restricted to successful
    records: an ErrorRecord persisted by [analyze.py] is a JSON object, so
    both loaders put it in the result set, with its folder and with primary
    category "Unknown" ([deep_analysis] also gives it score 0 and year 0),
    and [summarize] does not list it among the failures. *)
Theorem error_records_are_loaded
    (st : gmap string Folder) (folder : string) (fo : Folder) (d : dict) :
  st !! folder = Some fo ->
  analysis fo = Some (Doc (JObj d)) ->
  ErrorRecord d ->
  (d ++ [("_folder", JStr folder); ("primary_category", JStr "Unknown")])%list
    ∈ (Summarize.load_all st).1 /\
  (folder ∉ ((Summarize.load_all st).2).*1) /\
  (d ++ [("_folder", JStr folder); ("primary_category", JStr "Unknown");
         ("relevance_score", JInt 0); ("year", JInt 0)])%list
    ∈ DeepAnalysis.load_all st.
Proof.
  intros Hst Han Herr.
  assert (Ha : analysis_of st folder = Some (Doc (JObj d))).
  { unfold analysis_of. by rewrite Hst. }
  split_and!.
  - eapply summarize_loaded; [done|]. by apply summarize_load_error_record.
  - intros [[f e] [Hf Hin]]%list_elem_of_fmap. simpl in Hf. subst f.
    apply summarize_errors_spec in Hin as (_ & c & Hc & Hl).
    rewrite Ha in Hc. injection Hc as <-.
    by rewrite summarize_load_error_record in Hl.
  - eapply deep_loaded; [done|]. by apply deep_load_error_record.
Qed.

Lemma error_records_are_loaded_witness :
  (Analyze.too_short_record "scan.pdf" 0 ++
     [("_folder", JStr "ABCD1234"); ("primary_category", JStr "Unknown")])%list
    ∈ (Summarize.load_all scanned_store).1 /\
  ("ABCD1234" ∉ ((Summarize.load_all scanned_store).2).*1) /\
  (Analyze.too_short_record "scan.pdf" 0 ++
     [("_folder", JStr "ABCD1234"); ("primary_category", JStr "Unknown");
      ("relevance_score", JInt 0); ("year", JInt 0)])%list
    ∈ DeepAnalysis.load_all scanned_store.
Proof.
  eapply (error_records_are_loaded scanned_store "ABCD1234").
  - reflexivity.
  - reflexivity.
  - constructor.
Defined.

(** ** Files that fail to load *)

Lemma coerce_score_get k d d' :
  k <> "relevance_score" ->
  Summarize.coerce_score d = Ok d' -> Dict.get k d' = Dict.get k d.
Proof.
  intros Hk. unfold Summarize.coerce_score.
  destruct (negb _); [|by intros [= <-]].
  destruct (py_int _) as [z|[]]; try done; intros [= <-]; by rewrite get_set_ne.
Qed.

Lemma summarize_load_one_folder f c d :
  Summarize.load_one f c = Ok d -> Dict.get "_folder" d = Some (JStr f).
Proof.
  unfold Summarize.load_one.
  destruct c as [j|]; [|done]. cbn [json_load mbind Outcome_bind].
  destruct j as [| | | | | |d0]; try done. cbn [setitem mbind Outcome_bind].
  destruct (normalize_category _) as [pc|]; [|done]. cbn [mbind Outcome_bind].
  destruct (normalize_secondary _) as [d1|] eqn:Hs; [|done]. cbn [mbind Outcome_bind].
  intros Hc. rewrite (coerce_score_get "_folder" _ _ ltac:(done) Hc).
  rewrite (normalize_secondary_get "_folder" _ _ ltac:(done) Hs).
  rewrite get_set_ne by done. apply get_set_eq.
Qed.

Lemma deep_load_one_folder f c d :
  DeepAnalysis.load_one f c = Ok d -> Dict.get "_folder" d = Some (JStr f).
Proof.
  unfold DeepAnalysis.load_one.
  destruct c as [j|]; [|done]. cbn [json_load mbind Outcome_bind].
  destruct j as [| | | | | |d0]; try done. cbn [setitem mbind Outcome_bind].
  destruct (normalize_category _) as [pc|]; [|done]. cbn [mbind Outcome_bind].
  intros Hs. rewrite (normalize_secondary_get "_folder" _ _ ltac:(done) Hs).
  rewrite !get_set_ne by done. apply get_set_eq.
Qed.

(** Contrary to the specification, [deep_analysis.load_all] returns what it
    returns when the unparsable file is not there at all, so the failing
    item is listed nowhere; [summarize.load_all] does list it. *)
Lemma deep_analysis_drops_silently :
  DeepAnalysis.load_all corrupt_store = DeepAnalysis.load_all clean_store /\
  (Summarize.load_all corrupt_store).2 = [("BAD00002", JSONDecodeError)].
Proof. split; vm_compute; reflexivity. Qed.

(** C9 (amended). A persisted result that fails to parse does not abort
    the load and is excluded from the loaded set, while every file that
    loads is in it, in [summarize] and in [deep_analysis];
    [summarize.load_all] lists the failing item with its folder and the
    error, [deep_analysis.load_all] drops it without listing it. *)
Theorem parse_failure_excluded_and_listed
    (st : gmap string Folder) (folder : string) (fo : Folder) :
  st !! folder = Some fo ->
  analysis fo = Some Garbage ->
  (forall d, d ∈ (Summarize.load_all st).1 -> Dict.get "_folder" d <> Some (JStr folder)) /\
  (folder, JSONDecodeError) ∈ (Summarize.load_all st).2 /\
  (forall f c d, analysis_of st f = Some c -> Summarize.load_one f c = Ok d ->
                 d ∈ (Summarize.load_all st).1) /\
  (forall d, d ∈ DeepAnalysis.load_all st -> Dict.get "_folder" d <> Some (JStr folder)) /\
  (forall f c d, analysis_of st f = Some c -> DeepAnalysis.load_one f c = Ok d ->
                 d ∈ DeepAnalysis.load_all st).
Proof.
  intros Hst Han.
  assert (Ha : analysis_of st folder = Some Garbage).
  { unfold analysis_of. by rewrite Hst. }
  split_and!.
  - intros d (f & c & _ & Hc & Hl)%summarize_results_spec Hget.
    rewrite (summarize_load_one_folder _ _ _ Hl) in Hget. injection Hget as ->.
    rewrite Ha in Hc. by injection Hc as <-.
  - by eapply summarize_failed.
  - intros f c d. apply summarize_loaded.
  - intros d (f & c & _ & Hc & Hl)%deep_results_spec Hget.
    rewrite (deep_load_one_folder _ _ _ Hl) in Hget. injection Hget as ->.
    rewrite Ha in Hc. by injection Hc as <-.
  - intros f c d. apply deep_loaded.
Qed.

Lemma parse_failure_excluded_and_listed_witness :
  (forall d, d ∈ (Summarize.load_all corrupt_store).1 ->
             Dict.get "_folder" d <> Some (JStr "BAD00002")) /\
  ("BAD00002", JSONDecodeError) ∈ (Summarize.load_all corrupt_store).2 /\
  (forall f c d, analysis_of corrupt_store f = Some c -> Summarize.load_one f c = Ok d ->
                 d ∈ (Summarize.load_all corrupt_store).1) /\
  (forall d, d ∈ DeepAnalysis.load_all corrupt_store ->
             Dict.get "_folder" d <> Some (JStr "BAD00002")) /\
  (forall f c d, analysis_of corrupt_store f = Some c -> DeepAnalysis.load_one f c = Ok d ->
                 d ∈ DeepAnalysis.load_all corrupt_store).
Proof.
  eapply (parse_failure_excluded_and_listed corrupt_store "BAD00002").
  - reflexivity.
  - reflexivity.
Defined.

(** ** The category tally and the cross-tabulation *)

Section CounterFacts.

Lemma key_eqb_str_r k s : key_eqb k (JStr s) = true <-> k = JStr s.
Proof.
  destruct k as [| | |f|s'| |]; simpl; try (split; [done|discriminate]).
  - destruct f; simpl; (split; [done|discriminate]).
  - rewrite String.eqb_eq. split; congruence.
Qed.

Lemma key_eqb_str_l k s : key_eqb (JStr s) k = true <-> k = JStr s.
Proof.
  destruct k as [| | |f|s'| |]; simpl; try (split; [done|discriminate]).
  rewrite String.eqb_eq. split; congruence.
Qed.

Lemma get_upd_str {V} s k (f : option V -> V) (c : Counter.t V) :
  Counter.get (JStr s) (Counter.upd k f c) =
  if key_eqb k (JStr s) then Some (f (Counter.get k c)) else Counter.get (JStr s) c.
Proof.
  induction c as [|[k0 v0] c IH]; cbn [Counter.get Counter.upd]; [done|].
  destruct (key_eqb k0 k) eqn:E0; cbn [Counter.get].
  - destruct (key_eqb k (JStr s)) eqn:E.
    + apply key_eqb_str_r in E as ->. by rewrite E0.
    + destruct (key_eqb k0 (JStr s)) eqn:E1; [|done].
      apply key_eqb_str_r in E1 as ->. apply key_eqb_str_l in E0 as ->.
      rewrite (proj2 (key_eqb_str_r _ _) eq_refl) in E. discriminate.
  - rewrite IH. destruct (key_eqb k (JStr s)) eqn:E; [|done].
    apply key_eqb_str_r in E as ->.
    destruct (key_eqb k0 (JStr s)) eqn:E1; [|done]. congruence.
Qed.

Lemma total_upd_incr k c :
  Counter.total (Counter.upd k (fun o => S (default O o)) c) = S (Counter.total c).
Proof.
  unfold Counter.total, Counter.values.
  induction c as [|[k0 v0] c IH]; cbn [Counter.upd]; [done|].
  destruct (key_eqb k0 k); cbn [fmap list_fmap foldr snd]; [done|].
  cbn [fmap] in IH. rewrite IH. lia.
Qed.

Lemma incr_Ok k c c' :
  Counter.incr k c = Ok c' ->
  hashable k = true /\ c' = Counter.upd k (fun o => S (default O o)) c.
Proof.
  unfold Counter.incr, Counter.update. destruct (hashable k); [|done].
  by intros [= <-].
Qed.

Lemma update_Ok {V} k (f : option V -> V) c c' :
  Counter.update k f c = Ok c' -> c' = Counter.upd k f c.
Proof. unfold Counter.update. destruct (hashable k); [|done]. by intros [= <-]. Qed.

End CounterFacts.

Lemma tallies_consistent results :
  forall primary cross primary' cross',
    consistent primary cross ->
    Summarize.primary_counts results primary = Ok primary' ->
    Summarize.crosstab results cross = Ok cross' ->
    consistent primary' cross'.
Proof.
  induction results as [|r rest IH]; intros primary cross primary' cross' Hc;
    cbn [Summarize.primary_counts Summarize.crosstab].
  { by intros [= <-] [= <-]. }
  destruct (Counter.incr _ primary) as [p1|] eqn:Hp; [|done].
  destruct (Counter.incr _ (default [] _)) as [row|] eqn:Hrow; [|done].
  cbn [mbind Outcome_bind].
  destruct (Counter.update _ _ cross) as [c1|] eqn:Hc1; [|done].
  cbn [mbind Outcome_bind].
  apply IH. clear IH primary' cross'.
  apply incr_Ok in Hp as [_ ->]. apply incr_Ok in Hrow as [_ ->].
  apply update_Ok in Hc1 as ->.
  intros s Hs1 Hs2. specialize (Hc s Hs1 Hs2).
  unfold Summarize.row_total, Summarize.row_of, Summarize.category_count in *.
  rewrite !get_upd_str.
  unfold Dict.get_default. destruct (Dict.get "primary_category" r) as [v|].
  - destruct (key_eqb v (JStr s)) eqn:E; [|done].
    apply key_eqb_str_r in E as ->. cbn [default from_option id].
    rewrite total_upd_incr. by rewrite Hc.
  - assert (key_eqb (JStr "?") (JStr s) = false) as ->.
    { apply not_true_is_false. rewrite key_eqb_str_r. congruence. }
    assert (key_eqb (JStr "Unknown") (JStr s) = false) as ->; [|done].
    apply not_true_is_false. rewrite key_eqb_str_r. congruence.
Qed.

Lemma summarize_load_one_ready f c d :
  Summarize.load_one f c = Ok d -> tally_ready d.
Proof.
  unfold Summarize.load_one.
  destruct c as [j|]; [|done]. cbn [json_load mbind Outcome_bind].
  destruct j as [| | | | | |d0]; try done. cbn [setitem mbind Outcome_bind].
  destruct (normalize_category _) as [pc|]; [|done]. cbn [mbind Outcome_bind].
  destruct (normalize_secondary _) as [d1|] eqn:Hs; [|done]. cbn [mbind Outcome_bind].
  intros Hc. split.
  - exists pc. rewrite (coerce_score_get "primary_category" _ _ ltac:(done) Hc).
    rewrite (normalize_secondary_get "primary_category" _ _ ltac:(done) Hs).
    apply get_set_eq.
  - revert Hc. unfold Summarize.coerce_score, Dict.get_none, Dict.get_default.
    destruct (Dict.get "relevance_score" d1) as [v|] eqn:Hv.
    + destruct (is_None v) eqn:Hn; cbn [negb].
      * intros [= <-]. rewrite Hv. by destruct v.
      * destruct (py_int v) as [z|[]]; try done; intros [= <-];
          by rewrite get_set_eq.
    + cbn [is_None negb]. intros [= <-]. by rewrite Hv.
Qed.

Lemma tallies_return results :
  Forall tally_ready results ->
  forall primary cross,
    returns (Summarize.primary_counts results primary) = true /\
    returns (Summarize.crosstab results cross) = true.
Proof.
  induction 1 as [|r rest [[pc Hpc] Hsc] _ IH]; intros primary cross; [done|].
  cbn [Summarize.primary_counts Summarize.crosstab].
  unfold Dict.get_default at 1 2. rewrite Hpc.
  unfold Counter.incr, Counter.update. rewrite Hsc. cbn [hashable mbind Outcome_bind].
  split; [apply (IH _ cross) | apply (IH primary _)].
Qed.

(** C8. On the record set that [load_all] returns, the category tally and
    the cross-tabulation are both computed, and for each category A to F
    the total of its row, [sum(row.values())], equals its count in the
    primary-category distribution. *)
Theorem crosstab_row_totals (st : gmap string Folder) :
  exists primary cross,
    Summarize.primary_counts (Summarize.load_all st).1 [] = Ok primary /\
    Summarize.crosstab (Summarize.load_all st).1 [] = Ok cross /\
    Forall (fun cat => Summarize.row_total cross cat
                       = Summarize.category_count primary cat) categories.
Proof.
  assert (Hready : Forall tally_ready (Summarize.load_all st).1).
  { apply Forall_forall. intros d (f & c & _ & _ & Hl)%summarize_results_spec.
    by eapply summarize_load_one_ready. }
  destruct (tallies_return _ Hready [] []) as [Hp Hx].
  destruct (Summarize.primary_counts _ _) as [primary|] eqn:Ep; [|done].
  destruct (Summarize.crosstab _ _) as [cross|] eqn:Ex; [|done].
  exists primary, cross. split_and!; try done.
  assert (Hc : consistent primary cross).
  { eapply tallies_consistent; [|done..]. by intros s _ _. }
  unfold categories. repeat constructor; by apply Hc.
Qed.

(** The row total counts every score of the row: a score outside 1..5
    is in the total although none of the five printed columns shows it. *)
Example row_total_counts_unprinted_scores :
  exists cross,
    Summarize.crosstab (Summarize.load_all odd_score_store).1 [] = Ok cross /\
    Summarize.row_total cross "A" = 1%nat /\
    Forall (fun s => Summarize.row_cell cross "A" s = O) [1; 2; 3; 4; 5].
Proof. eexists. split; [vm_compute; reflexivity|]. split; [reflexivity|]. repeat constructor. Qed.

(** ** The extraction client *)

(** A reply wrapped in a code fence is unwrapped before it is parsed. *)
Example strip_fence_json :
  strip_fence (Str.strip ("```json" +:+ nl +:+ "{}" +:+ nl +:+ "```" +:+ nl)) = "{}" /\
  strip_fence "```" = "" /\
  strip_fence "{}" = "{}".
Proof. repeat split. Qed.

Section RetryLoop.

Context (env : Env) (content filename : string).

Lemma retry_loop_storage attempts w :
  storage (retry_loop env content filename attempts w).1 = storage w.
Proof.
  revert w. induction attempts as [|a rest IH]; intros w; cbn [retry_loop]; [done|].
  destruct (service env _ content); try (rewrite IH; done);
    destruct (read_response _ _ _) as [|e]; try done;
    destruct (retryable e); try done; rewrite IH; by destruct (a <? _).
Qed.

(** A call only appends to the log. *)
Lemma retry_loop_log attempts w :
  exists evs, log (retry_loop env content filename attempts w).1 = (log w ++ evs)%list.
Proof.
  revert w. induction attempts as [|a rest IH]; intros w; cbn [retry_loop].
  { exists []. by rewrite app_nil_r. }
  destruct (service env _ content).
  - destruct (IH (sleep (inject_Z (RETRY_DELAY * (a + 2))) (emit (EvPost content) w)))
      as [evs ->]. cbn [sleep emit log]. rewrite <- !app_assoc. by eexists.
  - destruct (read_response _ _ _) as [|e]; [by eexists [_]|].
    destruct (retryable e); [|by eexists [_]].
    match goal with |- context [retry_loop _ _ _ _ ?w'] =>
      destruct (IH w') as [evs ->] end.
    destruct (a <? _); cbn [sleep emit log]; rewrite <- !app_assoc; by eexists.
  - destruct (read_response _ _ _) as [|e]; [by eexists [_]|].
    destruct (retryable e); [|by eexists [_]].
    match goal with |- context [retry_loop _ _ _ _ ?w'] =>
      destruct (IH w') as [evs ->] end.
    destruct (a <? _); cbn [sleep emit log]; rewrite <- !app_assoc; by eexists.
  - destruct (read_response _ _ _) as [|e]; [by eexists [_]|].
    destruct (retryable e); [|by eexists [_]].
    match goal with |- context [retry_loop _ _ _ _ ?w'] =>
      destruct (IH w') as [evs ->] end.
    destruct (a <? _); cbn [sleep emit log]; rewrite <- !app_assoc; by eexists.
Qed.

Lemma posts_app l1 l2 : posts (l1 ++ l2) = (posts l1 + posts l2)%nat.
Proof. unfold posts. by rewrite List.filter_app, length_app. Qed.

Lemma posts_emit e w :
  posts (log (emit e w)) = (posts (log w) + if is_post e then 1 else 0)%nat.
Proof. cbn [emit log]. rewrite posts_app. unfold posts. simpl. by destruct (is_post e). Qed.

(** Every attempt, whatever the failure, uses up one of the indices. *)
Lemma retry_loop_budget attempts w :
  (posts (log (retry_loop env content filename attempts w).1)
   <= posts (log w) + length attempts)%nat.
Proof.
  revert w. induction attempts as [|a rest IH]; intros w; cbn [retry_loop length fst]; [lia|].
  assert (Hstep : forall w',
             posts (log w') = S (posts (log w)) ->
             (posts (log (retry_loop env content filename rest w').1)
              <= posts (log w) + S (length rest))%nat).
  { intros w' Hw'. etrans; [apply IH|]. lia. }
  assert (Hpost : posts (log (emit (EvPost content) w)) = S (posts (log w))).
  { rewrite posts_emit. simpl. lia. }
  destruct (service env _ content).
  - apply Hstep. unfold sleep. rewrite posts_emit, Hpost. simpl. lia.
  - destruct (read_response _ _ _) as [|e]; [cbn [fst]; lia|].
    destruct (retryable e); [|cbn [fst]; lia].
    apply Hstep. destruct (a <? _); [|done].
    unfold sleep. rewrite posts_emit, Hpost. simpl. lia.
  - destruct (read_response _ _ _) as [|e]; [cbn [fst]; lia|].
    destruct (retryable e); [|cbn [fst]; lia].
    apply Hstep. destruct (a <? _); [|done].
    unfold sleep. rewrite posts_emit, Hpost. simpl. lia.
  - destruct (read_response _ _ _) as [|e]; [cbn [fst]; lia|].
    destruct (retryable e); [|cbn [fst]; lia].
    apply Hstep. destruct (a <? _); [|done].
    unfold sleep. rewrite posts_emit, Hpost. simpl. lia.
Qed.

(** What a call returns is the terminal record or a parsed reply. *)
Lemma retry_loop_result attempts w result :
  (retry_loop env content filename attempts w).2 = Ok result ->
  result = exhausted_record filename \/
  exists now resp, read_response env now resp = Ok result.
Proof.
  revert w. induction attempts as [|a rest IH]; intros w; cbn [retry_loop].
  { intros [= <-]. by left. }
  destruct (service env _ content) eqn:Hs; [apply IH|..];
    (destruct (read_response _ _ _) as [r|e] eqn:Hr;
     [intros [= <-]; right; eauto|
      destruct (retryable e); [apply IH|done]]).
Qed.

End RetryLoop.

Section RetrySteps.

Context (env : Env) (content filename : string).

Lemma retry_loop_429 a rest w :
  service env (posts (log w)) content = Status429 ->
  retry_loop env content filename (a :: rest) w =
  retry_loop env content filename rest
    (sleep (inject_Z (RETRY_DELAY * (a + 2))) (emit (EvPost content) w)).
Proof. intros H. cbn [retry_loop]. by rewrite H. Qed.

Lemma retry_loop_body a rest w data result :
  service env (posts (log w)) content = Body data ->
  read_response env (strftime env (log (emit (EvPost content) w))) (Body data)
  = Ok result ->
  retry_loop env content filename (a :: rest) w = (emit (EvPost content) w, Ok result).
Proof. intros H Hr. cbn [retry_loop]. rewrite H. by rewrite Hr. Qed.

Lemma posts_after_429 d w :
  posts (log (sleep d (emit (EvPost content) w))) = S (posts (log w)).
Proof. unfold sleep. rewrite !posts_emit. simpl. lia. Qed.

(** The three failure classes draw on one budget: when every answer is
    a failure of some class, the loop ends after one request per attempt
    index with the terminal record. *)
Lemma retry_loop_exhausted attempts :
  forall w,
    (forall i, (i < length attempts)%nat ->
               fails_retryably env (service env (posts (log w) + i) content)) ->
    (retry_loop env content filename attempts w).2 = Ok (exhausted_record filename) /\
    posts (log (retry_loop env content filename attempts w).1)
    = (posts (log w) + length attempts)%nat.
Proof.
  induction attempts as [|a rest IH]; intros w Hfail; cbn [retry_loop length].
  { cbn [fst snd]. split; [done|lia]. }
  assert (Hnext : forall w',
             posts (log w') = S (posts (log w)) ->
             (retry_loop env content filename rest w').2 = Ok (exhausted_record filename) /\
             posts (log (retry_loop env content filename rest w').1)
             = (posts (log w) + S (length rest))%nat).
  { intros w' Hw'. destruct (IH w') as [Hr Hp].
    - intros i Hi. rewrite Hw'. replace (S (posts (log w)) + i)%nat
        with (posts (log w) + S i)%nat by lia. apply Hfail. cbn [length]. lia.
    - split; [done|]. rewrite Hp, Hw'. lia. }
  assert (Hpost : posts (log (emit (EvPost content) w)) = S (posts (log w))).
  { rewrite posts_emit. simpl. lia. }
  pose proof (Hfail O ltac:(cbn [length]; lia)) as H0.
  rewrite Nat.add_0_r in H0.
  destruct (service env (posts (log w)) content) eqn:Hs.
  - apply Hnext. apply posts_after_429.
  - destruct H0 as [?|H0]; [done|].
    destruct (H0 (strftime env (log (emit (EvPost content) w)))) as (e & -> & ->).
    apply Hnext. destruct (a <? _); [apply posts_after_429|done].
  - destruct H0 as [?|H0]; [done|].
    destruct (H0 (strftime env (log (emit (EvPost content) w)))) as (e & -> & ->).
    apply Hnext. destruct (a <? _); [apply posts_after_429|done].
  - destruct H0 as [?|H0]; [done|].
    destruct (H0 (strftime env (log (emit (EvPost content) w)))) as (e & -> & ->).
    apply Hnext. destruct (a <? _); [apply posts_after_429|done].
Qed.

End RetrySteps.

(** C6. When the service answers the first two requests of a call with
    status 429 and the third with a body that parses, [call_llm] returns
    the parsed result on the third attempt; it has slept
    [RETRY_DELAY * (0 + 2)] and then [RETRY_DELAY * (1 + 2)] seconds, and
    nothing else, before that.  Whatever the service answers, a call makes
    at most [MAX_RETRIES] requests: every failure class uses up the same
    attempt indices. *)
Theorem rate_limited_twice_then_success
    (env : Env) (text filename : string) (w : World) (data : json) (result : dict) :
  let content := user_prompt filename text in
  let n := posts (log w) in
  let log' := (log w ++ backoff_events content)%list in
  service env n content = Status429 ->
  service env (S n) content = Status429 ->
  service env (S (S n)) content = Body data ->
  read_response env (strftime env log') (Body data) = Ok result ->
  call_llm env text filename w = ({| storage := storage w; log := log' |}, Ok result) /\
  posts (backoff_events content) = 3%nat /\
  Qeq (total_wait (backoff_events content))
      (inject_Z (RETRY_DELAY * (0 + 2) + RETRY_DELAY * (1 + 2))) /\
  (forall env' text' filename' w',
      (posts (log (call_llm env' text' filename' w').1)
       <= posts (log w') + Z.to_nat MAX_RETRIES)%nat).
Proof.
  intros content n log' H0 H1 H2 Hread.
  split_and!; [|done|done|].
  - unfold call_llm. fold content.
    change (range MAX_RETRIES) with [0; 1; 2].
    rewrite retry_loop_429 by done.
    rewrite retry_loop_429 by (by rewrite posts_after_429).
    erewrite retry_loop_body; [|by rewrite !posts_after_429|].
    + unfold sleep, emit. cbn [log storage]. by rewrite <- !app_assoc.
    + unfold sleep, emit. cbn [log storage]. rewrite <- !app_assoc. exact Hread.
  - intros env' text' filename' w'. unfold call_llm.
    etrans; [apply retry_loop_budget|]. done.
Qed.

Lemma rate_limited_twice_then_success_witness :
  call_llm sample_env "text" "paper.pdf" empty_world =
    ({| storage := ∅; log := backoff_events (user_prompt "paper.pdf" "text") |},
     Ok [("_meta", JObj [("input_tokens", JInt 1200); ("output_tokens", JInt 300);
                         ("model", JStr MODEL);
                         ("analyzed_at", JStr "2025-01-01 00:00:00")])]) /\
  Qeq (total_wait (backoff_events (user_prompt "paper.pdf" "text"))) (inject_Z 25).
Proof.
  destruct (rate_limited_twice_then_success sample_env "text" "paper.pdf" empty_world
              fenced_reply
              [("_meta", JObj [("input_tokens", JInt 1200); ("output_tokens", JInt 300);
                               ("model", JStr MODEL);
                               ("analyzed_at", JStr "2025-01-01 00:00:00")])])
    as (Hcall & _ & Hwait & _); try reflexivity.
  split; [exact Hcall | exact Hwait].
Defined.

(** ** The orchestrator, one item *)

Lemma analysis_of_write folder result w :
  analysis_of (storage (write_result folder result w)) folder = Some (Doc (JObj result)).
Proof. unfold analysis_of, write_result. cbn [storage]. by rewrite lookup_insert_eq. Qed.

(** C5. For an item without a persisted result whose extracted text is
    shorter than 100 characters, [process_one] writes an ErrorRecord with
    the keys [error], [filename] and [extracted_chars] (the length of the
    text), reports "too_short", and the only events are the extraction and
    that write: no request is sent to the service. *)
Theorem short_text_short_circuit
    (env : Env) (folder : string) (w : World)
    (filename : string) (doc : Pdf) (rest : list (string * Pdf)) :
  output_exists (storage w) folder = false ->
  glob_pdfs (storage w) folder = (filename, doc) :: rest ->
  Str.len (extract_text_from_pdf doc) < 100 ->
  let chars := Str.len (extract_text_from_pdf doc) in
  let record := too_short_record filename chars in
  let w' := write_result folder record (emit (EvExtract folder filename) w) in
  process_one env folder w =
    (w', Ok [("status", JStr "too_short"); ("folder", JStr folder);
             ("chars", JInt chars)]) /\
  analysis_of (storage w') folder = Some (Doc (JObj record)) /\
  Dict.keys record = ["error"; "filename"; "extracted_chars"] /\
  Dict.get "filename" record = Some (JStr filename) /\
  Dict.get "extracted_chars" record = Some (JInt chars) /\
  log w' = (log w ++ [EvExtract folder filename; EvWrite folder record])%list /\
  posts (log w') = posts (log w).
Proof.
  intros Hout Hglob Hlen chars record w'.
  split_and!; try done.
  - apply Z.ltb_lt in Hlen. unfold process_one. by rewrite Hout, Hglob, Hlen.
  - apply analysis_of_write.
  - subst w'. unfold write_result, emit. cbn [log]. by rewrite <- app_assoc.
  - subst w'. unfold write_result, emit. cbn [log]. rewrite <- app_assoc.
    rewrite posts_app. unfold posts at 2. simpl. lia.
Qed.

Lemma short_text_short_circuit_witness :
  (process_one sample_env "SCAN0001" scan_world).2 =
    Ok [("status", JStr "too_short"); ("folder", JStr "SCAN0001"); ("chars", JInt 50)] /\
  log (process_one sample_env "SCAN0001" scan_world).1 =
    [EvExtract "SCAN0001" "scan.pdf";
     EvWrite "SCAN0001" (too_short_record "scan.pdf" 50)].
Proof.
  destruct (short_text_short_circuit sample_env "SCAN0001" scan_world "scan.pdf"
              (Readable [fifty_chars]) [])
    as (Hp & _ & _ & _ & _ & Hlog & _); try reflexivity.
  rewrite Hp. split; [reflexivity | exact Hlog].
Defined.

(** The length test counts characters, not bytes: a text of 40 characters
    in 120 bytes is too short, and 40 is what is recorded. *)
Example short_text_counts_characters :
  String.length forty_characters = 120%nat /\
  process_one sample_env "SCAN0002" short_world =
    (write_result "SCAN0002" (too_short_record "scan.pdf" 40)
       (emit (EvExtract "SCAN0002" "scan.pdf") short_world),
     Ok [("status", JStr "too_short"); ("folder", JStr "SCAN0002"); ("chars", JInt 40)]).
Proof. split; vm_compute; reflexivity. Qed.

(** A parsed reply is the JSON object of the payload with [_meta] set. *)
Lemma read_response_payload env now resp result :
  read_response env now resp = Ok result ->
  exists text payload meta,
    json_loads env text = Some (JObj payload) /\
    result = Dict.set "_meta" meta payload.
Proof.
  unfold read_response.
  destruct resp as [| | |data]; try done. cbn [mbind Outcome_bind].
  destruct (getitem data "choices") as [choices|]; [|done]. cbn [mbind Outcome_bind].
  destruct (getitem0 choices) as [choice|]; [|done]. cbn [mbind Outcome_bind].
  destruct (getitem choice "message") as [message|]; [|done]. cbn [mbind Outcome_bind].
  destruct (getitem message "content") as [content|]; [|done]. cbn [mbind Outcome_bind].
  destruct (py_strip content) as [text|]; [|done]. cbn [mbind Outcome_bind].
  destruct (json_loads env _) as [j|] eqn:Hj; [|done]. cbn [mbind Outcome_bind].
  destruct (py_get data "usage" _) as [usage|]; [|done]. cbn [mbind Outcome_bind].
  destruct (py_get usage "prompt_tokens" _) as [it|]; [|done]. cbn [mbind Outcome_bind].
  destruct (py_get usage "completion_tokens" _) as [ot|]; [|done]. cbn [mbind Outcome_bind].
  destruct j as [| | | | | |payload]; try done. cbn [setitem].
  intros [= <-]. eauto.
Qed.

Lemma call_llm_result env text filename w result :
  (call_llm env text filename w).2 = Ok result ->
  result = exhausted_record filename \/
  exists now resp, read_response env now resp = Ok result.
Proof. apply retry_loop_result. Qed.

(** C10. For an item that reaches the service step and for which
    [call_llm] returns, [process_one] persists exactly the returned object
    and reports "error" when that object has a top-level [error] key and
    "success" otherwise.  The record returned after the attempts are
    exhausted has the key, so it counts as an error; a parsed payload is
    persisted with [_meta] added and has the key exactly when the payload
    had it. *)
Theorem status_follows_error_key
    (env : Env) (folder : string) (w w1 : World)
    (filename : string) (doc : Pdf) (rest : list (string * Pdf)) (result : dict) :
  output_exists (storage w) folder = false ->
  glob_pdfs (storage w) folder = (filename, doc) :: rest ->
  100 <= Str.len (extract_text_from_pdf doc) ->
  call_llm env (extract_text_from_pdf doc) filename (emit (EvExtract folder filename) w)
  = (w1, Ok result) ->
  let status := if Dict.has "error" result then "error" else "success" in
  let w' := write_result folder result w1 in
  process_one env folder w =
    (w', Ok [("status", JStr status); ("folder", JStr folder);
             ("filename", JStr filename)]) /\
  analysis_of (storage w') folder = Some (Doc (JObj result)) /\
  (status = "error" <-> Dict.has "error" result = true) /\
  (status = "success" <-> Dict.has "error" result = false) /\
  (result = exhausted_record filename /\ status = "error" \/
   exists text payload meta,
     json_loads env text = Some (JObj payload) /\
     result = Dict.set "_meta" meta payload /\
     Dict.has "error" result = Dict.has "error" payload).
Proof.
  intros Hout Hglob Hlen Hcall status w'.
  split_and!.
  - unfold process_one. rewrite Hout, Hglob.
    apply Z.ltb_ge in Hlen as ->. by rewrite Hcall.
  - apply analysis_of_write.
  - subst status. by destruct (Dict.has "error" result).
  - subst status. by destruct (Dict.has "error" result).
  - destruct (call_llm_result env (extract_text_from_pdf doc) filename
                (emit (EvExtract folder filename) w) result) as [->|(now & resp & Hr)].
    { by rewrite Hcall. }
    + by left.
    + right. apply read_response_payload in Hr as (text & payload & meta & Hj & ->).
      exists text, payload, meta. split_and!; [done..|]. by apply has_set_ne.
Qed.

Lemma status_follows_error_key_witness :
  (process_one error_env "ITEM0001" paper_world).2 =
    Ok [("status", JStr "error"); ("folder", JStr "ITEM0001");
        ("filename", JStr "paper.pdf")] /\
  analysis_of (storage (process_one error_env "ITEM0001" paper_world).1) "ITEM0001" =
    Some (Doc (JObj error_payload_result)).
Proof.
  destruct (status_follows_error_key error_env "ITEM0001" paper_world
              {| storage := storage paper_world;
                 log := [EvExtract "ITEM0001" "paper.pdf";
                         EvPost (user_prompt "paper.pdf" long_text)] |}
              "paper.pdf" (Readable [long_text]) [] error_payload_result)
    as (Hp & Ha & _); try reflexivity.
  - vm_compute. discriminate.
  - rewrite Hp. split; [reflexivity | exact Ha].
Defined.

(** ** The orchestrator, whole runs *)

Section Counting.

Context {A : Type} `{EqDecision A}.
Implicit Types (F L : list A) (q r : A -> bool).

Lemma filter_ext_mem q r F :
  (forall x, x ∈ F -> q x = r x) -> List.filter q F = List.filter r F.
Proof.
  induction F as [|x F IH]; intros Hqr; [done|]. cbn [List.filter].
  rewrite (Hqr x) by left. rewrite IH; [done|].
  intros y Hy. apply Hqr. by right.
Qed.

Lemma count_remove_one q a F :
  NoDup F -> a ∈ F ->
  length (List.filter q F) =
  (length (List.filter (fun x => q x && negb (bool_decide (x = a))) F)
   + if q a then 1 else 0)%nat.
Proof.
  induction 1 as [|x F Hx HF IH]; [by intros ?%elem_of_nil|].
  intros [<-|Ha]%elem_of_cons; cbn [List.filter].
  - rewrite bool_decide_eq_true_2 by done. rewrite andb_false_r.
    rewrite (filter_ext_mem (fun x => q x && negb (bool_decide (x = a))) q).
    + destruct (q a); cbn [length]; lia.
    + intros y Hy. rewrite bool_decide_eq_false_2; [by rewrite andb_true_r|].
      by intros ->.
  - rewrite bool_decide_eq_false_2 by (by intros ->). rewrite andb_true_r.
    specialize (IH Ha). destruct (q x); cbn [length]; lia.
Qed.

Lemma count_split q F L :
  NoDup F -> NoDup L -> L ⊆ F ->
  length (List.filter q F) =
  (length (List.filter (fun x => q x && negb (bool_decide (x ∈ L))) F)
   + length (List.filter q L))%nat.
Proof.
  intros HF HL. revert q. induction HL as [|a L Ha HL IH]; intros q Hsub.
  - rewrite (filter_ext_mem (fun x => q x && negb (bool_decide (x ∈ []))) q); [cbn; lia|].
    intros y _. rewrite bool_decide_eq_false_2; [by rewrite andb_true_r|].
    by intros ?%elem_of_nil.
  - assert (a ∈ F) as HaF by (apply Hsub; by left).
    assert (L ⊆ F) as HLF by (intros y Hy; apply Hsub; by right).
    rewrite (IH q HLF).
    rewrite (count_remove_one (fun x => q x && negb (bool_decide (x ∈ L))) a F HF HaF).
    rewrite (bool_decide_eq_false_2 (a ∈ L)) by done. rewrite andb_true_r.
    rewrite (filter_ext_mem
               (fun x => q x && negb (bool_decide (x ∈ L)) && negb (bool_decide (x = a)))
               (fun x => q x && negb (bool_decide (x ∈ a :: L)))).
    + cbn [List.filter]. destruct (q a); cbn [length]; lia.
    + intros y _. rewrite <- andb_assoc. f_equal. rewrite <- negb_orb. f_equal.
      apply eq_true_iff_eq. rewrite orb_true_iff, !bool_decide_eq_true.
      rewrite elem_of_cons. tauto.
Qed.

Lemma filter_all q L : (forall x, x ∈ L -> q x = true) -> List.filter q L = L.
Proof.
  induction L as [|x L IH]; intros Hq; [done|]. cbn [List.filter].
  rewrite (Hq x) by left. rewrite IH; [done|]. intros y Hy. apply Hq. by right.
Qed.

Lemma filter_none q L : (forall x, x ∈ L -> q x = false) -> List.filter q L = [].
Proof.
  induction L as [|x L IH]; intros Hq; [done|]. cbn [List.filter].
  rewrite (Hq x) by left. apply IH. intros y Hy. apply Hq. by right.
Qed.

Lemma NoDup_List_filter q F : NoDup F -> NoDup (List.filter q F).
Proof.
  intros HF. apply NoDup_ListNoDup. apply List.NoDup_filter. by apply NoDup_ListNoDup.
Qed.

Lemma elem_of_List_filter q F x : x ∈ List.filter q F <-> x ∈ F /\ q x = true.
Proof. rewrite !list_elem_of_In. apply List.filter_In. Qed.

End Counting.

Lemma slice_to_length {A} n (l : list A) : length (slice_to n l) = slice_len n (length l).
Proof.
  unfold slice_to, slice_len. destruct (0 <=? n); rewrite length_take; lia.
Qed.

Lemma slice_to_nil {A} n (l : list A) : slice_len n (length l) = O -> slice_to n l = [].
Proof. rewrite <- slice_to_length. by destruct (slice_to n l). Qed.

Lemma slice_to_subseteq {A} n (l : list A) : slice_to n l ⊆ l.
Proof. unfold slice_to. destruct (0 <=? n); apply subseteq_take. Qed.

Lemma slice_to_NoDup {A} n (l : list A) : NoDup l -> NoDup (slice_to n l).
Proof.
  intros Hl. unfold slice_to.
  destruct (0 <=? n); (eapply sublist_NoDup; [|apply sublist_take]; done).
Qed.

Lemma count_le_pending {A} (p o : A -> bool) F :
  (length (List.filter p F)
   <= length (List.filter (fun x => p x && negb (o x)) F) + length (List.filter o F))%nat.
Proof.
  induction F as [|x F IH]; cbn [List.filter]; [done|].
  destruct (p x), (o x); cbn [andb negb length]; lia.
Qed.

Section Store.

Implicit Types (st : gmap string Folder).

Lemma has_pdf_lookup st f : has_pdf_in st f = true -> is_Some (st !! f).
Proof.
  unfold has_pdf_in, glob_pdfs. destruct (st !! f); [by eexists|done].
Qed.

Lemma glob_pdfs_write st f a g :
  glob_pdfs (<[f := {| pdfs := glob_pdfs st f; analysis := a |}]> st) g = glob_pdfs st g.
Proof.
  unfold glob_pdfs at 1. destruct (decide (f = g)) as [->|Hne].
  - by rewrite lookup_insert_eq.
  - by rewrite lookup_insert_ne.
Qed.

Lemma output_exists_write st f ps c g :
  output_exists (<[f := {| pdfs := ps; analysis := Some c |}]> st) g
  = output_exists st g || bool_decide (g = f).
Proof.
  unfold output_exists, analysis_of. destruct (decide (f = g)) as [->|Hne].
  - rewrite lookup_insert_eq, bool_decide_eq_true_2 by done. by rewrite orb_true_r.
  - rewrite lookup_insert_ne, bool_decide_eq_false_2 by done. by rewrite orb_false_r.
Qed.

Lemma sorted_listdir_dom st st' :
  dom st = dom st' -> sorted (listdir st) = sorted (listdir st').
Proof.
  intros Hdom. unfold sorted.
  apply (Sorted_unique String.le); try apply Sorted_merge_sort; try apply _.
  rewrite !merge_sort_Permutation. unfold listdir.
  apply NoDup_Permutation; try apply NoDup_fst_map_to_list.
  intros f. rewrite !list_elem_of_fmap.
  assert (forall m : gmap string Folder,
             (exists y : string * Folder, f = y.1 /\ y ∈ map_to_list m) <-> f ∈ dom m) as Hm.
  { intros m. rewrite elem_of_dom. split.
    - intros [[f' fo] [-> H]]. apply elem_of_map_to_list in H. by eexists.
    - intros [fo H]. exists (f, fo). split; [done|]. by apply elem_of_map_to_list. }
  by rewrite !Hm, Hdom.
Qed.

End Store.

Section Runs.

Context (env : Env).

Lemma call_llm_storage text filename w :
  storage (call_llm env text filename w).1 = storage w.
Proof. apply retry_loop_storage. Qed.

(** An item whose result file exists is left alone. *)
Lemma process_one_done f w :
  output_exists (storage w) f = true ->
  process_one env f w = (w, Ok [("status", JStr "skipped"); ("folder", JStr f)]).
Proof. intros H. unfold process_one. by rewrite H. Qed.

(** A pending item that is processed gets a result file; nothing else
    in the store changes. *)
Lemma process_one_pending f w w' res :
  has_pdf_in (storage w) f = true ->
  output_exists (storage w) f = false ->
  process_one env f w = (w', Ok res) ->
  exists result,
    storage w' = <[f := {| pdfs := glob_pdfs (storage w) f;
                           analysis := Some (Doc (JObj result)) |}]> (storage w).
Proof.
  intros Hpdf Hout. unfold process_one, has_pdf_in in *. rewrite Hout.
  destruct (glob_pdfs (storage w) f) as [|[filename doc] rest] eqn:Hg; [done|].
  destruct (_ <? 100).
  - intros [= <- _]. eexists. unfold write_result, emit. cbn [storage].
    by rewrite Hg.
  - destruct (call_llm _ _ _ _) as [w1 [result|e]] eqn:Hc; [|done].
    intros [= <- _]. exists result. unfold write_result. cbn [storage].
    assert (storage w1 = storage w) as ->; [|by rewrite Hg].
    pose proof (call_llm_storage (extract_text_from_pdf doc) filename
                  (emit (EvExtract f filename) w)) as Hs.
    by rewrite Hc in Hs.
Qed.

(** The effect of the loop on the store: the folders of [pending] get a
    result file, the PDFs and the set of folders stay. *)
Lemma run_loop_effect pending :
  forall stats w w1 out,
    NoDup pending ->
    (forall f, f ∈ pending ->
               has_pdf_in (storage w) f = true /\ output_exists (storage w) f = false) ->
    run_loop env pending stats w = (w1, Ok out) ->
    (forall g, glob_pdfs (storage w1) g = glob_pdfs (storage w) g) /\
    (forall g, output_exists (storage w1) g
               = output_exists (storage w) g || bool_decide (g ∈ pending)) /\
    dom (storage w1) = dom (storage w).
Proof.
  induction pending as [|f rest IH]; intros stats w w1 out Hnd Hpend;
    cbn [run_loop].
  { intros [= <- _]. split_and!; [done| |done].
    intros g. rewrite bool_decide_eq_false_2; [by rewrite orb_false_r|].
    by intros ?%elem_of_nil. }
  apply NoDup_cons in Hnd as [Hf Hnd].
  destruct (Hpend f) as [Hpdf Hout]; [by left|].
  destruct (process_one env f w) as [w' [res|e]] eqn:Hp; [|done].
  destruct (process_one_pending _ _ _ _ Hpdf Hout Hp) as [result Hst].
  destruct (run_loop env rest _ _) as [w2 [[stats' results]|e]] eqn:Hl; [|done].
  cbn [mbind Outcome_bind]. intros [= <- _].
  assert (Hglob : forall g, glob_pdfs (storage w') g = glob_pdfs (storage w) g).
  { intros g. rewrite Hst. apply glob_pdfs_write. }
  assert (Hex : forall g, output_exists (storage w') g
                          = output_exists (storage w) g || bool_decide (g = f)).
  { intros g. rewrite Hst. apply output_exists_write. }
  apply IH in Hl as (Hg2 & Ho2 & Hd2); [|done|].
  - cbn [sleep emit storage] in *. split_and!.
    + intros g. by rewrite Hg2, Hglob.
    + intros g. rewrite Ho2, Hex, <- orb_assoc. f_equal.
      apply eq_true_iff_eq. rewrite orb_true_iff, !bool_decide_eq_true.
      rewrite elem_of_cons. tauto.
    + rewrite Hd2, Hst. apply dom_insert_lookup_L. by apply has_pdf_lookup.
  - intros g Hg. cbn [sleep emit storage]. destruct (Hpend g) as [Hpg Hog]; [by right|].
    split.
    + unfold has_pdf_in. by rewrite Hglob.
    + rewrite Hex, Hog. rewrite bool_decide_eq_false_2; [done|]. by intros ->.
Qed.

End Runs.

Lemma slice_arith (hp dn p : nat) :
  (hp <= p + dn)%nat ->
  let tp := Z.of_nat hp - Z.of_nat dn in
  let k := slice_len tp p in
  let tp1 := Z.of_nat hp - Z.of_nat (dn + k) in
  tp1 = 0 \/ slice_len tp1 (p - k) = O.
Proof.
  intros Hle tp k tp1. subst k tp1. unfold slice_len.
  destruct (Z.leb_spec 0 tp) as [H0|H0].
  - left. lia.
  - right. destruct (Z.leb_spec 0 (Z.of_nat hp - Z.of_nat (dn + (p - Z.to_nat (- tp))))); lia.
Qed.

(** C2 (amended). An item whose result file exists is skipped by
    [process_one] without any extraction, request or write: the world is
    returned unchanged.  After a run of [main] without item limit has
    returned, a second run with the same arguments leaves the world
    unchanged as well (no extraction, no request, no write), and it
    reports no item at all: the items already processed are filtered out
    before the loop instead of being reported as "skipped". *)
Theorem rerun_is_idle (env : Env) (args : Args) (w w1 : World) (r1 : Run) :
  limit args <= 0 ->
  main env args w = (w1, Ok r1) ->
  (forall f w0, output_exists (storage w0) f = true ->
                process_one env f w0
                = (w0, Ok [("status", JStr "skipped"); ("folder", JStr f)])) /\
  exists r2, main env args w1 = (w1, Ok r2) /\ reported r2 = [].
Proof.
  intros Hlim Hmain. split; [intros; by apply process_one_done|].
  pose proof Hmain as Hsame. unfold main in Hmain.
  destruct (String.eqb (OPENROUTER_API_KEY env) "") eqn:Hkey.
  { injection Hmain as <- <-. eauto. }
  set (F := if negb (String.eqb (folder args) "") then [folder args]
            else sorted (listdir (storage w))) in *.
  destruct (dry_run args) eqn:Hdry.
  { injection Hmain as <- <-. eauto. }
  set (st := storage w) in *.
  set (pend := fun s f => has_pdf_in s f && negb (output_exists s f)).
  set (tp := count_if (has_pdf_in st) F - count_if (output_exists st) F) in *.
  destruct (tp =? 0) eqn:Htp.
  { injection Hmain as <- <-. eauto. }
  assert ((limit args >? 0) = false) as Hl0.
  { rewrite Z.gtb_ltb. by apply Z.ltb_ge. }
  rewrite Hl0 in Hmain.
  set (P := List.filter (pend st) F).
  fold (pend st) in Hmain. fold P in Hmain.
  set (L := slice_to tp P) in *.
  destruct (run_loop env L initial_stats w) as [w' [[stats results]|e]] eqn:Hloop;
    [|done].
  cbn [mbind Outcome_bind] in Hmain. injection Hmain as -> <-. clear Hsame.
  (* the folder list and its three sublists *)
  assert (HF : NoDup F).
  { subst F. destruct (negb _); [apply NoDup_singleton|apply NoDup_sorted_listdir]. }
  assert (HP : NoDup P) by by apply NoDup_List_filter.
  assert (HL : NoDup L) by by apply slice_to_NoDup.
  assert (HLP : forall f, f ∈ L -> f ∈ F /\ pend st f = true).
  { intros f Hf. apply elem_of_List_filter. by apply (slice_to_subseteq tp P). }
  assert (HLF : L ⊆ F) by (intros f Hf; by apply HLP).
  destruct (run_loop_effect env L initial_stats w w1 (stats, results) HL)
    as (Hg & Ho & Hd); [|done|].
  { intros f [_ Hf]%HLP. unfold pend in Hf. apply andb_true_iff in Hf as [? Hn].
    split; [done|]. by apply negb_true_iff. }
  fold st in Hg, Ho, Hd. set (st1 := storage w1) in *.
  (* the second run sees the same folders and PDFs, and [L] more results *)
  assert (HF1 : (if negb (String.eqb (folder args) "") then [folder args]
                 else sorted (listdir st1)) = F).
  { subst F. destruct (negb _); [done|]. by apply sorted_listdir_dom. }
  assert (Hpdf : forall g, has_pdf_in st1 g = has_pdf_in st g).
  { intros g. unfold has_pdf_in. by rewrite Hg. }
  assert (E1 : List.filter (has_pdf_in st1) F = List.filter (has_pdf_in st) F).
  { apply filter_ext_mem. intros; apply Hpdf. }
  assert (E2 : length (List.filter (output_exists st1) F)
               = (length (List.filter (output_exists st) F) + length L)%nat).
  { rewrite (count_split (output_exists st1) F L HF HL HLF).
    rewrite (count_split (output_exists st) F L HF HL HLF).
    rewrite (filter_all (output_exists st1) L).
    2:{ intros g Hg'. rewrite Ho. rewrite (bool_decide_eq_true_2 _ Hg').
        apply orb_true_r. }
    rewrite (filter_none (output_exists st) L).
    2:{ intros g [_ Hg']%HLP. unfold pend in Hg'.
        apply andb_true_iff in Hg' as [_ Hn]. by apply negb_true_iff. }
    rewrite (filter_ext_mem (fun x => output_exists st1 x && negb (bool_decide (x ∈ L)))
               (fun x => output_exists st x && negb (bool_decide (x ∈ L)))).
    { cbn [length]. lia. }
    intros g _. rewrite Ho. destruct (bool_decide (g ∈ L)); [|by rewrite orb_false_r].
    by rewrite !andb_false_r. }
  assert (E3 : (length (List.filter (pend st1) F) + length L)%nat = length P).
  { subst P. rewrite (count_split (pend st) F L HF HL HLF).
    rewrite (filter_all (pend st) L) by (intros g Hg'; by apply HLP).
    f_equal. f_equal. apply filter_ext_mem. intros g _. unfold pend.
    rewrite Hpdf, Ho, negb_orb. by rewrite andb_assoc. }
  assert (Hle : (length (List.filter (has_pdf_in st) F)
                 <= length P + length (List.filter (output_exists st) F))%nat).
  { apply count_le_pending. }
  assert (HlenL : length L = slice_len tp (length P)) by apply slice_to_length.
  (* the second run *)
  unfold main. rewrite Hkey, Hdry. fold st1. rewrite HF1.
  unfold count_if. rewrite E1, E2.
  set (tp1 := Z.of_nat (length (List.filter (has_pdf_in st) F))
              - Z.of_nat (length (List.filter (output_exists st) F) + length L)).
  destruct (tp1 =? 0) eqn:Htp1; [by exists AllAnalyzed|].
  rewrite Hl0. fold (pend st1).
  assert (slice_to tp1 (List.filter (pend st1) F) = []) as ->.
  { apply slice_to_nil.
    assert (length (List.filter (pend st1) F) = (length P - length L)%nat) as ->.
    { rewrite <- E3. by rewrite Nat.add_sub. }
    destruct (slice_arith _ _ _ Hle) as [H0|H0].
    - apply Z.eqb_neq in Htp1. subst tp1. unfold tp, count_if in HlenL.
      rewrite HlenL in Htp1. done.
    - subst tp1. unfold tp, count_if in HlenL. by rewrite HlenL. }
  cbn [run_loop mbind Outcome_bind]. by exists (Done initial_stats []).
Qed.

(** Contrary to the specification, after a first run has analysed the
    only item, the second run returns before the loop and reports no item,
    so the item is not reported as "skipped"; the world is unchanged. *)
Lemma second_run_reports_no_item :
  (main ok_env no_limit paper_world).2 =
    Ok (Done [(JStr "success", 1%nat); (JStr "skipped", O); (JStr "no_pdf", O);
              (JStr "too_short", O); (JStr "error", O)]
             [[("status", JStr "success"); ("folder", JStr "ITEM0001");
               ("filename", JStr "paper.pdf")]]) /\
  output_exists (storage (main ok_env no_limit paper_world).1) "ITEM0001" = true /\
  main ok_env no_limit (main ok_env no_limit paper_world).1 =
    ((main ok_env no_limit paper_world).1, Ok AllAnalyzed) /\
  ~ In [("status", JStr "skipped"); ("folder", JStr "ITEM0001")] (reported AllAnalyzed).
Proof. split_and!; [vm_compute; reflexivity..|]. intros []. Qed.

Lemma rerun_is_idle_witness :
  exists r2,
    main ok_env no_limit (main ok_env no_limit paper_world).1 =
      ((main ok_env no_limit paper_world).1, Ok r2) /\
    reported r2 = [].
Proof.
  eapply (rerun_is_idle ok_env no_limit paper_world
            (main ok_env no_limit paper_world).1
            (Done [(JStr "success", 1%nat); (JStr "skipped", O); (JStr "no_pdf", O);
                   (JStr "too_short", O); (JStr "error", O)]
                  [[("status", JStr "success"); ("folder", JStr "ITEM0001");
                    ("filename", JStr "paper.pdf")]])).
  - vm_compute. discriminate.
  - vm_compute. reflexivity.
Defined.

(** * Properties of the rest of the code *)

(** ** Text extraction *)

Section StringFacts.

Lemma length_append s1 s2 :
  String.length (s1 +:+ s2) = (String.length s1 + String.length s2)%nat.
Proof.
  induction s1 as [|c s IH]; [done|]. rewrite append_cons.
  cbn [String.length]. by rewrite IH.
Qed.

Lemma len_strip s : Str.len (Str.strip s) <= Str.len s.
Proof.
  unfold Str.len. rewrite chars_strip.
  destruct (drop_while_suffix Str.isspace (Str.chars s)) as (l1 & E1 & _).
  destruct (drop_end_prefix Str.isspace (Str.drop_while Str.isspace (Str.chars s)))
    as (l2 & E2 & _).
  rewrite E1 at 2. rewrite E2 at 2. rewrite !length_app. lia.
Qed.

Lemma len_take n s : Str.len (Str.take n s) = Z.of_nat (Nat.min n (length (Str.chars s))).
Proof. unfold Str.len. by rewrite chars_take, List.length_firstn. Qed.

Lemma len_append s t :
  Str.starts_inside t = false -> Str.len (s +:+ t) = Str.len s + Str.len t.
Proof. intros H. unfold Str.len. rewrite chars_app, length_app by done. lia. Qed.

Lemma take_append n s t :
  (n < length (Str.chars s))%nat -> Str.take n (s +:+ t) = Str.take n s.
Proof. intros H. unfold Str.take. by rewrite take_chars_append. Qed.

End StringFacts.

Lemma read_pages_capped pages :
  forall text,
    Str.len text <= MAX_TEXT_CHARS ->
    read_pages text pages = capped (text +:+ full_text pages).
Proof.
  induction pages as [|page rest IH]; intros text Hlen; cbn [read_pages full_text foldr].
  - rewrite append_nil_r. unfold capped.
    destruct (Str.len text >? MAX_TEXT_CHARS) eqn:E; [|done].
    apply Z.gtb_gt in E. lia.
  - fold (full_text rest). rewrite <- append_assoc.
    destruct (Str.len (text +:+ page) >? MAX_TEXT_CHARS) eqn:E.
    + apply Z.gtb_gt in E. unfold capped.
      pose proof (length_chars_append (text +:+ page) (full_text rest)) as Hle.
      assert (Str.len ((text +:+ page) +:+ full_text rest) > MAX_TEXT_CHARS) as Hgt'.
      { unfold Str.len in *. lia. }
      apply Z.gtb_gt in Hgt' as ->.
      rewrite (take_append _ (text +:+ page) (full_text rest)); [done|].
      unfold Str.len, MAX_TEXT_CHARS in *. lia.
    + apply IH. rewrite Z.gtb_ltb in E. by apply Z.ltb_ge in E.
Qed.

(** X1. The extracted text does not depend on how the document is split
    into pages: it is the stripped full text when that has at most
    [MAX_TEXT_CHARS] characters, and otherwise the stripped first
    [MAX_TEXT_CHARS] characters of the full text followed by the
    truncation marker; so it never has more characters than
    [MAX_TEXT_CHARS] plus those of the marker. *)
Theorem extract_text_capped (pages : list string) :
  extract_text_from_pdf (Readable pages) = Str.strip (capped (full_text pages)) /\
  Str.len (extract_text_from_pdf (Readable pages))
  <= MAX_TEXT_CHARS + Str.len truncation_marker.
Proof.
  assert (H : extract_text_from_pdf (Readable pages) = Str.strip (capped (full_text pages))).
  { cbn [extract_text_from_pdf]. rewrite read_pages_capped; [done|].
    vm_compute. discriminate. }
  split; [done|]. rewrite H.
  pose proof (len_strip (capped (full_text pages))) as Hs.
  assert (Str.len (capped (full_text pages))
          <= MAX_TEXT_CHARS + Str.len truncation_marker); [|lia].
  unfold capped. destruct (Str.len (full_text pages) >? MAX_TEXT_CHARS) eqn:E.
  - rewrite len_append by reflexivity. rewrite len_take.
    unfold MAX_TEXT_CHARS. lia.
  - rewrite Z.gtb_ltb in E. apply Z.ltb_ge in E.
    assert (0 <= Str.len truncation_marker) by (unfold Str.len; lia). lia.
Qed.

(** ** What a run leaves alone and what it reports *)

Section Frame.

Context (env : Env).

(** [process_one] writes at most the result of its own folder, and only
    when there is none yet. *)
Lemma process_one_frame f w w' r :
  process_one env f w = (w', r) ->
  (forall g c, analysis_of (storage w) g = Some c -> analysis_of (storage w') g = Some c) /\
  (forall g, glob_pdfs (storage w') g = glob_pdfs (storage w) g) /\
  dom (storage w') = dom (storage w).
Proof.
  unfold process_one.
  destruct (output_exists (storage w) f) eqn:Hout; [by intros [= <- _]|].
  destruct (glob_pdfs (storage w) f) as [|[filename doc] rest] eqn:Hg; [by intros [= <- _]|].
  assert (Hwrite : forall result w0,
             storage w0 = storage w ->
             (forall g c, analysis_of (storage w) g = Some c ->
                          analysis_of (storage (write_result f result w0)) g = Some c) /\
             (forall g, glob_pdfs (storage (write_result f result w0)) g
                        = glob_pdfs (storage w) g) /\
             dom (storage (write_result f result w0)) = dom (storage w)).
  { intros result w0 Hw0. unfold write_result. cbn [storage]. rewrite Hw0. split_and!.
    - intros g c Hc. unfold analysis_of. rewrite lookup_insert_ne; [done|].
      intros <-. unfold output_exists in Hout. by rewrite Hc in Hout.
    - intros g. apply glob_pdfs_write.
    - apply dom_insert_lookup_L. apply has_pdf_lookup. unfold has_pdf_in. by rewrite Hg. }
  destruct (_ <? 100).
  - intros [= <- _]. by apply Hwrite.
  - destruct (call_llm _ _ _ _) as [w1 [result|e]] eqn:Hc.
    + intros [= <- _]. apply Hwrite.
      pose proof (call_llm_storage env (extract_text_from_pdf doc) filename
                    (emit (EvExtract f filename) w)) as Hs.
      by rewrite Hc in Hs.
    + intros [= <- _].
      pose proof (call_llm_storage env (extract_text_from_pdf doc) filename
                    (emit (EvExtract f filename) w)) as Hs.
      rewrite Hc in Hs. cbn [fst emit storage] in Hs. by rewrite Hs.
Qed.

Lemma run_loop_frame pending :
  forall stats w w' r,
    run_loop env pending stats w = (w', r) ->
    (forall g c, analysis_of (storage w) g = Some c -> analysis_of (storage w') g = Some c) /\
    (forall g, glob_pdfs (storage w') g = glob_pdfs (storage w) g) /\
    dom (storage w') = dom (storage w).
Proof.
  induction pending as [|f rest IH]; intros stats w w' r; cbn [run_loop].
  { by intros [= <- _]. }
  destruct (process_one env f w) as [w1 [res|e]] eqn:Hp.
  - destruct (run_loop env rest _ _) as [w2 r2] eqn:Hl. intros [= <- _].
    apply process_one_frame in Hp as (Ha & Hg & Hd).
    apply IH in Hl as (Ha2 & Hg2 & Hd2). cbn [sleep emit storage] in *.
    split_and!.
    + intros g c Hc. by apply Ha2, Ha.
    + intros g. by rewrite Hg2, Hg.
    + by rewrite Hd2, Hd.
  - intros [= <- _]. by apply process_one_frame in Hp.
Qed.

End Frame.

(** X2. Whatever a run of [main] does and however it ends, also with an
    exception, every result file that existed before the run is still
    there with the same content, no PDF has changed and no folder was
    added or removed. *)
Theorem results_never_overwritten
    (env : Env) (args : Args) (w w1 : World) (r : Outcome Run) :
  main env args w = (w1, r) ->
  (forall g c, analysis_of (storage w) g = Some c -> analysis_of (storage w1) g = Some c) /\
  (forall g, glob_pdfs (storage w1) g = glob_pdfs (storage w) g) /\
  dom (storage w1) = dom (storage w).
Proof.
  unfold main.
  destruct (String.eqb _ ""); [by intros [= <- _]|].
  destruct (dry_run args); [by intros [= <- _]|].
  destruct (_ =? 0); [by intros [= <- _]|].
  destruct (run_loop env _ _ _) as [w' r'] eqn:Hl. intros [= <- _].
  by apply run_loop_frame in Hl.
Qed.

Lemma results_never_overwritten_witness :
  analysis_of (storage (main ok_env no_limit mixed_world).1) "ITEM0003"
  = Some (Doc (JObj [("title", JStr "done")])) /\
  analysis_of (storage (main ok_env no_limit mixed_world).1) "ITEM0004" = Some Garbage.
Proof.
  destruct (results_never_overwritten ok_env no_limit mixed_world
              (main ok_env no_limit mixed_world).1
              (main ok_env no_limit mixed_world).2) as (Ha & _ & _).
  - by destruct (main ok_env no_limit mixed_world).
  - split; apply Ha; reflexivity.
Defined.

Section Effects.

Context (env : Env).

Lemma count_events_app p l1 l2 :
  count_events p (l1 ++ l2) = (count_events p l1 + count_events p l2)%nat.
Proof. unfold count_events. by rewrite List.filter_app, length_app. Qed.

(** A call appends requests and sleeps only, at most one request per
    attempt index. *)
Lemma retry_loop_events content filename attempts :
  forall w,
  exists evs,
    log (retry_loop env content filename attempts w).1 = (log w ++ evs)%list /\
    count_events is_extract evs = O /\
    count_events is_write evs = O /\
    (count_events is_post evs <= length attempts)%nat.
Proof.
  induction attempts as [|a rest IH]; intros w; cbn [retry_loop].
  { exists []. rewrite app_nil_r. cbn. split_and!; [done..|lia]. }
  assert (Hstep : forall w' pre,
             log w' = (log w ++ pre)%list ->
             count_events is_extract pre = O ->
             count_events is_write pre = O ->
             count_events is_post pre = 1%nat ->
             exists evs,
               log (retry_loop env content filename rest w').1 = (log w ++ evs)%list /\
               count_events is_extract evs = O /\
               count_events is_write evs = O /\
               (count_events is_post evs <= S (length rest))%nat).
  { intros w' pre Hpre He Hw Hp. destruct (IH w') as (evs & Hl & He' & Hw' & Hp').
    exists (pre ++ evs)%list. rewrite Hl, Hpre, app_assoc, !count_events_app.
    split_and!; [done|lia..]. }
  assert (Hone : exists evs,
             log (emit (EvPost content) w) = (log w ++ evs)%list /\
             count_events is_extract evs = O /\
             count_events is_write evs = O /\
             (count_events is_post evs <= S (length rest))%nat).
  { exists [EvPost content]. cbn. split_and!; [done..|lia]. }
  destruct (service env _ content).
  - apply (Hstep _ [EvPost content; EvSleep (inject_Z (RETRY_DELAY * (a + 2)))]);
      try done. unfold sleep, emit. cbn [log]. by rewrite <- app_assoc.
  - destruct (read_response _ _ _) as [|e]; [done|].
    destruct (retryable e); [|done]. destruct (a <? _).
    + apply (Hstep _ [EvPost content; EvSleep (inject_Z RETRY_DELAY)]); try done.
      unfold sleep, emit. cbn [log]. by rewrite <- app_assoc.
    + by apply (Hstep _ [EvPost content]).
  - destruct (read_response _ _ _) as [|e]; [done|].
    destruct (retryable e); [|done]. destruct (a <? _).
    + apply (Hstep _ [EvPost content; EvSleep (inject_Z RETRY_DELAY)]); try done.
      unfold sleep, emit. cbn [log]. by rewrite <- app_assoc.
    + by apply (Hstep _ [EvPost content]).
  - destruct (read_response _ _ _) as [|e]; [done|].
    destruct (retryable e); [|done]. destruct (a <? _).
    + apply (Hstep _ [EvPost content; EvSleep (inject_Z RETRY_DELAY)]); try done.
      unfold sleep, emit. cbn [log]. by rewrite <- app_assoc.
    + by apply (Hstep _ [EvPost content]).
Qed.

(** What processing a pending item amounts to when it returns. *)
Lemma process_one_pending_report f w w' res :
  is_pending (storage w) f = true ->
  process_one env f w = (w', Ok res) ->
  (status_of res = JStr "too_short" \/ status_of res = JStr "success"
   \/ status_of res = JStr "error") /\
  Dict.get "folder" res = Some (JStr f) /\
  exists evs,
    log w' = (log w ++ evs)%list /\
    count_events is_extract evs = 1%nat /\
    count_events is_write evs = 1%nat /\
    (count_events is_post evs <= Z.to_nat MAX_RETRIES)%nat.
Proof.
  unfold is_pending, has_pdf_in, process_one.
  intros [Hpdf Hout%negb_true_iff]%andb_true_iff. rewrite Hout.
  destruct (glob_pdfs (storage w) f) as [|[filename doc] rest]; [done|].
  destruct (_ <? 100).
  - intros [= <- <-]. split_and!; [by left|done|].
    eexists [_; _]. unfold write_result, emit. cbn [log].
    rewrite <- app_assoc. split_and!; [done..|cbn; lia].
  - destruct (call_llm _ _ _ _) as [w1 [result|e]] eqn:Hc; [|done].
    intros [= <- <-]. split_and!.
    + unfold status_of. cbn. destruct (Dict.has "error" result); auto.
    + done.
    + unfold call_llm in Hc.
      destruct (retry_loop_events (user_prompt filename (extract_text_from_pdf doc))
                  filename (range MAX_RETRIES) (emit (EvExtract f filename) w))
        as (evs & Hl & He & Hw & Hp).
      rewrite Hc in Hl. cbn [fst emit log] in Hl.
      exists ([EvExtract f filename] ++ evs ++ [EvWrite f result])%list.
      unfold write_result. cbn [log]. rewrite Hl, <- !app_assoc.
      change (length (range MAX_RETRIES)) with 3%nat in Hp.
      change (Z.to_nat MAX_RETRIES) with 3%nat.
      rewrite !count_events_app, He, Hw. split_and!; [done|cbn; lia..].
Qed.

End Effects.

Section Reports.

Context (env : Env).

Lemma run_loop_report pending :
  forall stats w w1 stats' results,
    NoDup pending ->
    (forall f, f ∈ pending -> is_pending (storage w) f = true) ->
    run_loop env pending stats w = (w1, Ok (stats', results)) ->
    (fun res => Dict.get "folder" res) <$> results
    = (fun f => Some (JStr f)) <$> pending /\
    Forall productive results /\
    stats' = foldl bump stats results /\
    exists evs,
      log w1 = (log w ++ evs)%list /\
      count_events is_extract evs = length pending /\
      count_events is_write evs = length pending /\
      (count_events is_post evs <= Z.to_nat MAX_RETRIES * length pending)%nat.
Proof.
  induction pending as [|f rest IH]; intros stats w w1 stats' results Hnd Hpend;
    cbn [run_loop].
  { intros [= <- <- <-]. split_and!; [done..|]. exists []. by rewrite app_nil_r. }
  apply NoDup_cons in Hnd as [Hf Hnd].
  assert (Hpf : is_pending (storage w) f = true) by (apply Hpend; by left).
  destruct (process_one env f w) as [w' [res|e]] eqn:Hp; [|done].
  destruct (run_loop env rest _ _) as [w2 [[stats2 results2]|e]] eqn:Hl; [|done].
  cbn [mbind Outcome_bind]. intros [= <- <- <-].
  destruct (process_one_pending_report env f w w' res Hpf Hp)
    as (Hstatus & Hfolder & evs1 & Hlog1 & He1 & Hw1 & Hp1).
  unfold is_pending in Hpf. apply andb_true_iff in Hpf as [Hpdf Hout%negb_true_iff].
  destruct (process_one_pending env f w w' res Hpdf Hout Hp) as [result Hst].
  apply IH in Hl as (Hfolders & Hprod & Hstats & evs2 & Hlog2 & He2 & Hw2 & Hp2); [|done|].
  - split_and!.
    + cbn [fmap list_fmap]. rewrite Hfolder. f_equal. exact Hfolders.
    + by constructor.
    + done.
    + exists (evs1 ++ [EvSleep RATE_LIMIT_DELAY] ++ evs2)%list.
      rewrite Hlog2. unfold sleep, emit. cbn [log]. rewrite Hlog1, <- !app_assoc.
      rewrite !count_events_app, He1, Hw1, He2, Hw2. cbn [length].
      split_and!; [done|cbn; lia..].
  - intros g Hg. cbn [sleep emit storage]. rewrite Hst.
    assert (Hgp : is_pending (storage w) g = true) by (apply Hpend; by right).
    unfold is_pending, has_pdf_in in *. rewrite glob_pdfs_write, output_exists_write.
    apply andb_true_iff in Hgp as [-> Hgo%negb_true_iff]. rewrite Hgo.
    rewrite bool_decide_eq_false_2; [done|]. by intros ->.
Qed.

(** The two counters that the loop never touches, and the sum of the
    other three. *)
Lemma bump_stats results :
  Forall productive results ->
  forall stats,
    stat "skipped" (foldl bump stats results) = stat "skipped" stats /\
    stat "no_pdf" (foldl bump stats results) = stat "no_pdf" stats /\
    (stat "success" (foldl bump stats results)
     + stat "too_short" (foldl bump stats results)
     + stat "error" (foldl bump stats results)
     = stat "success" stats + stat "too_short" stats + stat "error" stats
       + length results)%nat.
Proof.
  induction 1 as [|res results Hres _ IH]; intros stats; cbn [foldl length]; [lia|].
  destruct (IH (bump stats res)) as (-> & -> & ->).
  unfold bump, stat. rewrite !get_upd_str.
  destruct Hres as [-> | [-> | ->]]; cbn; lia.
Qed.

(** How a run that reaches the end of the loop got there. *)
Lemma main_done args w w1 stats results :
  main env args w = (w1, Ok (Done stats results)) ->
  let st := storage w in
  let to_process :=
    count_if (has_pdf_in st) (folders_of args st)
    - count_if (output_exists st) (folders_of args st) in
  let lim := if limit args >? 0 then limit args else to_process in
  to_process <> 0 /\
  run_loop env (slice_to lim (pending_of args st)) initial_stats w
  = (w1, Ok (stats, results)).
Proof.
  unfold main. fold (folders_of args (storage w)).
  destruct (String.eqb _ ""); [done|]. destruct (dry_run args); [done|].
  destruct (_ =? 0) eqn:Htp; [done|]. apply Z.eqb_neq in Htp.
  destruct (run_loop env _ _ _) as [w' [[stats' results']|e]] eqn:Hl; [|done].
  cbn [mbind Outcome_bind]. intros [= <- <- <-]. cbn zeta. by split.
Qed.

Lemma NoDup_folders_of args st : NoDup (folders_of args st).
Proof.
  unfold folders_of. destruct (negb _); [apply NoDup_singleton|apply NoDup_sorted_listdir].
Qed.

Lemma slice_pending args st lim :
  NoDup (slice_to lim (pending_of args st)) /\
  forall f, f ∈ slice_to lim (pending_of args st) -> is_pending st f = true.
Proof.
  split.
  - apply slice_to_NoDup, NoDup_List_filter, NoDup_folders_of.
  - intros f Hf. apply slice_to_subseteq in Hf.
    by apply elem_of_List_filter in Hf as [_ ?].
Qed.

End Reports.

(** X3. In the statistics of a run that reaches the end of the loop the
    counters "skipped" and "no_pdf" are always 0, and "success",
    "too_short" and "error" add up to the number of reported items; each
    reported item was pending before the run (a PDF, no result) and has a
    result file after it. *)
Theorem run_statistics
    (env : Env) (args : Args) (w w1 : World) (stats : Counter.t nat) (results : list dict) :
  main env args w = (w1, Ok (Done stats results)) ->
  stat "skipped" stats = O /\
  stat "no_pdf" stats = O /\
  (stat "success" stats + stat "too_short" stats + stat "error" stats
   = length results)%nat /\
  Forall (fun res => exists f, Dict.get "folder" res = Some (JStr f) /\
                               is_pending (storage w) f = true /\
                               output_exists (storage w1) f = true) results.
Proof.
  intros Hmain. apply main_done in Hmain as [_ Hloop].
  set (L := slice_to _ _) in Hloop.
  destruct (slice_pending args (storage w)
              (if limit args >? 0 then limit args
               else count_if (has_pdf_in (storage w)) (folders_of args (storage w))
                    - count_if (output_exists (storage w)) (folders_of args (storage w))))
    as [HL HLp]. fold L in HL, HLp.
  destruct (run_loop_report env L _ _ _ _ _ HL HLp Hloop)
    as (Hfolders & Hprod & -> & _).
  destruct (bump_stats results Hprod initial_stats) as (-> & -> & ->).
  split_and!; [done..|].
  destruct (run_loop_effect env L initial_stats w w1 (foldl bump initial_stats results, results) HL)
    as (_ & Ho & _); [|done|].
  { intros f Hf. apply HLp in Hf. unfold is_pending in Hf.
    apply andb_true_iff in Hf as [? ?%negb_true_iff]. done. }
  apply Forall_forall. intros res Hres.
  assert (Dict.get "folder" res ∈ (fun f => Some (JStr f)) <$> L) as Hin.
  { rewrite <- Hfolders. apply list_elem_of_fmap. by exists res. }
  apply list_elem_of_fmap in Hin as (f & Hf & HfL). exists f. split_and!; [done|by apply HLp|].
  rewrite Ho. rewrite (bool_decide_eq_true_2 _ HfL). apply orb_true_r.
Qed.

Lemma run_statistics_witness :
  exists stats results,
    (main ok_env no_limit mixed_world).2 = Ok (Done stats results) /\
    stat "skipped" stats = O /\ stat "no_pdf" stats = O /\
    (stat "success" stats + stat "too_short" stats + stat "error" stats
     = length results)%nat.
Proof.
  eexists _, _. split; [vm_compute; reflexivity|].
  match goal with |- context [stat "skipped" ?s] => set (stats := s) end.
  match goal with |- context [length ?r] => set (results := r) end.
  destruct (run_statistics ok_env no_limit mixed_world
              (main ok_env no_limit mixed_world).1 stats results)
    as (H1 & H2 & H3 & _); [vm_compute; reflexivity|].
  by split_and!.
Defined.



Lemma count_difference {A} (p o : A -> bool) (F : list A) :
  count_if p F - count_if o F
  = count_if (fun x => p x && negb (o x)) F - count_if (fun x => o x && negb (p x)) F.
Proof.
  unfold count_if. induction F as [|x F IH]; cbn [List.filter]; [done|].
  destruct (p x), (o x); cbn [andb negb length]; lia.
Qed.

(** X5. [main] sizes a run without item limit by the number of folders
    with a PDF minus the number of folders with a result.  A result whose
    PDF is gone therefore holds one pending item back: with R such results
    and P pending items the run stops as "all analyzed" without processing
    anything when R = P, and reports only P - R items when R < P. *)
Theorem orphan_results_hold_items_back
    (env : Env) (args : Args) (w w1 : World) (r : Run) :
  limit args <= 0 ->
  dry_run args = false ->
  OPENROUTER_API_KEY env <> "" ->
  main env args w = (w1, Ok r) ->
  let P := length (pending_of args (storage w)) in
  let R := length (orphans_of args (storage w)) in
  (R = P -> r = AllAnalyzed /\ w1 = w) /\
  ((R < P)%nat -> length (reported r) = (P - R)%nat).
Proof.
  intros Hlim Hdry Hkey Hmain P R.
  assert (Htp : count_if (has_pdf_in (storage w)) (folders_of args (storage w))
                - count_if (output_exists (storage w)) (folders_of args (storage w))
                = Z.of_nat P - Z.of_nat R).
  { rewrite count_difference. done. }
  assert ((limit args >? 0) = false) as Hl0.
  { rewrite Z.gtb_ltb. by apply Z.ltb_ge. }
  apply String.eqb_neq in Hkey.
  split.
  - intros HRP. unfold main in Hmain. fold (folders_of args (storage w)) in Hmain.
    rewrite Hkey, Hdry, Htp in Hmain.
    assert ((Z.of_nat P - Z.of_nat R =? 0) = true) as Hz by (apply Z.eqb_eq; lia).
    rewrite Hz in Hmain. by injection Hmain as <- <-.
  - intros HRP. pose proof Hmain as Hmain'. unfold main in Hmain'.
    fold (folders_of args (storage w)) in Hmain'.
    rewrite Hkey, Hdry, Htp in Hmain'.
    assert ((Z.of_nat P - Z.of_nat R =? 0) = false) as Hz by (apply Z.eqb_neq; lia).
    rewrite Hz in Hmain'.
    destruct (run_loop env _ _ _) as [w' [[stats results]|e]]; [|done].
    cbn [mbind Outcome_bind] in Hmain'. injection Hmain' as <- <-.
    apply main_done in Hmain as [_ Hloop]. rewrite Hl0, Htp in Hloop.
    destruct (slice_pending args (storage w) (Z.of_nat P - Z.of_nat R)) as [HL HLp].
    destruct (run_loop_report env _ _ _ _ _ _ HL HLp Hloop) as (Hfolders & _).
    apply (f_equal length) in Hfolders. rewrite !length_fmap in Hfolders.
    cbn [reported]. rewrite Hfolders, slice_to_length. fold P. unfold slice_len.
    destruct (Z.leb_spec 0 (Z.of_nat P - Z.of_nat R)); lia.
Qed.

Lemma orphan_results_hold_items_back_witness :
  length (pending_of no_limit (storage mixed_world)) = 2%nat /\
  length (orphans_of no_limit (storage mixed_world)) = 1%nat /\
  exists r, (main ok_env no_limit mixed_world).2 = Ok r /\ length (reported r) = 1%nat.
Proof.
  split; [vm_compute; reflexivity|]. split; [vm_compute; reflexivity|].
  eexists. split; [vm_compute; reflexivity|].
  match goal with |- length (reported ?r) = _ => set (r0 := r) end.
  refine (proj2 (orphan_results_hold_items_back ok_env no_limit mixed_world
                   (main ok_env no_limit mixed_world).1 r0 _ _ _ _) _).
  - vm_compute. discriminate.
  - reflexivity.
  - discriminate.
  - vm_compute. reflexivity.
  - vm_compute. lia.
Defined.

(** ** Exhausted attempts and uncaught exceptions *)

Section MoreRetry.

Context (env : Env) (content filename : string).

Lemma retry_loop_failure a rest w resp e :
  service env (posts (log w)) content = resp ->
  resp <> Status429 ->
  read_response env (strftime env (log (emit (EvPost content) w))) resp = Raise e ->
  retry_loop env content filename (a :: rest) w =
  if retryable e
  then retry_loop env content filename rest
         (if a <? MAX_RETRIES - 1
          then sleep (inject_Z RETRY_DELAY) (emit (EvPost content) w)
          else emit (EvPost content) w)
  else (emit (EvPost content) w, Raise e).
Proof.
  intros Hs Hne Hr. cbn [retry_loop]. rewrite Hs.
  destruct resp; [done|..]; by rewrite Hr.
Qed.

End MoreRetry.

(** X6. The three failure classes share one attempt budget: when each of
    the next [MAX_RETRIES] answers is rate limited or fails with an
    exception that [call_llm] catches, in any mix, [call_llm] has sent
    exactly [MAX_RETRIES] requests and returns the terminal error record
    for the file; it does not raise. *)
Theorem attempts_exhausted (env : Env) (text filename : string) (w : World) :
  (forall i, (i < Z.to_nat MAX_RETRIES)%nat ->
             fails_retryably env
               (service env (posts (log w) + i) (user_prompt filename text))) ->
  (call_llm env text filename w).2 = Ok (exhausted_record filename) /\
  posts (log (call_llm env text filename w).1)
  = (posts (log w) + Z.to_nat MAX_RETRIES)%nat /\
  Dict.get "filename" (exhausted_record filename) = Some (JStr filename) /\
  Dict.get "error" (exhausted_record filename) = Some (JStr "Failed after 3 attempts").
Proof.
  intros Hfail. unfold call_llm.
  destruct (retry_loop_exhausted env (user_prompt filename text) filename
              (range MAX_RETRIES) w Hfail) as [Hr Hp].
  split_and!; [done|exact Hp|done|]. vm_compute. reflexivity.
Qed.

Lemma attempts_exhausted_witness :
  (call_llm failing_env "text" "paper.pdf" empty_world).2
  = Ok (exhausted_record "paper.pdf") /\
  posts (log (call_llm failing_env "text" "paper.pdf" empty_world).1) = 3%nat.
Proof.
  destruct (attempts_exhausted failing_env "text" "paper.pdf" empty_world)
    as (Hr & Hp & _).
  - intros [|[|[|i]]] Hi.
    + by left.
    + right. intros now. by exists RequestException.
    + right. intros now. by exists JSONDecodeError.
    + vm_compute in Hi. lia.
  - split; [exact Hr | exact Hp].
Defined.

(** X7. What exhausting the attempts costs in waiting.  When all three
    answers are rate limited, [call_llm] sleeps after every attempt, also
    after the last one: [RETRY_DELAY] times 2, 3 and 4 seconds.  When all
    three fail in one of the other ways it sleeps [RETRY_DELAY] seconds
    between attempts only and returns right after the third failure. *)
Theorem exhaustion_waits (env : Env) (text filename : string) (w : World) :
  let content := user_prompt filename text in
  let n := posts (log w) in
  ((forall i, (i < 3)%nat -> service env (n + i) content = Status429) ->
   call_llm env text filename w =
     ({| storage := storage w;
         log := log w ++ [EvPost content; EvSleep (inject_Z (RETRY_DELAY * 2));
                          EvPost content; EvSleep (inject_Z (RETRY_DELAY * 3));
                          EvPost content; EvSleep (inject_Z (RETRY_DELAY * 4))] |},
      Ok (exhausted_record filename))) /\
  ((forall i, (i < 3)%nat ->
              service env (n + i) content <> Status429 /\
              forall now, exists e,
                read_response env now (service env (n + i) content) = Raise e /\
                retryable e = true) ->
   call_llm env text filename w =
     ({| storage := storage w;
         log := log w ++ [EvPost content; EvSleep (inject_Z RETRY_DELAY);
                          EvPost content; EvSleep (inject_Z RETRY_DELAY);
                          EvPost content] |},
      Ok (exhausted_record filename))).
Proof.
  intros content n. split.
  - intros H. unfold call_llm. fold content. change (range MAX_RETRIES) with [0; 1; 2].
    pose proof (H 0%nat ltac:(lia)) as H0. pose proof (H 1%nat ltac:(lia)) as H1.
    pose proof (H 2%nat ltac:(lia)) as H2. subst n.
    rewrite Nat.add_0_r in H0.
    rewrite retry_loop_429 by done.
    rewrite retry_loop_429 by (rewrite posts_after_429; by rewrite Nat.add_1_r in H1).
    rewrite retry_loop_429
      by (rewrite !posts_after_429; by replace (posts (log w) + 2)%nat
                                         with (S (S (posts (log w)))) in H2 by lia).
    cbn [retry_loop]. unfold sleep, emit. cbn [log storage].
    by rewrite <- !app_assoc.
  - intros H. unfold call_llm. fold content. change (range MAX_RETRIES) with [0; 1; 2].
    destruct (H 0%nat ltac:(lia)) as [Hn0 Hr0]. destruct (H 1%nat ltac:(lia)) as [Hn1 Hr1].
    destruct (H 2%nat ltac:(lia)) as [Hn2 Hr2]. subst n.
    rewrite Nat.add_0_r in Hn0, Hr0. rewrite Nat.add_1_r in Hn1, Hr1.
    replace (posts (log w) + 2)%nat with (S (S (posts (log w)))) in Hn2, Hr2 by lia.
    destruct (Hr0 (strftime env (log (emit (EvPost content) w)))) as (e0 & He0 & Hc0).
    rewrite (retry_loop_failure env content filename 0 _ w _ e0 eq_refl Hn0 He0), Hc0.
    change (0 <? MAX_RETRIES - 1) with true. cbn match.
    set (w1 := sleep _ _).
    assert (Hp1 : posts (log w1) = S (posts (log w))) by apply posts_after_429.
    destruct (Hr1 (strftime env (log (emit (EvPost content) w1)))) as (e1 & He1 & Hc1).
    rewrite <- Hp1 in Hn1, He1.
    rewrite (retry_loop_failure env content filename 1 _ w1 _ e1 eq_refl Hn1 He1), Hc1.
    change (1 <? MAX_RETRIES - 1) with true. cbn match.
    set (w2 := sleep _ _).
    assert (Hp2 : posts (log w2) = S (S (posts (log w)))).
    { subst w2. by rewrite posts_after_429, Hp1. }
    destruct (Hr2 (strftime env (log (emit (EvPost content) w2)))) as (e2 & He2 & Hc2).
    rewrite <- Hp2 in Hn2, He2.
    rewrite (retry_loop_failure env content filename 2 _ w2 _ e2 eq_refl Hn2 He2), Hc2.
    change (2 <? MAX_RETRIES - 1) with false. cbn match.
    cbn [retry_loop]. subst w2 w1. unfold sleep, emit. cbn [log storage].
    by rewrite <- !app_assoc.
Qed.

Lemma exhaustion_waits_witness :
  Qeq (total_wait (log (call_llm limited_env "text" "paper.pdf" empty_world).1))
      (inject_Z 45) /\
  Qeq (total_wait (log (call_llm down_env "text" "paper.pdf" empty_world).1))
      (inject_Z 10).
Proof.
  split.
  - rewrite (proj1 (exhaustion_waits limited_env "text" "paper.pdf" empty_world)).
    + reflexivity.
    + intros i _. reflexivity.
  - rewrite (proj2 (exhaustion_waits down_env "text" "paper.pdf" empty_world)).
    + reflexivity.
    + intros i _. split; [discriminate|]. intros now. by exists RequestException.
Defined.

(** A reply whose message content is not a string cannot be read:
    [content.strip()] raises [AttributeError]. *)
Lemma read_response_content_not_str env now data choices choice message v :
  getitem data "choices" = Ok choices ->
  getitem0 choices = Ok choice ->
  getitem choice "message" = Ok message ->
  getitem message "content" = Ok v ->
  isinstance_str v = false ->
  read_response env now (Body data) = Raise AttributeError.
Proof.
  intros H1 H2 H3 H4 Hv. unfold read_response. cbn [mbind Outcome_bind].
  rewrite H1. cbn [mbind Outcome_bind]. rewrite H2. cbn [mbind Outcome_bind].
  rewrite H3. cbn [mbind Outcome_bind]. rewrite H4. cbn [mbind Outcome_bind].
  by destruct v.
Qed.

(** X8. An exception that [call_llm] does not catch ends the whole run.
    When the first answer for a pending item with enough text is not a
    rate limit and reading it raises an exception outside the three
    [except] clauses (as [AttributeError] for a reply whose content is
    null), [process_one] raises it after that single request without
    writing a result, and the loop of [main] stops there: the items after
    it are not processed. *)
Theorem uncaught_exception_ends_run
    (env : Env) (f : string) (w : World) (filename : string) (doc : Pdf)
    (others : list (string * Pdf)) (resp : Response) (e : Exn)
    (rest : list string) (stats : Counter.t nat) :
  output_exists (storage w) f = false ->
  glob_pdfs (storage w) f = (filename, doc) :: others ->
  100 <= Str.len (extract_text_from_pdf doc) ->
  let content := user_prompt filename (extract_text_from_pdf doc) in
  let w' := emit (EvPost content) (emit (EvExtract f filename) w) in
  service env (posts (log w)) content = resp ->
  resp <> Status429 ->
  read_response env (strftime env (log w')) resp = Raise e ->
  retryable e = false ->
  process_one env f w = (w', Raise e) /\
  run_loop env (f :: rest) stats w = (w', Raise e) /\
  storage w' = storage w /\
  output_exists (storage w') f = false.
Proof.
  intros Hout Hglob Hlen content w' Hs Hne Hr Hret.
  assert (Hp : process_one env f w = (w', Raise e)).
  { unfold process_one. rewrite Hout, Hglob. apply Z.ltb_ge in Hlen as ->.
    unfold call_llm. fold content. change (range MAX_RETRIES) with [0; 1; 2].
    assert (Hposts : posts (log (emit (EvExtract f filename) w)) = posts (log w)).
    { rewrite posts_emit. simpl. lia. }
    rewrite (retry_loop_failure env content filename 0 _ _ resp e); try done.
    - by rewrite Hret.
    - by rewrite Hposts. }
  split_and!; [done| |done|done].
  cbn [run_loop]. by rewrite Hp.
Qed.

Lemma uncaught_exception_ends_run_witness :
  (main null_env no_limit mixed_world).2 = Raise AttributeError /\
  storage (main null_env no_limit mixed_world).1 = storage mixed_world.
Proof.
  destruct (uncaught_exception_ends_run null_env "ITEM0001" mixed_world "a.pdf"
              (Readable [long_text]) []
              (Body (JObj [("choices", JArr [JObj [("message", JObj [("content", JNull)])]])]))
              AttributeError [] initial_stats)
    as (_ & Hloop & Hst & _); try reflexivity.
  - vm_compute. discriminate.
  - discriminate.
  - assert (Hm : main null_env no_limit mixed_world
                 = (let '(w, r) := run_loop null_env ["ITEM0001"] initial_stats mixed_world in
                    (w, '(stats, results) ← r; Ok (Done stats results)))).
    { vm_compute. reflexivity. }
    rewrite Hm, Hloop. split; [reflexivity | exact Hst].
Defined.

(** ** Code fences *)

Section FenceFacts.

Lemma prefix_append p s : String.prefix p (p +:+ s) = true.
Proof.
  induction p as [|c p IH]; [by destruct s|].
  rewrite append_cons. cbn [String.prefix]. by destruct (ascii_dec c c).
Qed.

Lemma contains_newline_cons c s :
  Str.contains nl (String c s) = Ascii.eqb c (ascii_of_nat 10) || Str.contains nl s.
Proof.
  cbn [Str.contains]. f_equal. unfold nl. cbn [String.prefix].
  destruct (ascii_dec (ascii_of_nat 10) c) as [<-|Hne].
  - rewrite Ascii.eqb_refl. by destruct s.
  - symmetry. apply Ascii.eqb_neq. congruence.
Qed.

Lemma contains_newline_append s t : Str.contains nl (s +:+ nl +:+ t) = true.
Proof.
  induction s as [|c s IH].
  - rewrite append_nil_l. unfold nl at 2. rewrite append_cons, contains_newline_cons.
    by rewrite Ascii.eqb_refl.
  - rewrite append_cons, contains_newline_cons, IH. apply orb_true_r.
Qed.

Lemma after_newline_append s t :
  Str.contains nl s = false -> after_newline (s +:+ nl +:+ t) = t.
Proof.
  induction s as [|c s IH]; intros Hs.
  - rewrite append_nil_l. unfold nl. rewrite append_cons. cbn [after_newline].
    by rewrite Ascii.eqb_refl.
  - rewrite contains_newline_cons in Hs. apply orb_false_iff in Hs as [Hc Hs].
    rewrite append_cons. cbn [after_newline]. rewrite Hc. by apply IH.
Qed.

Lemma substring_0_all s : String.substring 0 (String.length s) s = s.
Proof. induction s as [|c s IH]; cbn [String.substring String.length]; [done|]. by rewrite IH. Qed.

Lemma substring_suffix s t :
  String.substring (String.length s) (String.length t) (s +:+ t) = t.
Proof.
  induction s as [|c s IH]; [apply substring_0_all|].
  rewrite append_cons. cbn [String.substring String.length]. apply IH.
Qed.

Lemma endswith_append s t : endswith t (s +:+ t) = true.
Proof.
  unfold endswith. rewrite length_append.
  replace (String.length s + String.length t - String.length t)%nat
    with (String.length s) by lia.
  rewrite substring_suffix, String.eqb_refl, andb_true_r.
  apply Nat.leb_le. lia.
Qed.

Lemma isspace_lead ch : Str.isspace ch = true -> Str.starts_inside ch = false.
Proof.
  unfold Str.isspace, Str.codepoint, Str.starts_inside, Str.continuation.
  destruct ch as [|c t]; [done|]. cbn [list_ascii_of_string fmap list_fmap].
  generalize (N_of_ascii c). intros a.
  destruct (N_of_ascii <$> list_ascii_of_string t) as [|b [|b' [|b'' [|]]]]; try done.
  - destruct (N.ltb_spec a 128); [|done]. intros _. apply andb_false_iff. left.
    apply N.leb_gt. lia.
  - destruct (_ && _) eqn:E; [|done]. intros _.
    apply andb_true_iff in E as [E _]. apply N.leb_le in E.
    apply andb_false_iff. right. apply N.ltb_ge. lia.
  - destruct (_ && _) eqn:E; [|done]. intros _.
    apply andb_true_iff in E as [[E _]%andb_true_iff _]. apply N.leb_le in E.
    apply andb_false_iff. right. apply N.ltb_ge. lia.
  - destruct (_ && _) eqn:E; [|done]. intros _.
    apply andb_true_iff in E as [[E _]%andb_true_iff _]. apply N.leb_le in E.
    apply andb_false_iff. right. apply N.ltb_ge. lia.
Qed.

Lemma blank_lead s : blank s = true -> Str.starts_inside s = false.
Proof.
  unfold blank. rewrite <- (chars_head_inside s).
  destruct (Str.chars s) as [|ch l]; [done|]. cbn [forallb hd].
  intros [H _]%andb_true_iff. by apply isspace_lead.
Qed.

Lemma drop_while_all {A} (p : A -> bool) l1 l2 :
  forallb p l1 = true -> Str.drop_while p (l1 ++ l2) = Str.drop_while p l2.
Proof.
  induction l1 as [|x l1 IH]; [done|]. cbn [forallb app Str.drop_while].
  intros [-> H]%andb_true_iff. by apply IH.
Qed.

Lemma drop_while_some {A} (p : A -> bool) l1 l2 :
  Str.drop_while p l1 <> [] ->
  Str.drop_while p (l1 ++ l2) = (Str.drop_while p l1 ++ l2)%list.
Proof.
  induction l1 as [|x l1 IH]; [done|]. cbn [app Str.drop_while].
  destruct (p x); [apply IH|done].
Qed.

Lemma drop_while_forallb {A} (p : A -> bool) l :
  Str.drop_while p l = [] -> forallb p l = true.
Proof.
  induction l as [|x l IH]; [done|]. cbn [Str.drop_while forallb].
  destruct (p x); [apply IH|done].
Qed.

Lemma drop_end_all {A} (p : A -> bool) l1 l2 :
  forallb p l2 = true -> Str.drop_end p (l1 ++ l2) = Str.drop_end p l1.
Proof.
  intros H2. induction l1 as [|x l1 IH].
  - cbn [app]. induction l2 as [|y l2 IH2]; [done|]. cbn [forallb] in H2.
    apply andb_true_iff in H2 as [Hy H2]. cbn [Str.drop_end]. by rewrite IH2, Hy.
  - cbn [app Str.drop_end]. by rewrite IH.
Qed.

Lemma drop_end_kept {A} (p : A -> bool) l x :
  p x = false -> Str.drop_end p (l ++ [x]) = (l ++ [x])%list.
Proof.
  intros Hx. induction l as [|y l IH]; cbn [app Str.drop_end].
  - by rewrite Hx.
  - rewrite IH. by destruct l.
Qed.

Lemma strip_append_blank s t : blank t = true -> Str.strip (s +:+ t) = Str.strip s.
Proof.
  intros Ht. apply chars_inj. rewrite !chars_strip, chars_app by (by apply blank_lead).
  destruct (Str.drop_while Str.isspace (Str.chars s)) as [|x r] eqn:E.
  - apply drop_while_forallb in E. rewrite drop_while_all by done.
    destruct (drop_while_suffix Str.isspace (Str.chars t)) as (l1 & E1 & _).
    assert (Hall : forallb Str.isspace (Str.drop_while Str.isspace (Str.chars t)) = true).
    { unfold blank in Ht. rewrite E1, forallb_app in Ht.
      by apply andb_true_iff in Ht as [_ ?]. }
    rewrite <- (app_nil_l (Str.drop_while _ _)). by rewrite drop_end_all.
  - rewrite drop_while_some by (by rewrite E). rewrite E. by apply drop_end_all.
Qed.

(** White space around a text between two fences. *)
Lemma strip_around before after y :
  blank before = true -> blank after = true ->
  Str.strip (before +:+ (fence +:+ y +:+ fence) +:+ after) = fence +:+ y +:+ fence.
Proof.
  intros Hb Ha. apply chars_inj. rewrite chars_strip.
  set (X := fence +:+ y +:+ fence).
  rewrite (chars_app before (X +:+ after)) by reflexivity.
  rewrite (chars_app X after) by (by apply blank_lead).
  rewrite drop_while_all by exact Hb.
  assert (Hhead : exists l, Str.chars X = ("`" :: l)%list).
  { exists (Str.chars ("``" +:+ y +:+ fence)).
    change X with (String "`" ("" +:+ ("``" +:+ y +:+ fence))).
    apply chars_of_char; [done|]. by rewrite chars_head_inside. }
  assert (Hlast : exists l, Str.chars X = (l ++ ["`"])%list).
  { exists (Str.chars (fence +:+ y +:+ "``")).
    assert (E : X = (fence +:+ y +:+ "``") +:+ "`").
    { unfold X. rewrite !append_assoc. reflexivity. }
    rewrite E. by rewrite chars_app. }
  destruct Hhead as (l1 & E1). rewrite E1. cbn [app].
  rewrite drop_while_keep by reflexivity.
  change ("`" :: (l1 ++ Str.chars after))%list with (("`" :: l1) ++ Str.chars after)%list.
  rewrite <- E1. rewrite drop_end_all by exact Ha.
  destruct Hlast as (l2 & E2). rewrite E2. by apply drop_end_kept.
Qed.

Lemma chop_fence s : chop 3 (s +:+ fence) = s.
Proof.
  unfold chop, Str.take. rewrite chars_app by reflexivity.
  change (Str.chars fence) with ["`"; "`"; "`"].
  rewrite length_app. cbn [length].
  replace (length (Str.chars s) + 3 - 3)%nat with (length (Str.chars s) + 0)%nat by lia.
  rewrite List.firstn_app_2. cbn [List.firstn]. rewrite app_nil_r. apply concat_chars.
Qed.

End FenceFacts.

(** X9. Code-fence stripping.  For a reply made of an opening fence with
    a language tag on its first line, a body and a closing fence, with any
    white space before and after it, the text handed to [json.loads] is
    the stripped body, whether or not a newline precedes the closing
    fence. *)
Theorem fenced_reply_unwrapped (before after lang body : string) :
  blank before = true ->
  blank after = true ->
  Str.contains nl lang = false ->
  strip_fence (Str.strip (before +:+ fence +:+ lang +:+ nl +:+ body +:+ fence +:+ after))
  = Str.strip body /\
  strip_fence (Str.strip (before +:+ fence +:+ lang +:+ nl +:+ body +:+ nl +:+ fence
                          +:+ after))
  = Str.strip body.
Proof.
  intros Hbefore Hafter Hlang.
  assert (Hgen : forall b,
             strip_fence (Str.strip (before +:+ fence +:+ lang +:+ nl +:+ b +:+ fence
                                     +:+ after))
             = Str.strip b).
  { intros b.
    assert (Hstrip : Str.strip (before +:+ fence +:+ lang +:+ nl +:+ b +:+ fence +:+ after)
                     = fence +:+ lang +:+ nl +:+ b +:+ fence).
    { replace (before +:+ fence +:+ lang +:+ nl +:+ b +:+ fence +:+ after)
        with (before +:+ (fence +:+ (lang +:+ nl +:+ b) +:+ fence) +:+ after)
        by (by rewrite !append_assoc).
      rewrite strip_around by done. by rewrite !append_assoc. }
    rewrite Hstrip. unfold strip_fence.
    unfold Str.startswith. rewrite prefix_append.
    assert (Hnl : Str.contains nl (fence +:+ lang +:+ nl +:+ b +:+ fence) = true).
    { rewrite <- (append_assoc fence lang). apply contains_newline_append. }
    rewrite Hnl.
    assert (Haft : after_newline (fence +:+ lang +:+ nl +:+ b +:+ fence) = b +:+ fence).
    { rewrite <- (append_assoc fence lang). apply after_newline_append.
      unfold fence. rewrite !append_cons, !contains_newline_cons, append_nil_l.
      by rewrite Hlang. }
    rewrite Haft, endswith_append. by rewrite chop_fence. }
  split; [apply Hgen|].
  rewrite <- (append_assoc body nl (fence +:+ after)). rewrite Hgen.
  by apply strip_append_blank.
Qed.

Lemma fenced_reply_unwrapped_witness :
  strip_fence (Str.strip (" " +:+ nl +:+ "```json" +:+ nl +:+ "{}" +:+ nl +:+ "```" +:+ nl))
  = "{}".
Proof.
  exact (proj2 (fenced_reply_unwrapped (" " +:+ nl) nl "json" "{}" eq_refl eq_refl eq_refl)).
Defined.

(** ** Sorting *)

Section SortFacts.

Context {A K : Type} `{EqDecision K} (key : A -> K) (ltb : K -> K -> bool).

Lemma insert_desc_Permutation x l : insert_desc key ltb x l ≡ₚ x :: l.
Proof.
  induction l as [|y l IH]; cbn [insert_desc]; [done|].
  destruct (ltb (key x) (key y)); [|done]. rewrite IH. apply Permutation_swap.
Qed.

Lemma sorted_desc_Permutation l : sorted_desc key ltb l ≡ₚ l.
Proof.
  induction l as [|x l IH]; cbn [sorted_desc foldr]; [done|].
  fold (sorted_desc key ltb l). by rewrite insert_desc_Permutation, IH.
Qed.

Lemma insert_desc_stable (p : A -> bool) x l :
  (forall y, y ∈ l -> p x = true -> ltb (key x) (key y) = true -> p y = false) ->
  List.filter p (insert_desc key ltb x l) = List.filter p (x :: l).
Proof.
  induction l as [|y l IH]; intros Hp; cbn [insert_desc]; [done|].
  destruct (ltb (key x) (key y)) eqn:E; [|done].
  cbn [List.filter]. rewrite IH by (intros z Hz; apply Hp; by right).
  cbn [List.filter]. destruct (p x) eqn:Hx; [|done].
  by rewrite (Hp y ltac:(by left) eq_refl E).
Qed.

Context (ltb_irrefl : forall a, ltb a a = false).

(** Stability: the items of one key keep the order they had. *)
Lemma sorted_desc_stable k l :
  List.filter (fun y => bool_decide (key y = k)) (sorted_desc key ltb l)
  = List.filter (fun y => bool_decide (key y = k)) l.
Proof.
  induction l as [|x l IH]; cbn [sorted_desc foldr]; [done|].
  fold (sorted_desc key ltb l). rewrite insert_desc_stable.
  - cbn [List.filter]. by rewrite IH.
  - intros y _ Hx%bool_decide_eq_true Hlt. apply bool_decide_eq_false. intros Hy.
    rewrite Hx, Hy, ltb_irrefl in Hlt. done.
Qed.

Context (ltb_asym : forall a b, ltb a b = true -> ltb b a = false).
Context (geb_trans : forall a b c, ltb a b = false -> ltb b c = false -> ltb a c = false).

Lemma insert_desc_sorted x l :
  StronglySorted (not_below key ltb) l ->
  StronglySorted (not_below key ltb) (insert_desc key ltb x l).
Proof.
  induction 1 as [|y l Hl IH Hy]; cbn [insert_desc].
  { repeat constructor. }
  destruct (ltb (key x) (key y)) eqn:E.
  - constructor; [done|]. apply Forall_forall. intros z Hz.
    apply (elem_of_Permutation_proper _ _ _ (insert_desc_Permutation x l)) in Hz.
    apply elem_of_cons in Hz as [->|Hz].
    + by apply ltb_asym.
    + rewrite Forall_forall in Hy. by apply Hy.
  - constructor; [by constructor|]. constructor; [done|].
    apply Forall_forall. intros z Hz. rewrite Forall_forall in Hy.
    apply (geb_trans _ (key y)); [done|]. by apply Hy.
Qed.

Lemma sorted_desc_sorted l : StronglySorted (not_below key ltb) (sorted_desc key ltb l).
Proof.
  induction l as [|x l IH]; cbn [sorted_desc foldr]; [constructor|].
  by apply insert_desc_sorted.
Qed.

(** Nothing left out of the first [n] ranks above something kept. *)
Lemma take_sorted_best n l x y :
  x ∈ take n (sorted_desc key ltb l) ->
  y ∈ drop n (sorted_desc key ltb l) ->
  not_below key ltb x y.
Proof.
  intros Hx Hy. pose proof (sorted_desc_sorted l) as Hs.
  rewrite <- (take_drop n (sorted_desc key ltb l)) in Hs.
  revert Hs. generalize (take n (sorted_desc key ltb l)) (drop n (sorted_desc key ltb l)) Hx Hy.
  clear. intros l1 l2 Hx Hy Hs.
  induction l1 as [|a l1 IH]; [by apply elem_of_nil in Hx|].
  cbn [app] in Hs. apply StronglySorted_inv in Hs as [Hs Ha].
  apply elem_of_cons in Hx as [->|Hx]; [|by apply IH].
  rewrite Forall_forall in Ha. apply Ha. apply elem_of_app. by right.
Qed.

End SortFacts.

Section Orders.

Lemma Zltb_irrefl a : (a <? a) = false.
Proof. apply Z.ltb_irrefl. Qed.

Lemma Zltb_asym a b : (a <? b) = true -> (b <? a) = false.
Proof. rewrite Z.ltb_lt, Z.ltb_ge. lia. Qed.

Lemma Zgeb_trans a b c : (a <? b) = false -> (b <? c) = false -> (a <? c) = false.
Proof. rewrite !Z.ltb_ge. lia. Qed.

Lemma pair_ltb_spec a b :
  pair_ltb a b = true <-> a.1 < b.1 \/ (a.1 = b.1 /\ a.2 < b.2).
Proof.
  unfold pair_ltb. rewrite orb_true_iff, andb_true_iff, !Z.ltb_lt, Z.eqb_eq. tauto.
Qed.

Lemma pair_ltb_false a b :
  pair_ltb a b = false <-> b.1 < a.1 \/ (a.1 = b.1 /\ b.2 <= a.2).
Proof.
  rewrite <- not_true_iff_false, pair_ltb_spec. lia.
Qed.

Lemma pair_ltb_irrefl a : pair_ltb a a = false.
Proof. apply pair_ltb_false. lia. Qed.

Lemma pair_ltb_asym a b : pair_ltb a b = true -> pair_ltb b a = false.
Proof. rewrite pair_ltb_spec, pair_ltb_false. lia. Qed.

Lemma pair_geb_trans a b c :
  pair_ltb a b = false -> pair_ltb b c = false -> pair_ltb a c = false.
Proof. rewrite !pair_ltb_false. lia. Qed.

Lemma Natltb_irrefl a : (a <? a)%nat = false.
Proof. apply Nat.ltb_irrefl. Qed.

Lemma Natltb_asym a b : (a <? b)%nat = true -> (b <? a)%nat = false.
Proof. rewrite Nat.ltb_lt, Nat.ltb_ge. lia. Qed.

Lemma Natgeb_trans a b c :
  (a <? b)%nat = false -> (b <? c)%nat = false -> (a <? c)%nat = false.
Proof. rewrite !Nat.ltb_ge. lia. Qed.

End Orders.

(** ** More on loading *)

Section LoadOrder.

Context (st : gmap string Folder).

Lemma summarize_load_folders_shape folders :
  folder_of <$> (Summarize.load_folders st folders).1
  = (fun f => Some (JStr f)) <$> List.filter (summarize_loads st) folders /\
  (length (Summarize.load_folders st folders).1
   + length (Summarize.load_folders st folders).2
   = length (List.filter (output_exists st) folders))%nat.
Proof.
  induction folders as [|f fs [IH1 IH2]]; cbn [Summarize.load_folders List.filter]; [done|].
  destruct (Summarize.load_folders st fs) as [rs es]. cbn [fst snd] in *.
  assert (Ho : output_exists st f = match analysis_of st f with Some _ => true | None => false end)
    by done.
  rewrite Ho. unfold summarize_loads at 1.
  destruct (analysis_of st f) as [c|]; [|done].
  destruct (Summarize.load_one f c) as [d|e] eqn:Hl; cbn [fst snd returns length fmap list_fmap].
  - split; [|lia]. rewrite <- IH1. f_equal. unfold folder_of.
    by apply summarize_load_one_folder in Hl.
  - split; [done|]. cbn [length]. lia.
Qed.

Lemma deep_load_folders_shape folders :
  folder_of <$> DeepAnalysis.load_folders st folders
  = (fun f => Some (JStr f)) <$> List.filter (deep_loads st) folders.
Proof.
  induction folders as [|f fs IH]; cbn [DeepAnalysis.load_folders List.filter]; [done|].
  unfold deep_loads at 1. destruct (analysis_of st f) as [c|]; [|done].
  destruct (DeepAnalysis.load_one f c) as [d|e] eqn:Hl; cbn [returns fmap list_fmap]; [|done].
  rewrite <- IH. f_equal. unfold folder_of. by apply deep_load_one_folder in Hl.
Qed.

Lemma StronglySorted_List_filter {A} (R : relation A) (p : A -> bool) l :
  StronglySorted R l -> StronglySorted R (List.filter p l).
Proof.
  induction 1 as [|x l Hl IH Hx]; cbn [List.filter]; [constructor|].
  destruct (p x); [|done]. constructor; [done|].
  apply Forall_forall. intros y [Hy _]%elem_of_List_filter.
  rewrite Forall_forall in Hx. by apply Hx.
Qed.

Lemma sorted_listdir_sorted : StronglySorted String.le (sorted (listdir st)).
Proof. apply StronglySorted_merge_sort; apply _. Qed.

End LoadOrder.

(** X10. Load order and bookkeeping of [summarize.load_all].  The records
    are loaded in ascending order of their folder names, one per folder,
    each carrying its folder in [_folder]; and every existing result file
    is counted exactly once, as a loaded record or as a parse error. *)
Theorem load_all_ordered_and_complete (st : gmap string Folder) :
  exists folders,
    folder_of <$> (Summarize.load_all st).1 = (fun f => Some (JStr f)) <$> folders /\
    StronglySorted String.le folders /\
    NoDup folders /\
    (forall f, f ∈ folders <-> summarize_loads st f = true) /\
    (length (Summarize.load_all st).1 + length (Summarize.load_all st).2
     = length (List.filter (output_exists st) (sorted (listdir st))))%nat.
Proof.
  exists (List.filter (summarize_loads st) (sorted (listdir st))).
  destruct (summarize_load_folders_shape st (sorted (listdir st))) as [H1 H2].
  split_and!; [done| | | |done].
  - apply StronglySorted_List_filter, sorted_listdir_sorted.
  - apply NoDup_List_filter, NoDup_sorted_listdir.
  - intros f. rewrite elem_of_List_filter. split; [by intros [_ ?]|].
    intros Hf. split; [|done]. unfold summarize_loads in Hf.
    destruct (analysis_of st f) eqn:Ha; [|done]. by eapply analysis_of_listed.
Qed.

(** X11. [deep_analysis.load_all] loads every file that
    [summarize.load_all] loads, in the same order, and never fails on the
    relevance score: its records always carry an int score and an int
    year. *)
Theorem deep_loads_what_summarize_loads (st : gmap string Folder) :
  (forall f, summarize_loads st f = true -> deep_loads st f = true) /\
  folder_of <$> DeepAnalysis.load_all st
  = (fun f => Some (JStr f)) <$> List.filter (deep_loads st) (sorted (listdir st)) /\
  Forall (fun d => exists score year,
              Dict.get "relevance_score" d = Some (JInt score) /\
              Dict.get "year" d = Some (JInt year))
         (DeepAnalysis.load_all st).
Proof.
  split_and!.
  - intros f. unfold summarize_loads, deep_loads.
    destruct (analysis_of st f) as [c|]; [|done].
    unfold Summarize.load_one, DeepAnalysis.load_one.
    destruct (json_load c) as [j|]; [|done]. cbn [mbind Outcome_bind].
    destruct (setitem j _ _) as [d|]; [|done]. cbn [mbind Outcome_bind].
    destruct (normalize_category _) as [pc|]; [|done]. cbn [mbind Outcome_bind].
    unfold normalize_secondary.
    rewrite !has_set_ne by done. unfold Dict.get_default. rewrite !get_set_ne by done.
    destruct (Dict.has "secondary_categories" d); [|done].
    destruct (py_iter _) as [items|]; [|done]. cbn [mbind Outcome_bind].
    by destruct (mapM normalize_category items).
  - apply deep_load_folders_shape.
  - apply Forall_forall. intros d (f & c & _ & _ & Hl)%deep_results_spec.
    unfold DeepAnalysis.load_one in Hl.
    destruct (json_load c) as [j|]; [|done]. cbn [mbind Outcome_bind] in Hl.
    destruct (setitem j _ _) as [d0|]; [|done]. cbn [mbind Outcome_bind] in Hl.
    destruct (normalize_category _) as [pc|]; [|done]. cbn [mbind Outcome_bind] in Hl.
    eexists _, _.
    rewrite (normalize_secondary_get "relevance_score" _ _ ltac:(done) Hl).
    rewrite (normalize_secondary_get "year" _ _ ltac:(done) Hl).
    rewrite get_set_eq, get_set_ne, get_set_eq by done. done.
Qed.

Lemma deep_loads_what_summarize_loads_witness :
  deep_loads corrupt_store "GOOD0001" = true.
Proof.
  apply (proj1 (deep_loads_what_summarize_loads corrupt_store) "GOOD0001").
  reflexivity.
Defined.

Lemma mapM_normalize_category_closed items cs :
  mapM normalize_category items = Ok cs -> Forall (fun c => In c category_values) cs.
Proof.
  revert cs. induction items as [|v items IH]; intros cs; cbn [mapM].
  { intros [= <-]. constructor. }
  destruct (normalize_category v) as [c|] eqn:Hc; [|done]. cbn [mbind Outcome_bind].
  destruct (mapM normalize_category items) as [cs'|]; [|done]. cbn [mbind Outcome_bind].
  intros [= <-]. constructor; [by eapply normalize_category_closed|by apply IH].
Qed.

Lemma normalize_secondary_form d d' v :
  normalize_secondary d = Ok d' ->
  Dict.get "secondary_categories" d' = Some v ->
  exists cs, v = JArr (JStr <$> cs) /\ Forall (fun c => In c category_values) cs.
Proof.
  unfold normalize_secondary, Dict.has.
  destruct (Dict.get "secondary_categories" d) eqn:Hd.
  - destruct (py_iter _) as [items|]; [|done]. cbn [mbind Outcome_bind].
    destruct (mapM normalize_category items) as [cs|] eqn:Hm; [|done].
    cbn [mbind Outcome_bind]. intros [= <-]. rewrite get_set_eq. intros [= <-].
    exists cs. split; [done|]. by eapply mapM_normalize_category_closed.
  - intros [= <-]. by rewrite Hd.
Qed.

(** X12. Every record that [summarize.load_all] returns is normalised:
    its primary category is one of A to F or "Unknown", its secondary
    categories, when the key is present, are a list of such values, and
    its relevance score, when present, is an int or null. *)
Theorem summarize_records_normalised (st : gmap string Folder) :
  Forall (fun d =>
            (exists pc, Dict.get "primary_category" d = Some (JStr pc) /\
                        In pc category_values) /\
            (forall v, Dict.get "secondary_categories" d = Some v ->
                       exists cs, v = JArr (JStr <$> cs) /\
                                  Forall (fun c => In c category_values) cs) /\
            (forall v, Dict.get "relevance_score" d = Some v ->
                       v = JNull \/ exists z, v = JInt z))
         (Summarize.load_all st).1.
Proof.
  apply Forall_forall. intros d (f & c & _ & _ & Hl)%summarize_results_spec.
  unfold Summarize.load_one in Hl.
  destruct (json_load c) as [j|]; [|done]. cbn [mbind Outcome_bind] in Hl.
  destruct (setitem j _ _) as [d0|]; [|done]. cbn [mbind Outcome_bind] in Hl.
  destruct (normalize_category _) as [pc|] eqn:Hpc; [|done]. cbn [mbind Outcome_bind] in Hl.
  destruct (normalize_secondary _) as [d1|] eqn:Hs; [|done]. cbn [mbind Outcome_bind] in Hl.
  split_and!.
  - exists pc. split; [|by eapply normalize_category_closed].
    rewrite (coerce_score_get "primary_category" _ _ ltac:(done) Hl).
    rewrite (normalize_secondary_get "primary_category" _ _ ltac:(done) Hs).
    apply get_set_eq.
  - intros v Hv. rewrite (coerce_score_get "secondary_categories" _ _ ltac:(done) Hl) in Hv.
    by eapply normalize_secondary_form.
  - intros v. revert Hl. unfold Summarize.coerce_score, Dict.get_none, Dict.get_default.
    destruct (Dict.get "relevance_score" d1) as [rs|] eqn:Hrs.
    + destruct (is_None rs) eqn:Hn; cbn [negb].
      * intros [= <-]. rewrite Hrs. intros [= <-]. left. by destruct rs.
      * destruct (py_int rs) as [z|[]]; try done; intros [= <-];
          rewrite get_set_eq; intros [= <-]; right; by eexists.
    + cbn [is_None negb]. intros [= <-]. by rewrite Hrs.
Qed.

Lemma summarize_records_normalised_witness :
  Forall (fun d => exists pc, Dict.get "primary_category" d = Some (JStr pc) /\
                              In pc category_values)
         (Summarize.load_all corrupt_store).1.
Proof.
  eapply Forall_impl; [apply (summarize_records_normalised corrupt_store)|].
  intros d (H & _). exact H.
Defined.

(** X13. What makes a well-formed JSON file fail to load.  A document
    that is not an object, and an object whose primary category is a
    non-empty string of white space, are both rejected by the two loaders:
    [summarize.load_all] lists the folder, with [TypeError] respectively
    [IndexError], and neither loader returns a record for it. *)
Theorem unloadable_documents
    (st : gmap string Folder) (folder : string) (fo : Folder) (j : json) :
  st !! folder = Some fo ->
  analysis fo = Some (Doc j) ->
  ((forall d, j <> JObj d) ->
   (folder, TypeError) ∈ (Summarize.load_all st).2 /\
   summarize_loads st folder = false /\ deep_loads st folder = false) /\
  (forall d s, j = JObj d ->
               Dict.get "primary_category" d = Some (JStr s) ->
               s <> "" -> Str.strip s = "" ->
   (folder, IndexError) ∈ (Summarize.load_all st).2 /\
   summarize_loads st folder = false /\ deep_loads st folder = false).
Proof.
  intros Hst Han.
  assert (Ha : analysis_of st folder = Some (Doc j)).
  { unfold analysis_of. by rewrite Hst. }
  split.
  - intros Hj.
    assert (H1 : Summarize.load_one folder (Doc j) = Raise TypeError).
    { unfold Summarize.load_one. cbn [json_load mbind Outcome_bind].
      destruct j; try done. by destruct (Hj d). }
    assert (H2 : DeepAnalysis.load_one folder (Doc j) = Raise TypeError).
    { unfold DeepAnalysis.load_one. cbn [json_load mbind Outcome_bind].
      destruct j; try done. by destruct (Hj d). }
    split_and!.
    + by eapply summarize_failed.
    + unfold summarize_loads. by rewrite Ha, H1.
    + unfold deep_loads. by rewrite Ha, H2.
  - intros d s -> Hpc Hs Hstrip.
    assert (Hnc : normalize_category
                    (Dict.get_none "primary_category" (Dict.set "_folder" (JStr folder) d))
                  = Raise IndexError).
    { unfold Dict.get_none, Dict.get_default. rewrite get_set_ne by done. rewrite Hpc.
      unfold normalize_category. cbn [truthy isinstance_str negb orb].
      apply String.eqb_neq in Hs as ->. cbn [negb]. by rewrite Hstrip. }
    assert (H1 : Summarize.load_one folder (Doc (JObj d)) = Raise IndexError).
    { unfold Summarize.load_one. cbn [json_load setitem mbind Outcome_bind]. by rewrite Hnc. }
    assert (H2 : DeepAnalysis.load_one folder (Doc (JObj d)) = Raise IndexError).
    { unfold DeepAnalysis.load_one. cbn [json_load setitem mbind Outcome_bind]. by rewrite Hnc. }
    split_and!.
    + by eapply summarize_failed.
    + unfold summarize_loads. by rewrite Ha, H1.
    + unfold deep_loads. by rewrite Ha, H2.
Qed.

Lemma unloadable_documents_witness :
  ("LIST0001", TypeError) ∈ (Summarize.load_all odd_store).2 /\
  ("BLNK0002", IndexError) ∈ (Summarize.load_all odd_store).2.
Proof.
  split.
  - eapply (proj1 (unloadable_documents odd_store "LIST0001" _ (JArr []) eq_refl eq_refl)).
    discriminate.
  - eapply (proj2 (unloadable_documents odd_store "BLNK0002" _ _ eq_refl eq_refl)
              [("primary_category", JStr " ")] " "); try reflexivity. discriminate.
Defined.

(** ** The tallies of [summarize.main] *)

Lemma sum_counts_incr pc primary :
  In pc category_values ->
  sum_counts (Counter.upd (JStr pc) (fun o => S (default O o)) primary) category_values
  = S (sum_counts primary category_values).
Proof.
  intros Hpc. unfold sum_counts, category_values, categories, Summarize.category_count.
  cbn [app foldr]. rewrite !get_upd_str.
  cbn in Hpc. destruct Hpc as [<-|[<-|[<-|[<-|[<-|[<-|[<-|[]]]]]]]]; cbn; lia.
Qed.

Lemma primary_counts_totals results :
  Forall has_category results ->
  forall primary,
  exists primary',
    Summarize.primary_counts results primary = Ok primary' /\
    sum_counts primary' category_values
    = (sum_counts primary category_values + length results)%nat /\
    Counter.total primary' = (Counter.total primary + length results)%nat.
Proof.
  induction 1 as [|r results (pc & Hpc & Hin) _ IH]; intros primary;
    cbn [Summarize.primary_counts length].
  { exists primary. split_and!; [done|lia..]. }
  unfold Dict.get_default. rewrite Hpc. unfold Counter.incr, Counter.update.
  cbn [hashable mbind Outcome_bind].
  destruct (IH (Counter.upd (JStr pc) (fun o => S (default O o)) primary))
    as (primary' & -> & Hs & Ht).
  exists primary'. split; [done|]. rewrite Hs, Ht, sum_counts_incr, total_upd_incr by done.
  lia.
Qed.

(** X14. The category distribution of [summarize.main] adds up: on the
    records [load_all] returns the tally is computed without error, and the
    counts of A to F and "Unknown" together, as well as all counts of the
    tally together, equal the number of loaded records. *)
Theorem category_counts_add_up (st : gmap string Folder) :
  exists primary,
    Summarize.primary_counts (Summarize.load_all st).1 [] = Ok primary /\
    sum_counts primary category_values = length (Summarize.load_all st).1 /\
    Counter.total primary = length (Summarize.load_all st).1.
Proof.
  assert (Hcat : Forall has_category (Summarize.load_all st).1).
  { eapply Forall_impl; [apply summarize_records_normalised|]. by intros d (H & _). }
  destruct (primary_counts_totals _ Hcat []) as (primary & Hp & Hs & Ht).
  exists primary. split_and!; [done|exact Hs|exact Ht].
Qed.

Lemma tally_total keys :
  Forall (fun k => hashable k = true) keys ->
  forall c, exists c',
    tally keys c = Ok c' /\ Counter.total c' = (Counter.total c + length keys)%nat.
Proof.
  induction 1 as [|k keys Hk _ IH]; intros c; cbn [tally length].
  { exists c. split; [done|lia]. }
  unfold Counter.incr, Counter.update. rewrite Hk. cbn [mbind Outcome_bind].
  destruct (IH (Counter.upd k (fun o => S (default O o)) c)) as (c' & -> & Ht).
  exists c'. split; [done|]. rewrite Ht, total_upd_incr. lia.
Qed.

Lemma secondary_counts_total results :
  Forall lists_categories results ->
  forall c, exists c',
    SummarizeMain.secondary_counts results c = Ok c' /\
    Counter.total c' = (Counter.total c + sum_list (secondary_entries <$> results))%nat.
Proof.
  induction 1 as [|r results Hr _ IH]; intros c;
    cbn [SummarizeMain.secondary_counts].
  { exists c. split; [done|cbn; lia]. }
  rewrite fmap_cons. change (sum_list (?x :: ?l)) with (x + sum_list l)%nat.
  assert (Hiter : exists keys,
             py_iter (Dict.get_default "secondary_categories" (JArr []) r) = Ok keys /\
             Forall (fun k => hashable k = true) keys /\
             length keys = secondary_entries r).
  { unfold Dict.get_default, secondary_entries.
    destruct (Dict.get "secondary_categories" r) as [v|] eqn:Hv.
    - destruct (Hr v Hv) as (cs & -> & _). exists (JStr <$> cs). split_and!; [done| |done].
      apply Forall_fmap, Forall_true. done.
    - exists []. by split_and!. }
  destruct Hiter as (keys & -> & Hh & Hlen). cbn [mbind Outcome_bind].
  destruct (tally_total keys Hh c) as (c1 & -> & Ht1). cbn [mbind Outcome_bind].
  destruct (IH c1) as (c' & -> & Ht). exists c'. split; [done|].
  rewrite Ht, Ht1, Hlen. lia.
Qed.

(** X15. The secondary-category distribution is a multi-count: on the
    records [load_all] returns it is computed without error and its counts
    add up to the number of secondary categories listed over all records,
    so a record with two secondary categories counts twice and one without
    the key not at all. *)
Theorem secondary_counts_are_multi_counts (st : gmap string Folder) :
  exists secondary,
    SummarizeMain.secondary_counts (Summarize.load_all st).1 [] = Ok secondary /\
    Counter.total secondary
    = sum_list (secondary_entries <$> (Summarize.load_all st).1).
Proof.
  assert (H : Forall lists_categories (Summarize.load_all st).1).
  { eapply Forall_impl; [apply summarize_records_normalised|]. by intros d (_ & H & _). }
  destruct (secondary_counts_total _ H []) as (c' & Hc & Ht).
  exists c'. split; [done|]. by rewrite Ht.
Qed.

(** ** The core papers of [summarize.main] *)

Section Core.

Lemma py_ge_int z n : py_ge (JInt z) n = Ok (n <=? z).
Proof.
  unfold py_ge. cbn [numval_of numval_compare_int]. rewrite Z.leb_refl.
  change (2 ^ 0) with 1. rewrite Z.mul_1_r. f_equal.
  destruct (Z.compare_spec z n), (Z.leb_spec n z); done || lia.
Qed.

Lemma category_is_E r :
  key_eqb (Dict.get_none "primary_category" r) (JStr "E") = true <->
  Dict.get "primary_category" r = Some (JStr "E").
Proof.
  rewrite key_eqb_str_r. unfold Dict.get_none, Dict.get_default.
  destruct (Dict.get "primary_category" r); split; congruence.
Qed.

Lemma is_core_returns r :
  score_loaded r -> ~ null_core r -> SummarizeMain.is_core r = Ok (core_test r).
Proof.
  intros Hs Hn. unfold SummarizeMain.is_core, core_test, SummarizeMain.score_key.
  destruct (key_eqb _ (JStr "E")) eqn:E; [|done]. apply category_is_E in E.
  unfold Dict.get_default.
  destruct (Dict.get "relevance_score" r) as [v|] eqn:Hv.
  - destruct (Hs v Hv) as [->|(z & ->)]; [by destruct Hn|]. apply py_ge_int.
  - apply py_ge_int.
Qed.

Lemma is_core_raises r : null_core r -> SummarizeMain.is_core r = Raise TypeError.
Proof.
  intros (Hc%category_is_E & Hs). unfold SummarizeMain.is_core. rewrite Hc.
  unfold Dict.get_default. by rewrite Hs.
Qed.

Lemma is_core_outcome r :
  score_loaded r ->
  SummarizeMain.is_core r = Raise TypeError \/ exists b, SummarizeMain.is_core r = Ok b.
Proof.
  intros Hs. unfold SummarizeMain.is_core.
  destruct (key_eqb _ (JStr "E")); [|right; by eexists].
  unfold Dict.get_default.
  destruct (Dict.get "relevance_score" r) as [v|] eqn:Hv.
  - destruct (Hs v Hv) as [->|(z & ->)]; [by left|]. right. rewrite py_ge_int. by eexists.
  - right. rewrite py_ge_int. by eexists.
Qed.

Lemma filterM_Ok {A} (p : A -> Outcome bool) (q : A -> bool) l :
  Forall (fun x => p x = Ok (q x)) l -> filterM p l = Ok (List.filter q l).
Proof.
  induction 1 as [|x l Hx _ IH]; cbn [filterM List.filter]; [done|].
  rewrite Hx, IH. done.
Qed.

Lemma filterM_Raise {A} (p : A -> Outcome bool) e l :
  Forall (fun x => p x = Raise e \/ exists b, p x = Ok b) l ->
  Exists (fun x => p x = Raise e) l ->
  filterM p l = Raise e.
Proof.
  induction 1 as [|x l Hx Hl IH]; intros Hex; [by apply Exists_nil in Hex|].
  cbn [filterM]. destruct Hx as [->|(b & Hb)]; [done|].
  rewrite Hb. apply Exists_cons in Hex as [Hex|Hex]; [congruence|].
  cbn [mbind Outcome_bind]. by rewrite IH.
Qed.

Lemma elem_of_List_filter_1 {A} (q : A -> bool) x l :
  x ∈ List.filter q l -> x ∈ l /\ q x = true.
Proof. rewrite !list_elem_of_In. apply filter_In. Qed.

End Core.

(** X16. The core-paper selection of section 9 of [summarize.main]
    (category E, score at least 4, sorted by score), evaluated on the
    records [load_all] returns: if some record of category E has a null
    score the selection raises [TypeError]; otherwise it is exactly the E
    records whose score is an int of at least 4 (a missing score counts as
    0), in descending order of score, records of equal score in load
    order. *)
Theorem core_selection (st : gmap string Folder) :
  let results := (Summarize.load_all st).1 in
  (Exists null_core results ->
   SummarizeMain.core_papers results = Raise TypeError) /\
  (~ Exists null_core results ->
   exists core,
     SummarizeMain.core_papers results = Ok core /\
     core ≡ₚ List.filter core_test results /\
     StronglySorted (not_below SummarizeMain.score_key Z.ltb) core /\
     (forall k, List.filter (same_score k) core
                = List.filter (same_score k) (List.filter core_test results)) /\
     Forall (fun r => Dict.get "primary_category" r = Some (JStr "E") /\
                      exists z, Dict.get "relevance_score" r = Some (JInt z) /\ 4 <= z)
            core).
Proof.
  intros results.
  assert (Hs : Forall score_loaded results).
  { eapply Forall_impl; [apply summarize_records_normalised|]. by intros d (_ & _ & H). }
  split.
  - intros Hex. unfold SummarizeMain.core_papers.
    rewrite (filterM_Raise _ TypeError); [done| |].
    + eapply Forall_impl; [exact Hs|]. intros r Hr. by apply is_core_outcome.
    + eapply Exists_impl; [exact Hex|]. intros r Hr. by apply is_core_raises.
  - intros Hno. unfold SummarizeMain.core_papers.
    rewrite (filterM_Ok _ core_test).
    2:{ rewrite Forall_forall in Hs. apply Forall_forall. intros r Hr.
        apply is_core_returns; [by apply Hs|]. intros Hn. apply Hno.
        apply Exists_exists. eauto. }
    cbn [mbind Outcome_bind]. eexists. split; [done|]. split_and!.
    + apply sorted_desc_Permutation.
    + apply sorted_desc_sorted; [apply Zltb_asym|apply Zgeb_trans].
    + intros k. apply sorted_desc_stable, Zltb_irrefl.
    + apply Forall_forall. intros r Hr.
      rewrite sorted_desc_Permutation in Hr.
      apply elem_of_List_filter_1 in Hr as (Hr & Ht).
      unfold core_test in Ht. apply andb_true_iff in Ht as (Hc%category_is_E & Hz).
      split; [done|]. rewrite Forall_forall in Hs. specialize (Hs r Hr).
      unfold SummarizeMain.score_key, Dict.get_default in Hz.
      destruct (Dict.get "relevance_score" r) as [v|] eqn:Hv; [|cbn in Hz; lia].
      destruct (Hs v Hv) as [->|(z & ->)]; [cbn in Hz; lia|].
      exists z. split; [done|]. cbn [as_int] in Hz. lia.
Qed.

Lemma core_selection_witness :
  SummarizeMain.core_papers (Summarize.load_all null_core_store).1 = Raise TypeError /\
  exists core, SummarizeMain.core_papers (Summarize.load_all clean_store).1 = Ok core.
Proof.
  split.
  - apply (proj1 (core_selection null_core_store)).
    apply Exists_exists. eexists. split; [|split].
    + apply (list_elem_of_lookup_2 _ 1%nat). vm_compute. reflexivity.
    + reflexivity.
    + reflexivity.
  - destruct (proj2 (core_selection clean_store)) as (core & H & _); [|by exists core].
    intros (r & Hr & _ & Hn)%Exists_exists. revert Hr Hn.
    remember (Summarize.load_all clean_store).1 as l eqn:E. vm_compute in E. subst l.
    intros [->|[]%elem_of_nil]%elem_of_cons. discriminate.
Defined.

(** ** The records and groups of [deep_analysis] *)

Section DeepGroups.

Lemma deep_load_one_ready f c d : DeepAnalysis.load_one f c = Ok d -> deep_ready d.
Proof.
  intros Hl. pose proof (deep_load_one_folder _ _ _ Hl) as Hf. revert Hl.
  unfold DeepAnalysis.load_one.
  destruct c as [j|]; [|done]. cbn [json_load mbind Outcome_bind].
  destruct j as [| | | | | |d0]; try done. cbn [setitem mbind Outcome_bind].
  destruct (normalize_category _) as [pc|] eqn:Hpc; [|done]. cbn [mbind Outcome_bind].
  intros Hs. eexists pc, _, _, f. split_and!.
  - rewrite (normalize_secondary_get "primary_category" _ _ ltac:(done) Hs).
    rewrite !get_set_ne by done. apply get_set_eq.
  - by eapply normalize_category_closed.
  - rewrite (normalize_secondary_get "relevance_score" _ _ ltac:(done) Hs).
    rewrite get_set_ne by done. apply get_set_eq.
  - rewrite (normalize_secondary_get "year" _ _ ltac:(done) Hs). apply get_set_eq.
  - done.
Qed.

Lemma deep_load_all_ready st : Forall deep_ready (DeepAnalysis.load_all st).
Proof.
  apply Forall_forall. intros d (f & c & _ & _ & Hl)%deep_results_spec.
  by eapply deep_load_one_ready.
Qed.

Lemma group_into_spec (key : dict -> Outcome json) (skey : dict -> string) l :
  Forall (fun r => key r = Ok (JStr (skey r))) l ->
  forall groups, exists groups',
    group_into key l groups = Ok groups' /\
    forall s, default [] (Counter.get (JStr s) groups')
              = (default [] (Counter.get (JStr s) groups)
                 ++ List.filter (fun r => String.eqb (skey r) s) l)%list.
Proof.
  induction 1 as [|r l Hr _ IH]; intros groups; cbn [group_into List.filter].
  { exists groups. split; [done|]. intros s. by rewrite app_nil_r. }
  rewrite Hr. cbn [mbind Outcome_bind]. unfold Counter.update. cbn [hashable].
  cbn [mbind Outcome_bind].
  destruct (IH (Counter.upd (JStr (skey r))
                  (fun o => (default [] o ++ [r])%list) groups)) as (groups' & -> & Hg).
  exists groups'. split; [done|]. intros s. rewrite Hg, get_upd_str.
  cbn [key_eqb]. destruct (String.eqb_spec (skey r) s) as [->|Hne].
  - cbn [default from_option id]. by rewrite <- app_assoc.
  - done.
Qed.

Lemma category_key_ready r :
  deep_ready r -> DeepAnalysisMain.category_key r = Ok (JStr (category_of r)).
Proof.
  intros (pc & z & y & f & Hpc & _). unfold DeepAnalysisMain.category_key, category_of.
  cbn [Analyze.getitem]. by rewrite Hpc.
Qed.

Lemma group_by_category_loaded st :
  exists by_cat,
    DeepAnalysisMain.group_by_category (DeepAnalysis.load_all st) = Ok by_cat /\
    forall cat, DeepAnalysisMain.papers_of by_cat cat
                = List.filter (in_category cat) (DeepAnalysis.load_all st).
Proof.
  destruct (group_into_spec DeepAnalysisMain.category_key category_of
              (DeepAnalysis.load_all st)) with (groups := @nil (json * list dict))
    as (by_cat & Hg & Hs).
  { eapply Forall_impl; [apply deep_load_all_ready|]. apply category_key_ready. }
  exists by_cat. split; [done|]. intros cat. unfold DeepAnalysisMain.papers_of.
  by rewrite Hs.
Qed.

Lemma group_sizes_skip r l cats :
  category_of r ∉ cats ->
  sum_list ((fun cat => length (List.filter (in_category cat) (r :: l))) <$> cats)
  = sum_list ((fun cat => length (List.filter (in_category cat) l)) <$> cats).
Proof.
  induction cats as [|c cats IH]; intros Hc; [done|].
  apply not_elem_of_cons in Hc as (Hc & Hcs). rewrite !fmap_cons.
  change (sum_list (?x :: ?k)) with (x + sum_list k)%nat. rewrite IH by done.
  cbn [List.filter]. unfold in_category at 1.
  by destruct (String.eqb_spec (category_of r) c).
Qed.

Lemma group_sizes_step r l cats :
  NoDup cats -> category_of r ∈ cats ->
  sum_list ((fun cat => length (List.filter (in_category cat) (r :: l))) <$> cats)
  = S (sum_list ((fun cat => length (List.filter (in_category cat) l)) <$> cats)).
Proof.
  induction 1 as [|c cats Hc Hnd IH]; intros Hin; [by apply elem_of_nil in Hin|].
  rewrite !fmap_cons. change (sum_list (?x :: ?k)) with (x + sum_list k)%nat.
  destruct (String.eqb_spec (category_of r) c) as [E|E].
  - rewrite group_sizes_skip by (by rewrite E).
    cbn [List.filter]. unfold in_category at 1. rewrite E, String.eqb_refl. done.
  - apply elem_of_cons in Hin as [Hin|Hin]; [done|]. rewrite IH by done.
    cbn [List.filter]. unfold in_category at 1.
    apply String.eqb_neq in E as ->. lia.
Qed.

Lemma categories_cover l :
  Forall deep_ready l ->
  length l = sum_list ((fun cat => length (List.filter (in_category cat) l))
                         <$> category_values).
Proof.
  induction 1 as [|r l (pc & z & y & f & Hpc & Hin & _) _ IH].
  { done. }
  rewrite group_sizes_step.
  - cbn [length]. by rewrite IH.
  - by apply (bool_decide_unpack _).
  - unfold category_of. rewrite Hpc. by apply list_elem_of_In.
Qed.

Lemma filter_take_prefix {A} (p : A -> bool) n l :
  List.filter p (take n l) `prefix_of` List.filter p l.
Proof.
  rewrite <- (take_drop n l) at 2. rewrite List.filter_app. by eexists.
Qed.

End DeepGroups.

(** X17. Every record that [deep_analysis.load_all] returns has a primary
    category among A to F and "Unknown", an int relevance score, an int
    year and its folder name; so the reads [r["primary_category"]],
    [x["relevance_score"]] and [x["year"]] of [main] cannot raise
    [KeyError], and the sort keys are pairs of ints. *)
Theorem deep_records_normalised (st : gmap string Folder) :
  Forall (fun d =>
            exists pc z y f,
              Analyze.getitem (JObj d) "primary_category" = Ok (JStr pc) /\
              In pc category_values /\
              Analyze.getitem (JObj d) "relevance_score" = Ok (JInt z) /\
              Analyze.getitem (JObj d) "year" = Ok (JInt y) /\
              Analyze.getitem (JObj d) "_folder" = Ok (JStr f) /\
              DeepAnalysisMain.rank_key d = (z, y))
         (DeepAnalysis.load_all st).
Proof.
  eapply Forall_impl; [apply deep_load_all_ready|].
  intros d (pc & z & y & f & Hpc & Hin & Hz & Hy & Hf). exists pc, z, y, f.
  unfold DeepAnalysisMain.rank_key, Dict.get_none, Dict.get_default.
  cbn [Analyze.getitem]. rewrite Hpc, Hz, Hy, Hf. done.
Qed.

(** X18. Grouping by category in [deep_analysis.main] never raises on the
    loaded records; the group of a category is the loaded records of that
    category in load order, and the groups of A to F and "Unknown" together
    hold every loaded record once. *)
Theorem categories_partition (st : gmap string Folder) :
  exists by_cat,
    DeepAnalysisMain.group_by_category (DeepAnalysis.load_all st) = Ok by_cat /\
    (forall cat, DeepAnalysisMain.papers_of by_cat cat
                 = List.filter (in_category cat) (DeepAnalysis.load_all st)) /\
    length (DeepAnalysis.load_all st)
    = sum_list ((fun cat => length (DeepAnalysisMain.papers_of by_cat cat))
                  <$> category_values).
Proof.
  destruct (group_by_category_loaded st) as (by_cat & Hg & Hp).
  exists by_cat. split_and!; [done|done|].
  rewrite (categories_cover _ (deep_load_all_ready st)).
  f_equal. apply list_fmap_ext. intros _ cat _. by rewrite Hp.
Qed.

(** X19. The representative papers of a background category are the
    [limit] best loaded papers of the category by (score, year): there are
    [min limit n] of them out of [n], they are in descending order, no
    paper left out ranks above one that is kept, and among papers of equal
    rank the ones loaded first are kept, in load order. *)
Theorem representatives_are_top_ranked
    (st : gmap string Folder) (by_cat : Counter.t (list dict))
    (cat : string) (limit : nat) :
  DeepAnalysisMain.group_by_category (DeepAnalysis.load_all st) = Ok by_cat ->
  let papers := List.filter (in_category cat) (DeepAnalysis.load_all st) in
  let reps := DeepAnalysisMain.representatives by_cat cat limit in
  length reps = Nat.min limit (length papers) /\
  StronglySorted (not_below DeepAnalysisMain.rank_key pair_ltb) reps /\
  (exists rest,
      (reps ++ rest)%list ≡ₚ papers /\
      forall x y, x ∈ reps -> y ∈ rest ->
                  pair_ltb (DeepAnalysisMain.rank_key x) (DeepAnalysisMain.rank_key y) = false) /\
  (forall k, List.filter (same_rank k) reps `prefix_of` List.filter (same_rank k) papers).
Proof.
  intros Hg papers reps. subst reps. unfold DeepAnalysisMain.representatives.
  destruct (group_by_category_loaded st) as (by_cat' & Hg' & Hp).
  rewrite Hg in Hg'. injection Hg' as <-. rewrite Hp. fold papers. split_and!.
  - rewrite length_take.
    by rewrite (Permutation_length (sorted_desc_Permutation _ _ papers)).
  - pose proof (sorted_desc_sorted DeepAnalysisMain.rank_key pair_ltb
                  pair_ltb_asym pair_geb_trans papers) as Hs.
    rewrite <- (take_drop limit (sorted_desc _ _ papers)) in Hs.
    by apply StronglySorted_app_1_l in Hs.
  - exists (drop limit (sorted_desc DeepAnalysisMain.rank_key pair_ltb papers)). split.
    + rewrite take_drop. apply sorted_desc_Permutation.
    + intros x y Hx Hy.
      by apply (take_sorted_best DeepAnalysisMain.rank_key pair_ltb
                  pair_ltb_asym pair_geb_trans limit papers).
  - intros k. unfold same_rank.
    rewrite <- (sorted_desc_stable DeepAnalysisMain.rank_key pair_ltb pair_ltb_irrefl k papers).
    apply filter_take_prefix.
Qed.

Lemma representatives_are_top_ranked_witness :
  exists by_cat,
    DeepAnalysisMain.group_by_category (DeepAnalysis.load_all ranked_store) = Ok by_cat /\
    length (DeepAnalysisMain.representatives by_cat "A" 2)
    = Nat.min 2 (length (List.filter (in_category "A")
                                   (DeepAnalysis.load_all ranked_store))) /\
    (DeepAnalysisMain.rank_key <$> DeepAnalysisMain.representatives by_cat "A" 2)
    = [(5, 2020); (5, 1999)].
Proof.
  eexists. split; [vm_compute; reflexivity|]. split.
  - apply (representatives_are_top_ranked ranked_store _ "A" 2). vm_compute. reflexivity.
  - vm_compute. reflexivity.
Defined.

(** ** The technique groups of chapter 5 *)

Section TechniqueGroups.

Lemma technique_key_str r k :
  DeepAnalysisMain.technique_key r = Ok k -> k = JStr (technique_of r).
Proof.
  intros H. unfold technique_of. rewrite H. revert H.
  unfold DeepAnalysisMain.technique_key. cbv zeta.
  destruct (negb _); [by intros [= <-]|].
  destruct (Analyze.getitem0 _) as [t|]; [|done]. cbn [mbind Outcome_bind].
  destruct t; try done. by intros [= <-].
Qed.

Lemma upd_concat (k : json) (r : dict) (c : Counter.t (list dict)) :
  concat (Counter.upd k (fun o => (default [] o ++ [r])%list) c).*2
  ≡ₚ (concat c.*2 ++ [r])%list.
Proof.
  induction c as [|[k0 v0] c IH]; cbn [Counter.upd]; [done|].
  destruct (key_eqb k0 k); rewrite !fmap_cons; cbn [concat snd].
  - cbn [default from_option id]. rewrite <- !app_assoc.
    apply Permutation_app_head, Permutation_app_comm.
  - by rewrite IH, app_assoc.
Qed.

Lemma upd_proper (s : string) (r : dict) (c : Counter.t (list dict)) :
  Forall proper_group c ->
  Forall proper_group (Counter.upd (JStr s) (fun o => (default [] o ++ [r])%list) c).
Proof.
  induction 1 as [|[k0 v0] c Hg Hc IH]; cbn [Counter.upd].
  { repeat constructor; [by eexists|]. cbn. discriminate. }
  destruct (key_eqb k0 (JStr s)).
  - constructor; [|done]. destruct Hg as (Hk & Hv). split; [done|].
    cbn. by destruct v0.
  - by constructor.
Qed.

Lemma upd_keys {V} (k : json) (f : option V -> V) (c : Counter.t V) x :
  x ∈ (Counter.upd k f c).*1 -> x ∈ c.*1 \/ x = k.
Proof.
  induction c as [|[k0 v0] c IH]; cbn [Counter.upd].
  - rewrite fmap_cons. intros [->|[]%elem_of_nil]%elem_of_cons. by right.
  - destruct (key_eqb k0 k); rewrite !fmap_cons; cbn [fst].
    + by left.
    + intros [->|Hin]%elem_of_cons; [left; by left|].
      destruct (IH Hin) as [?|?]; [left; by right|by right].
Qed.

Lemma upd_keys_NoDup {V} (s : string) (f : option V -> V) (c : Counter.t V) :
  NoDup c.*1 -> NoDup (Counter.upd (JStr s) f c).*1.
Proof.
  induction c as [|[k0 v0] c IH]; cbn [Counter.upd]; intros Hnd.
  { rewrite fmap_cons. apply NoDup_singleton. }
  rewrite fmap_cons in Hnd. apply NoDup_cons in Hnd as (Hk0 & Hnd). cbn [fst] in Hk0.
  destruct (key_eqb k0 (JStr s)) eqn:E; rewrite !fmap_cons; cbn [fst].
  - by apply NoDup_cons.
  - apply NoDup_cons. split; [|by apply IH].
    intros [?| ->]%upd_keys; [done|].
    by rewrite (proj2 (key_eqb_str_r _ _) eq_refl) in E.
Qed.

Lemma group_into_shape (key : dict -> Outcome json) (skey : dict -> string) l :
  Forall (fun r => key r = Ok (JStr (skey r))) l ->
  forall groups groups',
    group_into key l groups = Ok groups' ->
    (Forall proper_group groups -> Forall proper_group groups') /\
    (NoDup groups.*1 -> NoDup groups'.*1) /\
    concat groups'.*2 ≡ₚ (concat groups.*2 ++ l)%list.
Proof.
  induction 1 as [|r l Hr _ IH]; intros groups groups'; cbn [group_into].
  { intros [= <-]. split_and!; [done|done|by rewrite app_nil_r]. }
  rewrite Hr. cbn [mbind Outcome_bind]. unfold Counter.update. cbn [hashable].
  cbn [mbind Outcome_bind]. intros (Hp & Hn & Hc)%IH. split_and!.
  - intros H. by apply Hp, upd_proper.
  - intros H. by apply Hn, upd_keys_NoDup.
  - rewrite Hc, upd_concat, <- app_assoc. done.
Qed.

Lemma group_into_raises (key : dict -> Outcome json) l :
  Exists (fun r => exists e, key r = Raise e) l ->
  forall groups, exists e, group_into key l groups = Raise e.
Proof.
  induction 1 as [r l (e & He)|r l _ IH]; intros groups; cbn [group_into].
  { rewrite He. by exists e. }
  destruct (key r) as [k|e]; [|by exists e]. cbn [mbind Outcome_bind].
  destruct (Counter.update k _ groups) as [g|e]; [|by exists e].
  cbn [mbind Outcome_bind]. apply IH.
Qed.

Lemma List_filter_split {A} (p q : A -> bool) l :
  Forall (fun x => q x = negb (p x)) l ->
  (List.filter p l ++ List.filter q l)%list ≡ₚ l.
Proof.
  induction 1 as [|x l Hx _ IH]; cbn [List.filter]; [done|].
  rewrite Hx. destruct (p x); cbn [negb app].
  - by rewrite IH.
  - by rewrite <- Permutation_middle, IH.
Qed.

Lemma Forall_List_filter {A} (p : A -> bool) l : Forall (fun x => p x = true) (List.filter p l).
Proof.
  apply Forall_forall. intros x Hx. apply list_elem_of_In in Hx.
  by apply filter_In in Hx as (_ & Hx).
Qed.

End TechniqueGroups.

(** X20. The technique groups of the D and E papers.  When the first
    technique of every paper that lists one is a string, the grouping
    returns; the group of a name is the papers whose first technique
    normalises to it (or that list none, for "Other / Untagged"), in
    order; the groups have distinct names, none is empty and together
    they hold every paper once.  Chapter 5 shows each group once: the
    groups of two or more papers as numbered sections in descending order
    of size, the groups of one paper in the closing list. *)
Theorem technique_groups_partition (papers : list dict) :
  Forall (fun r => exists k, DeepAnalysisMain.technique_key r = Ok k) papers ->
  exists groups,
    DeepAnalysisMain.group_by_technique papers = Ok groups /\
    (forall s, default [] (Counter.get (JStr s) groups)
               = List.filter (uses_technique s) papers) /\
    Forall proper_group groups /\
    NoDup groups.*1 /\
    concat groups.*2 ≡ₚ papers /\
    (DeepAnalysisMain.numbered_sections groups
     ++ DeepAnalysisMain.small_techniques groups)%list ≡ₚ groups /\
    Forall (fun g => (2 <= length g.2)%nat) (DeepAnalysisMain.numbered_sections groups) /\
    Forall (fun g => length g.2 = 1%nat) (DeepAnalysisMain.small_techniques groups) /\
    StronglySorted (not_below DeepAnalysisMain.group_size Nat.ltb)
                   (DeepAnalysisMain.numbered_sections groups).
Proof.
  intros Hk.
  assert (Hs : Forall (fun r => DeepAnalysisMain.technique_key r = Ok (JStr (technique_of r)))
                      papers).
  { eapply Forall_impl; [exact Hk|]. intros r (k & Hr). rewrite Hr. f_equal.
    by apply technique_key_str. }
  destruct (group_into_spec _ _ _ Hs []) as (groups & Hg & Hget).
  destruct (group_into_shape _ _ _ Hs _ _ Hg) as (Hp & Hn & Hc).
  specialize (Hp ltac:(constructor)). specialize (Hn ltac:(constructor)).
  exists groups. split_and!; try done.
  - unfold DeepAnalysisMain.numbered_sections, DeepAnalysisMain.small_techniques.
    rewrite List_filter_split; [apply sorted_desc_Permutation|].
    apply Forall_forall. intros g Hin.
    unfold DeepAnalysisMain.sorted_techniques in Hin. rewrite sorted_desc_Permutation in Hin.
    rewrite Forall_forall in Hp. destruct (Hp g Hin) as (_ & Hne).
    unfold DeepAnalysisMain.group_size. destruct g as [k [|x v]]; [done|]. cbn [snd length].
    rewrite negb_involutive. change (0 <? S (length v))%nat with true.
    by rewrite andb_true_r.
  - eapply Forall_impl; [apply Forall_List_filter|]. intros g Hg'. cbn beta in Hg'.
    apply negb_true_iff, Nat.ltb_ge in Hg'. exact Hg'.
  - eapply Forall_impl; [apply Forall_List_filter|]. intros g Hg'. cbn beta in Hg'.
    apply andb_true_iff in Hg' as (H1%Nat.ltb_lt & H2%Nat.ltb_lt).
    unfold DeepAnalysisMain.group_size in *. lia.
  - apply StronglySorted_List_filter.
    apply sorted_desc_sorted; [apply Natltb_asym|apply Natgeb_trans].
Qed.

Lemma technique_groups_partition_witness :
  exists groups,
    DeepAnalysisMain.group_by_technique tagged_papers = Ok groups /\
    default [] (Counter.get (JStr "Transfer Learning") groups)
    = List.filter (uses_technique "Transfer Learning") tagged_papers /\
    length (default [] (Counter.get (JStr "Transfer Learning") groups)) = 2%nat.
Proof.
  destruct (technique_groups_partition tagged_papers) as (groups & Hg & Hget & _).
  { repeat constructor; eexists; vm_compute; reflexivity. }
  exists groups. split_and!; [done|apply Hget|].
  rewrite Hget. vm_compute. reflexivity.
Defined.

(** X21. A D or E paper whose first listed technique is not a string
    makes the grouping, and with it [main], end in an exception. *)
Theorem untyped_technique_aborts (papers : list dict) (r : dict) (v : json) (vs : list json) :
  r ∈ papers ->
  Dict.get "core_technique" r = Some (JArr (v :: vs)) ->
  (forall s, v <> JStr s) ->
  exists e, DeepAnalysisMain.group_by_technique papers = Raise e.
Proof.
  intros Hin Hr Hv. apply group_into_raises. apply Exists_exists. exists r.
  split; [done|]. exists AttributeError.
  unfold DeepAnalysisMain.technique_key, Dict.get_default. rewrite Hr.
  cbn [truthy negb Analyze.getitem0 mbind Outcome_bind].
  destruct v; try done. by destruct (Hv s).
Qed.

Lemma untyped_technique_aborts_witness :
  exists e, DeepAnalysisMain.group_by_technique
              [tagged (JArr [JStr "Kriging"]) "P1"; tagged (JArr [JInt 3]) "P2"] = Raise e.
Proof.
  apply (untyped_technique_aborts _ (tagged (JArr [JInt 3]) "P2") (JInt 3) []).
  - apply elem_of_cons. right. apply elem_of_cons. by left.
  - reflexivity.
  - discriminate.
Defined.

(** ** Method names and the trend tables *)

Section Trends.

Lemma mapping_get_value m mapping v :
  DeepAnalysisMain.mapping_get m mapping = Some v -> v ∈ mapping.*2.
Proof.
  induction mapping as [|[k0 v0] mapping IH]; cbn [DeepAnalysisMain.mapping_get]; [done|].
  rewrite fmap_cons. destruct (String.eqb m k0).
  - intros [= ->]. by left.
  - intros H. right. by apply IH.
Qed.

Lemma method_names_fixed :
  Forall (fun kv => DeepAnalysisMain.normalize_method kv.1 = kv.2 /\
                    DeepAnalysisMain.normalize_method kv.2 = kv.2)
         DeepAnalysisMain.method_mapping.
Proof. unfold DeepAnalysisMain.method_mapping. repeat constructor. Qed.

Lemma py_lt_int z n : py_lt (JInt z) n = Ok (z <? n).
Proof.
  unfold py_lt. cbn [numval_of numval_compare_int]. rewrite Z.leb_refl.
  change (2 ^ 0) with 1. rewrite Z.mul_1_r. reflexivity.
Qed.

Lemma grand_total_upd (nm : json) (row : Counter.t nat) (table : Counter.t (Counter.t nat)) :
  Counter.total row = S (Counter.total (default [] (Counter.get nm table))) ->
  grand_total (Counter.upd nm (fun _ => row) table) = S (grand_total table).
Proof.
  unfold grand_total, Counter.values.
  induction table as [|[k0 v0] table IH]; cbn [Counter.upd Counter.get]; intros Hrow.
  - cbn [fmap list_fmap snd].
    change (sum_list (?x :: ?k)) with (x + sum_list k)%nat. rewrite Hrow. cbn. lia.
  - destruct (key_eqb k0 nm); cbn [fmap list_fmap snd];
      change (sum_list (?x :: ?k)) with (x + sum_list k)%nat.
    + rewrite Hrow. cbn [default from_option id]. lia.
    + cbn [fmap list_fmap snd] in IH. rewrite IH by done. lia.
Qed.

Lemma grand_total_incr (nm y : json) (table : Counter.t (Counter.t nat)) :
  grand_total
    (Counter.upd nm
       (fun _ => Counter.upd y (fun o => S (default O o))
                             (default [] (Counter.get nm table))) table)
  = S (grand_total table).
Proof. apply grand_total_upd, total_upd_incr. Qed.

Lemma count_labels_total norm (labels : list string) y table :
  hashable y = true ->
  exists table',
    DeepAnalysisMain.count_labels norm (JStr <$> labels) y table = Ok table' /\
    grand_total table' = (grand_total table + length labels)%nat.
Proof.
  intros Hy. revert table.
  induction labels as [|s labels IH]; intros table; cbn [DeepAnalysisMain.count_labels fmap list_fmap].
  { exists table. split; [done|]. cbn. lia. }
  cbn [mbind Outcome_bind]. unfold Counter.incr, Counter.update. rewrite Hy.
  cbn [hashable mbind Outcome_bind].
  match goal with |- context [DeepAnalysisMain.count_labels _ _ _ ?t] =>
    destruct (IH t) as (table' & Ht & Hn) end.
  exists table'. split; [exact Ht|]. rewrite Hn, grand_total_incr. cbn [length]. lia.
Qed.

End Trends.

(** X22. [normalize_method] replaces a name by its entry in the table and
    leaves the names the table produces unchanged, so normalising twice is
    normalising once; white space around the name is ignored. *)
Theorem normalize_method_idempotent (m : string) :
  DeepAnalysisMain.normalize_method (DeepAnalysisMain.normalize_method m)
  = DeepAnalysisMain.normalize_method m /\
  DeepAnalysisMain.normalize_method (Str.strip m) = DeepAnalysisMain.normalize_method m /\
  Forall (fun kv => DeepAnalysisMain.normalize_method kv.1 = kv.2 /\
                    DeepAnalysisMain.normalize_method kv.2 = kv.2)
         DeepAnalysisMain.method_mapping.
Proof.
  split_and!; [|unfold DeepAnalysisMain.normalize_method; by rewrite strip_idem
               |apply method_names_fixed].
  unfold DeepAnalysisMain.normalize_method at 2 3. cbv zeta.
  destruct (DeepAnalysisMain.mapping_get (Str.strip m) _) as [v|] eqn:E.
  - apply mapping_get_value in E. apply list_elem_of_fmap in E as ([k v'] & -> & Hin).
    pose proof method_names_fixed as H. rewrite Forall_forall in H.
    by destruct (H _ Hin) as (_ & Hv).
  - unfold DeepAnalysisMain.normalize_method. by rewrite strip_idem, E.
Qed.

(** X23. The trend tables of [deep_analysis.main] count the label
    occurrences of the papers from 2010 on.  For papers whose year is an
    int and whose labels are a list of strings, the table is computed
    without error, the papers before 2010 (the papers of unknown year,
    which load as year 0, among them) have no effect on it, and its
    counts add up to the number of labels the other papers list. *)
Theorem trend_tables_count_recent_labels
    (field : string) (norm : string -> string) (papers : list dict) :
  Forall (labelled field) papers ->
  exists table,
    DeepAnalysisMain.year_table field norm papers [] = Ok table /\
    DeepAnalysisMain.year_table field norm (List.filter recent papers) [] = Ok table /\
    grand_total table = sum_list (label_count field <$> List.filter recent papers).
Proof.
  intros H.
  assert (Hgen : forall table0, exists table,
             DeepAnalysisMain.year_table field norm papers table0 = Ok table /\
             DeepAnalysisMain.year_table field norm (List.filter recent papers) table0
             = Ok table /\
             grand_total table
             = (grand_total table0
                + sum_list (label_count field <$> List.filter recent papers))%nat).
  { induction H as [|r papers ((y & Hy) & labels & Hl) _ IH]; intros table0.
    { exists table0. split_and!; [done|done|cbn; lia]. }
    assert (Hrecent : recent r = negb (y <? 2010)).
    { unfold recent, year_of, Dict.get_default. rewrite Hy. cbn [as_int].
      destruct (Z.leb_spec 2010 y), (Z.ltb_spec y 2010); done || lia. }
    assert (Hstep : forall rest,
               DeepAnalysisMain.year_table field norm (r :: rest) table0
               = if (y <? 2010) then DeepAnalysisMain.year_table field norm rest table0
                 else table ← DeepAnalysisMain.count_labels norm (JStr <$> labels)
                                (JInt y) table0;
                      DeepAnalysisMain.year_table field norm rest table).
    { intros rest. cbn [DeepAnalysisMain.year_table]. cbv zeta.
      assert (Hyr : Dict.get_default "year" (JInt 0) r = JInt y).
      { unfold Dict.get_default. by rewrite Hy. }
      rewrite Hyr, py_lt_int. cbn [mbind Outcome_bind].
      destruct (y <? 2010); [done|]. by rewrite Hl. }
    cbn [List.filter]. rewrite Hrecent, Hstep. destruct (y <? 2010) eqn:E; cbn [negb].
    - apply IH.
    - rewrite Hstep.
      destruct (count_labels_total norm labels (JInt y) table0 eq_refl)
        as (table1 & -> & H1). cbn [mbind Outcome_bind].
      destruct (IH table1) as (table & Ht & Hf & Hg).
      exists table. split_and!; [done|done|].
      rewrite Hg, H1, fmap_cons.
      change (sum_list (?x :: ?k)) with (x + sum_list k)%nat.
      unfold label_count at 2. rewrite Hl, length_fmap. lia. }
  destruct (Hgen []) as (table & Ht & Hf & Hg). exists table. by split_and!.
Qed.

Lemma trend_tables_count_recent_labels_witness :
  exists table,
    DeepAnalysisMain.method_year dated_papers = Ok table /\
    grand_total table = 3%nat.
Proof.
  destruct (trend_tables_count_recent_labels "ml_methods"
              DeepAnalysisMain.normalize_method dated_papers) as (table & Ht & _ & Hg).
  { repeat constructor; try (by eexists); by eexists [_; _] || by eexists [_]. }
  exists table. split; [exact Ht|]. rewrite Hg. vm_compute. reflexivity.
Defined.

(** ** The label tallies of [summarize.main] *)

Section Labels.

Lemma tally_labels_count (labels : list string) :
  forall c, exists c',
    SummarizeMain.tally_labels (JStr <$> labels) c = Ok c' /\
    forall s, count_of (JStr s) c'
              = (count_of (JStr s) c
                 + length (List.filter (names s) (JStr <$> labels)))%nat.
Proof.
  induction labels as [|m labels IH]; intros c;
    cbn [SummarizeMain.tally_labels fmap list_fmap List.filter].
  { exists c. split; [done|]. intros s. cbn. lia. }
  cbn [truthy names]. destruct (String.eqb m "") eqn:E; cbn [negb andb].
  { apply IH. }
  cbn [Analyze.py_strip mbind Outcome_bind]. unfold Counter.incr, Counter.update.
  cbn [hashable mbind Outcome_bind].
  destruct (IH (Counter.upd (JStr (Str.strip m)) (fun o => S (default O o)) c))
    as (c' & -> & Hc).
  exists c'. split; [done|]. intros s. rewrite Hc. unfold count_of.
  rewrite get_upd_str. cbn [key_eqb].
  destruct (String.eqb (Str.strip m) s) eqn:Es.
  - apply String.eqb_eq in Es as <-. cbn [default from_option id length]. lia.
  - lia.
Qed.

End Labels.

(** X24. The method and technique tallies of [summarize.main] count by
    stripped name.  When the field of every record is a list of strings or
    missing, the tally is computed without error, and the count of a name
    is the number of listed labels that are not empty and equal the name
    once their surrounding white space is removed; so an empty label is
    never counted, and a label of white space only is counted under the
    empty name. *)
Theorem label_counts_by_stripped_name (field : string) (results : list dict) :
  Forall (string_labels field) results ->
  exists c,
    SummarizeMain.label_counts field results [] = Ok c /\
    forall s, count_of (JStr s) c
              = sum_list ((fun r => length (List.filter (names s) (labels_of field r)))
                            <$> results).
Proof.
  intros H.
  assert (Hgen : forall c0, exists c,
             SummarizeMain.label_counts field results c0 = Ok c /\
             forall s, count_of (JStr s) c
                       = (count_of (JStr s) c0
                          + sum_list ((fun r => length (List.filter (names s)
                                                          (labels_of field r)))
                                        <$> results))%nat).
  { induction H as [|r results (labels & Hl) _ IH]; intros c0;
      cbn [SummarizeMain.label_counts].
    { exists c0. split; [done|]. intros s. cbn. lia. }
    rewrite Hl. cbn [py_iter mbind Outcome_bind].
    destruct (tally_labels_count labels c0) as (c1 & -> & H1). cbn [mbind Outcome_bind].
    destruct (IH c1) as (c & -> & Hc). exists c. split; [done|]. intros s.
    rewrite Hc, H1, fmap_cons.
    change (sum_list (?x :: ?k)) with (x + sum_list k)%nat.
    unfold labels_of at 2. rewrite Hl. lia. }
  destruct (Hgen []) as (c & Hc & Hs). exists c. split; [done|]. intros s.
  by rewrite Hs.
Qed.

Lemma label_counts_by_stripped_name_witness :
  exists c,
    SummarizeMain.label_counts "ml_methods" methods_sample [] = Ok c /\
    count_of (JStr "CNN") c = 3%nat /\ count_of (JStr "") c = 1%nat.
Proof.
  destruct (label_counts_by_stripped_name "ml_methods" methods_sample) as (c & Hc & Hs).
  { constructor; [by exists ["CNN"; ""; " CNN "]|].
    constructor; [by exists []|].
    constructor; [by exists ["  "; "CNN"]|]. constructor. }
  exists c. split; [exact Hc|]. rewrite !Hs. split; vm_compute; reflexivity.
Defined.
